(** * Backhaul: tunnel control plane and connection dispatch

  A shallow embedding of the Go sources
    - internal/utils/signals.go            (signal alphabet)
    - internal/client/transport/tcp.go     (TCP client: pool sizer,
                                            control-channel consumer, Restart)
    - the TCP server transport             (accept path, pairing loop,
                                            control channel, Restart)
    - internal/server/transport/tcpmux.go  (mux server: accept path, sessions,
                                            control channel)
    - the websocket mux server transport   (accept path)

  Goroutines are modelled as step functions over an explicit state; the
  branch a [select] takes is an input of the step, and a step that is not
  enabled returns [None].  Everything a goroutine does to the outside
  (logging, spawning, closing a socket, channel traffic) is recorded, in
  program order, in a trace of effects. *)

From Stdlib Require Import ZArith String List Bool Lia.
From Stdlib Require Import Permutation Ascii.
Import ListNotations.
Local Open Scope string_scope.
Local Open Scope list_scope.
Local Open Scope Z_scope.

(* ------------------------------------------------------------------ *)
(** ** Go machine integers *)

Module GoInt.

(** Two's-complement wrap-around of a [w]-bit signed integer. *)
Definition wrap (w : Z) (z : Z) : Z :=
  (z + 2 ^ (w - 1)) mod 2 ^ w - 2 ^ (w - 1).

Definition wrap32 : Z -> Z := wrap 32.
(** Go's [int] on the 64-bit targets the program is built for. *)
Definition wrap64 : Z -> Z := wrap 64.

Definition min_int32 : Z := - 2 ^ 31.
Definition max_int32 : Z := 2 ^ 31 - 1.
Definition min_int : Z := - 2 ^ 63.
Definition max_int : Z := 2 ^ 63 - 1.

Definition is_int32 (z : Z) : Prop := min_int32 <= z <= max_int32.
Definition is_int (z : Z) : Prop := min_int <= z <= max_int.

(** [int32] addition and [int] addition / subtraction. *)
Definition add32 (a b : Z) : Z := wrap32 (a + b).
Definition add (a b : Z) : Z := wrap64 (a + b).
Definition sub (a b : Z) : Z := wrap64 (a - b).
(** Go's [/] on integers truncates toward zero. *)
Definition div (a b : Z) : Z := Z.quot a b.

End GoInt.

(* ------------------------------------------------------------------ *)
(** ** internal/utils/signals.go *)

Module Signals.

(** The names of the [const ( ... )] block, in declaration order. *)
Inductive signal : Type :=
| SG_HB      (* for heartbeat *)
| SG_Chan    (* for channel, req a new conn *)
| SG_Ping    (* for ping *)
| SG_Closed  (* for closed channel *)
| SG_TCP
| SG_UDP.

Definition const_block : list signal :=
  [SG_HB; SG_Chan; SG_Ping; SG_Closed; SG_TCP; SG_UDP].

Definition signal_eqb (a b : signal) : bool :=
  match a, b with
  | SG_HB, SG_HB | SG_Chan, SG_Chan | SG_Ping, SG_Ping
  | SG_Closed, SG_Closed | SG_TCP, SG_TCP | SG_UDP, SG_UDP => true
  | _, _ => false
  end.

(** [iota]: the position of a name inside its const block. *)
Fixpoint iota (s : signal) (block : list signal) : Z :=
  match block with
  | [] => 0
  | x :: rest => if signal_eqb s x then 0 else 1 + iota s rest
  end.

(** The [byte] value of a signal constant ([SG_HB byte = iota], the
    following names repeat the expression). *)
Definition byte_of (s : signal) : Z := iota s const_block.

(** Decoding of a wire byte, [None] outside the alphabet. *)
Definition of_byte (b : Z) : option signal :=
  find (fun s => byte_of s =? b) const_block.

End Signals.

(* ------------------------------------------------------------------ *)
(** ** Go channels

  A channel has a capacity, a buffer, the values of the senders parked
  on it and the number of receivers parked on it.  An unbuffered
  channel ([make(chan T)]) has capacity 0: a send completes only by
  meeting a receiver. *)

Module Chan.

Record chan (A : Type) : Type := mk {
  cap   : nat;      (* capacity given to make *)
  buf   : list A;   (* buffered values, oldest first *)
  sendq : list A;   (* values of parked senders, oldest first *)
  recvq : nat       (* parked receivers *)
}.
Arguments mk {A}.
Arguments cap {A}.
Arguments buf {A}.
Arguments sendq {A}.
Arguments recvq {A}.

Section Ops.
Context {A : Type}.

(** [make(chan A, n)] *)
Definition make (n : nat) : chan A :=
  {| cap := n; buf := []; sendq := []; recvq := 0 |}.

(** Outcome of a send that must not park
    ([select { case c <- v: ... default: ... }]). *)
Inductive sent : Type :=
| Handoff (c : chan A)     (* met a parked receiver *)
| Buffered (c : chan A)    (* stored in the buffer *)
| WouldBlock.              (* default branch taken *)

Definition try_send (v : A) (c : chan A) : sent :=
  match recvq c with
  | S n => Handoff {| cap := cap c; buf := buf c; sendq := sendq c; recvq := n |}
  | O =>
      if (length (buf c) <? cap c)%nat
      then Buffered {| cap := cap c; buf := buf c ++ [v];
                       sendq := sendq c; recvq := 0%nat |}
      else WouldBlock
  end.

(** The channel after a non-parking send, [None] when it would park. *)
Definition sent_chan (r : sent) : option (chan A) :=
  match r with
  | Handoff c | Buffered c => Some c
  | WouldBlock => None
  end.

(** No parked receiver and no free buffer slot. *)
Definition full (c : chan A) : bool :=
  match recvq c with
  | S _ => false
  | O => negb (length (buf c) <? cap c)%nat
  end.

(** A plain send [c <- v]: completes at once, or parks the sender. *)
Definition send (v : A) (c : chan A) : chan A * bool :=
  match sent_chan (try_send v c) with
  | Some c' => (c', false)
  | None => ({| cap := cap c; buf := buf c;
                sendq := sendq c ++ [v]; recvq := recvq c |}, true)
  end.

(** A receive that must not park ([select { case <-c: ... default: }]):
    the oldest buffered value (a parked sender then refills the
    buffer), else the value of the oldest parked sender. *)
Definition try_recv (c : chan A) : option (A * chan A) :=
  match buf c with
  | x :: rest =>
      match sendq c with
      | y :: q => Some (x, {| cap := cap c; buf := rest ++ [y];
                              sendq := q; recvq := recvq c |})
      | [] => Some (x, {| cap := cap c; buf := rest;
                          sendq := []; recvq := recvq c |})
      end
  | [] =>
      match sendq c with
      | y :: q => Some (y, {| cap := cap c; buf := [];
                              sendq := q; recvq := recvq c |})
      | [] => None
      end
  end.

(** [make(chan A, n)] with [n] a Go [int]: a negative size panics. *)
Definition make_int (n : Z) : option (chan A) :=
  if n <? 0 then None else Some (make (Z.to_nat n)).

End Ops.

End Chan.

(* ------------------------------------------------------------------ *)
(** ** What a goroutine does to the outside *)

Module Runtime.

(** A [net.Conn] (or a mux session, or a websocket connection) is known
    by an identifier. *)
Definition conn : Type := nat.

Inductive level : Type := Trace | Debug | Info | Warn | Error.

(** The functions started with [go]. *)
Inductive goroutine : Type :=
| g_Monitor
| g_Start
| g_Restart
| g_channelDialer
| g_poolMaintainer
| g_channelHandler
| g_tunnelDialer
| g_tunnelListener
| g_parsePortMappings
| g_handleLoop
| g_handleSession (session : conn)
| g_TCPConnectionHandler (a b : conn).

Inductive effect : Type :=
| Log (l : level) (msg : string)
| Go (g : goroutine)                    (* go f(...) *)
| MutexLock                             (* restartMutex.TryLock() succeeded *)
| MutexUnlock                           (* deferred restartMutex.Unlock() *)
| CtxCancel                             (* cancel() *)
| ConnClose (c : conn)                  (* c.Close() *)
| Sleep (seconds : Z)                   (* time.Sleep *)
| WithCancel (ctx : nat)                (* context.WithCancel(parentctx) *)
| MakeChan (name : string) (size : Z)   (* field = make(chan T, size) *)
| NewDataStore (ctx : nat)              (* web.NewDataStore(..., ctx, ...) *)
| SendBinaryByte (c : option conn) (b : Z)
| OfferReq (accepted : bool)            (* select { case reqNewConnChan <- struct{}{}: default: } *)
| SignalNext                            (* next <- struct{}{} *)
| AwaitDone                             (* <-done *)
| OpenStream (session : conn) (ok : bool)
| Requeue (parks : bool)                (* s.localChannel <- *incomingConn *)
| SendTarget (c : conn) (addr : string) (tag : option Z) (ok : bool).

(** What [utils.ReceiveBinaryByte] returns. *)
Inductive recv_result : Type :=
| RecvByte (b : Z)
| RecvErr.

Definition is_go (g : goroutine -> bool) (e : effect) : bool :=
  match e with Go g' => g g' | _ => false end.

Definition is_tunnelDialer (g : goroutine) : bool :=
  match g with g_tunnelDialer => true | _ => false end.

Definition is_Restart (g : goroutine) : bool :=
  match g with g_Restart => true | _ => false end.

Definition is_close (e : effect) : bool :=
  match e with ConnClose _ => true | _ => false end.

Definition is_opened (e : effect) : bool :=
  match e with OpenStream _ true => true | _ => false end.

Definition is_copier (e : effect) : bool :=
  match e with Go (g_TCPConnectionHandler _ _) => true | _ => false end.

Definition is_offer (e : effect) : bool :=
  match e with OfferReq _ => true | _ => false end.

(** How many goroutines of a kind a trace starts. *)
Definition spawned (g : goroutine -> bool) (t : list effect) : nat :=
  length (filter (is_go g) t).

End Runtime.

(* ------------------------------------------------------------------ *)
(** ** internal/client/transport/tcp.go *)

Module Client.
Import Signals Runtime.

Record TcpConfig : Type := mkConfig {
  ConnPoolSize : Z;        (* int *)
  WebPort      : Z;        (* int *)
  TunnelStatus : string
}.

Record TcpTransport : Type := mkTransport {
  config          : TcpConfig;
  parent_done     : bool;          (* parentctx is cancelled *)
  ctx             : nat;           (* which derived context c.ctx is *)
  ctx_done        : bool;          (* c.ctx.Done() is closed *)
  cancel          : bool;          (* c.cancel != nil *)
  controlChannel  : option conn;
  restartMutex    : bool;          (* locked *)
  poolConnections : Z;             (* int32 *)
  loadConnections : Z;             (* int32 *)
  controlFlow     : Chan.chan unit
}.

Definition with_status (s : string) (c : TcpTransport) : TcpTransport :=
  mkTransport (mkConfig (ConnPoolSize (config c)) (WebPort (config c)) s)
    (parent_done c) (ctx c) (ctx_done c) (cancel c) (controlChannel c)
    (restartMutex c) (poolConnections c) (loadConnections c) (controlFlow c).

Definition with_ctx_done (b : bool) (c : TcpTransport) : TcpTransport :=
  mkTransport (config c) (parent_done c) (ctx c) b (cancel c)
    (controlChannel c) (restartMutex c) (poolConnections c)
    (loadConnections c) (controlFlow c).

Definition with_controlChannel (k : option conn) (c : TcpTransport) : TcpTransport :=
  mkTransport (config c) (parent_done c) (ctx c) (ctx_done c) (cancel c)
    k (restartMutex c) (poolConnections c) (loadConnections c) (controlFlow c).

Definition with_restartMutex (b : bool) (c : TcpTransport) : TcpTransport :=
  mkTransport (config c) (parent_done c) (ctx c) (ctx_done c) (cancel c)
    (controlChannel c) b (poolConnections c) (loadConnections c) (controlFlow c).

Definition with_poolConnections (n : Z) (c : TcpTransport) : TcpTransport :=
  mkTransport (config c) (parent_done c) (ctx c) (ctx_done c) (cancel c)
    (controlChannel c) (restartMutex c) n (loadConnections c) (controlFlow c).

Definition with_loadConnections (n : Z) (c : TcpTransport) : TcpTransport :=
  mkTransport (config c) (parent_done c) (ctx c) (ctx_done c) (cancel c)
    (controlChannel c) (restartMutex c) (poolConnections c) n (controlFlow c).

Definition with_controlFlow (f : Chan.chan unit) (c : TcpTransport) : TcpTransport :=
  mkTransport (config c) (parent_done c) (ctx c) (ctx_done c) (cancel c)
    (controlChannel c) (restartMutex c) (poolConnections c) (loadConnections c) f.

(** [NewTCPClient]: the derived context is number 0. *)
Definition NewTCPClient (parentDone : bool) (cfg : TcpConfig) : TcpTransport :=
  {| config := cfg;
     parent_done := parentDone;
     ctx := 0%nat;
     ctx_done := parentDone;
     cancel := true;
     controlChannel := None;
     restartMutex := false;
     poolConnections := 0;
     loadConnections := 0;
     controlFlow := Chan.make 0 |}.

(** [Start] *)
Definition Start (c : TcpTransport) : TcpTransport * list effect :=
  ( with_status "Disconnected (TCP)" c,
    (if 0 <? WebPort (config c) then [Go g_Monitor] else [])
      ++ [Go g_channelDialer] ).

(** [Restart], up to and including [time.Sleep]: [None] when the mutex
    is taken (the caller logs and returns). *)
Definition Restart_enter (c : TcpTransport) : option TcpTransport * list effect :=
  if restartMutex c then
    (None, [Log Warn "client is already restarting"])
  else
    let c := with_restartMutex true c in
    if cancel c then
      (Some (with_ctx_done true c),
       [MutexLock; Log Info "restarting client..."; CtxCancel; Sleep 2])
    else
      (Some c, [MutexLock; Log Info "restarting client..."; Sleep 2]).

(** [Restart], after the sleep; the deferred unlock runs last. *)
Definition Restart_resume (c : TcpTransport) : TcpTransport * list effect :=
  let ctx' := S (ctx c) in
  ( {| config := mkConfig (ConnPoolSize (config c)) (WebPort (config c)) "";
       parent_done := parent_done c;
       ctx := ctx';
       ctx_done := parent_done c;
       cancel := true;
       controlChannel := None;
       restartMutex := false;
       poolConnections := 0;
       loadConnections := 0;
       controlFlow := Chan.make 0 |},
    [WithCancel ctx'; NewDataStore ctx'; MakeChan "controlFlow" 0;
     Go g_Start; MutexUnlock] ).

Definition Restart (c : TcpTransport) : TcpTransport * list effect :=
  match Restart_enter c with
  | (None, t) => (c, t)
  | (Some c1, t1) =>
      let (c2, t2) := Restart_resume c1 in (c2, t1 ++ t2)
  end.

(** The branch of [channelDialer] that receives the right token back on
    the freshly dialed connection [k]. *)
Definition channelDialer_established (k : conn) (c : TcpTransport)
  : TcpTransport * list effect :=
  ( with_status "Connected (TCP)" (with_controlChannel (Some k) c),
    [Log Info "control channel established successfully";
     Go g_poolMaintainer; Go g_channelHandler] ).

(** *** poolMaintainer *)

Inductive pm_pc : Type :=
| PmSelect       (* at the select of the loop *)
| PmSending      (* parked in [c.controlFlow <- struct{}{}] *)
| PmReturned.

(** The locals of one [poolMaintainer] goroutine. *)
Record poolMaintainer_locals : Type := mkPm {
  newPoolSize        : Z;   (* int *)
  poolConnectionsSum : Z;   (* int32 *)
  pc                 : pm_pc
}.

(** Up to the loop: the initial pool filling and the initial values. *)
Definition poolMaintainer_start (c : TcpTransport)
  : poolMaintainer_locals * list effect :=
  ( {| newPoolSize := ConnPoolSize (config c);
       poolConnectionsSum := 0;
       pc := PmSelect |},
    repeat (Go g_tunnelDialer) (Z.to_nat (ConnPoolSize (config c))) ).

(** [case <-tickerLoad.C:] *)
Definition window_close (c : TcpTransport) (l : poolMaintainer_locals)
  : TcpTransport * poolMaintainer_locals * list effect :=
  let loadConns := GoInt.div (GoInt.add (loadConnections c) 59) 60 in
  let c := with_loadConnections 0 c in
  let poolConnectionsAvg := GoInt.div (GoInt.add (poolConnectionsSum l) 59) 60 in
  if poolConnectionsAvg <? GoInt.div (GoInt.add loadConns 4) 5 then
    (c, mkPm (GoInt.add (newPoolSize l) 1) 0 PmSelect,
     [Log Info "increasing pool size"; Go g_tunnelDialer])
  else if (GoInt.div (GoInt.add loadConns 3) 4 <? poolConnectionsAvg)
          && (ConnPoolSize (config c) <? newPoolSize l) then
    let (f, parks) := Chan.send tt (controlFlow c) in
    (with_controlFlow f c,
     mkPm (GoInt.sub (newPoolSize l) 1) 0 (if parks then PmSending else PmSelect),
     [Log Info "decreasing pool size"])
  else
    (c, mkPm (newPoolSize l) 0 PmSelect, []).

Inductive pm_branch : Type :=
| PmCtxDone      (* case <-c.ctx.Done() *)
| PmTickPool     (* case <-tickerPool.C *)
| PmTickLoad.    (* case <-tickerLoad.C *)

(** One round of the loop; [None] when the goroutine is not at the
    select or the branch is not ready. *)
Definition poolMaintainer_select (b : pm_branch) (c : TcpTransport)
    (l : poolMaintainer_locals)
  : option (TcpTransport * poolMaintainer_locals * list effect) :=
  match pc l with
  | PmSelect =>
      match b with
      | PmCtxDone =>
          if ctx_done c
          then Some (c, mkPm (newPoolSize l) (poolConnectionsSum l) PmReturned, [])
          else None
      | PmTickPool =>
          Some (c, mkPm (newPoolSize l)
                        (GoInt.add32 (poolConnectionsSum l) (poolConnections c))
                        PmSelect, [])
      | PmTickLoad => Some (window_close c l)
      end
  | _ => None
  end.

(** *** channelHandler *)

Inductive reader_pc : Type :=
| RdLoop         (* at the select of the reading goroutine *)
| RdSending      (* parked in [msgChan <- msg] *)
| RdReturned.

(** The locals of one [channelHandler]: its two channels, where its
    reading goroutine stands and whether the main loop has returned. *)
Record channelHandler_locals : Type := mkCh {
  msgChan  : Chan.chan Z;
  errChan  : Chan.chan unit;
  reader   : reader_pc;
  returned : bool
}.

Definition channelHandler_start : channelHandler_locals :=
  {| msgChan := Chan.make 1000; errChan := Chan.make 1000;
     reader := RdLoop; returned := false |}.

(** One round of the reading goroutine, [r] being what the read
    returns when it is reached. *)
Definition reader_round (r : recv_result) (c : TcpTransport)
    (h : channelHandler_locals) : option channelHandler_locals :=
  match reader h with
  | RdLoop =>
      if ctx_done c then
        Some (mkCh (msgChan h) (errChan h) RdReturned (returned h))
      else
        match r with
        | RecvErr =>
            let (e, _) := Chan.send tt (errChan h) in
            Some (mkCh (msgChan h) e RdReturned (returned h))
        | RecvByte b =>
            let (m, parks) := Chan.send b (msgChan h) in
            Some (mkCh m (errChan h) (if parks then RdSending else RdLoop)
                       (returned h))
        end
  | _ => None
  end.

(** The client as far as the sizer and the consumer share it. *)
Record system : Type := mkSys {
  transport  : TcpTransport;
  maintainer : poolMaintainer_locals;
  handler    : channelHandler_locals
}.

(** A sender parked on a channel resumes when its value is taken. *)
Definition resume_maintainer (f : Chan.chan unit) (l : poolMaintainer_locals)
  : poolMaintainer_locals :=
  match pc l, Chan.sendq f with
  | PmSending, [] => mkPm (newPoolSize l) (poolConnectionsSum l) PmSelect
  | _, _ => l
  end.

Definition resume_reader (m : Chan.chan Z) (p : reader_pc) : reader_pc :=
  match p, Chan.sendq m with
  | RdSending, [] => RdLoop
  | _, _ => p
  end.

(** [switch msg] of the main loop: the new state, the trace, and
    whether the handler goes on ([true]) or returns ([false]). *)
Definition dispatch (msg : Z) (c : TcpTransport) (l : poolMaintainer_locals)
  : TcpTransport * poolMaintainer_locals * list effect * bool :=
  if msg =? byte_of SG_Chan then
    let c := with_loadConnections (GoInt.add32 (loadConnections c) 1) c in
    match Chan.try_recv (controlFlow c) with
    | Some (_, f) =>                       (* case <-c.controlFlow: do nothing *)
        (with_controlFlow f c, resume_maintainer f l, [], true)
    | None =>                              (* default *)
        (c, l,
         [Log Debug "channel signal received, initiating tunnel dialer";
          Go g_tunnelDialer], true)
    end
  else if msg =? byte_of SG_HB then
    (c, l, [Log Debug "heartbeat signal received successfully"], true)
  else if msg =? byte_of SG_Closed then
    (c, l, [Log Info "control channel has been closed by the server";
            Go g_Restart], false)
  else
    (c, l, [Log Error "unexpected response from channel. Restarting client...";
            Go g_Restart], false).

Inductive handler_branch : Type :=
| HCtxDone     (* case <-c.ctx.Done() *)
| HMsg         (* case msg := <-msgChan *)
| HErr.        (* case err := <-errChan *)

(** One round of the main loop. *)
Definition channelHandler_select (b : handler_branch) (s : system)
  : option (system * list effect) :=
  let c := transport s in
  let h := handler s in
  if returned h then None else
  match b with
  | HCtxDone =>
      if ctx_done c then
        Some (mkSys c (maintainer s)
                (mkCh (msgChan h) (errChan h) (reader h) true),
              [SendBinaryByte (controlChannel c) (byte_of SG_Closed)])
      else None
  | HMsg =>
      match Chan.try_recv (msgChan h) with
      | Some (msg, m) =>
          let '(c', l', t, goes_on) := dispatch msg c (maintainer s) in
          Some (mkSys c' l'
                  (mkCh m (errChan h) (resume_reader m (reader h))
                        (negb goes_on)),
                t)
      | None => None
      end
  | HErr =>
      match Chan.try_recv (errChan h) with
      | Some (_, e) =>
          Some (mkSys c (maintainer s)
                  (mkCh (msgChan h) e (reader h) true),
                [Log Error "failed to read channel signal, restarting client";
                 Go g_Restart])
      | None => None
      end
  end.

(** *** The goroutines together *)

Inductive event : Type :=
| EvMaintainer (b : pm_branch)
| EvReader (r : recv_result)
| EvHandler (b : handler_branch)
| EvDialed       (* a tunnelDialer: atomic.AddInt32(&c.poolConnections, 1) *)
| EvAssigned     (* a tunnelDialer: atomic.AddInt32(&c.poolConnections, -1) *)
| EvCancel.      (* the context is cancelled *)

Definition step (e : event) (s : system) : option (system * list effect) :=
  match e with
  | EvMaintainer b =>
      match poolMaintainer_select b (transport s) (maintainer s) with
      | Some (c, l, t) => Some (mkSys c l (handler s), t)
      | None => None
      end
  | EvReader r =>
      match reader_round r (transport s) (handler s) with
      | Some h => Some (mkSys (transport s) (maintainer s) h, [])
      | None => None
      end
  | EvHandler b => channelHandler_select b s
  | EvDialed =>
      Some (mkSys (with_poolConnections
                     (GoInt.add32 (poolConnections (transport s)) 1) (transport s))
                  (maintainer s) (handler s), [])
  | EvAssigned =>
      Some (mkSys (with_poolConnections
                     (GoInt.add32 (poolConnections (transport s)) (-1)) (transport s))
                  (maintainer s) (handler s), [])
  | EvCancel =>
      Some (mkSys (with_ctx_done true (transport s)) (maintainer s) (handler s), [])
  end.

(** A schedule runs as long as each of its events is enabled. *)
Fixpoint run (es : list event) (s : system) : option (system * list effect) :=
  match es with
  | [] => Some (s, [])
  | e :: rest =>
      match step e s with
      | Some (s1, t1) =>
          match run rest s1 with
          | Some (s2, t2) => Some (s2, t1 ++ t2)
          | None => None
          end
      | None => None
      end
  end.

(** The client right after [channelDialer] established the control
    channel [k] and its two goroutines reached their loops. *)
Definition established (cfg : TcpConfig) (k : conn) : system :=
  let c := fst (channelDialer_established k
                  (fst (Start (NewTCPClient false cfg)))) in
  mkSys c (fst (poolMaintainer_start c)) channelHandler_start.

End Client.

(* ------------------------------------------------------------------ *)
(** ** internal/server/transport: tcp.go, tcpmux.go, wsmux.go

    The three server transports declare the same fields, the mux ones
    adding [smuxConfig] and (tcpmux) [handshakeChannel]; one record holds
    their union, with a tunnel connection and a mux session both known by
    an identifier. *)

Module Server.
Import Signals Runtime.

Record LocalTCPConn : Type := mkLocal {
  lconn      : conn;
  remoteAddr : string
}.

Record Config : Type := mkConfig {
  ChannelSize  : Z;        (* int *)
  MuxCon       : Z;        (* int, mux transports *)
  Nodelay      : bool;
  WebPort      : Z;        (* int *)
  TunnelStatus : string
}.

Record Transport : Type := mkTransport {
  config           : Config;
  parent_done      : bool;          (* parentctx is cancelled *)
  ctx              : nat;           (* which derived context s.ctx is *)
  ctx_done         : bool;          (* s.ctx.Done() is closed *)
  cancel           : bool;          (* s.cancel != nil *)
  tunnelChannel    : Chan.chan conn;
  handshakeChannel : Chan.chan conn;
  localChannel     : Chan.chan LocalTCPConn;
  reqNewConnChan   : Chan.chan unit;
  controlChannel   : option conn;
  restartMutex     : bool           (* locked *)
}.

Definition with_ctx_done (b : bool) (s : Transport) : Transport :=
  mkTransport (config s) (parent_done s) (ctx s) b (cancel s)
    (tunnelChannel s) (handshakeChannel s) (localChannel s)
    (reqNewConnChan s) (controlChannel s) (restartMutex s).

Definition with_tunnelChannel (q : Chan.chan conn) (s : Transport) : Transport :=
  mkTransport (config s) (parent_done s) (ctx s) (ctx_done s) (cancel s)
    q (handshakeChannel s) (localChannel s)
    (reqNewConnChan s) (controlChannel s) (restartMutex s).

Definition with_localChannel (q : Chan.chan LocalTCPConn) (s : Transport) : Transport :=
  mkTransport (config s) (parent_done s) (ctx s) (ctx_done s) (cancel s)
    (tunnelChannel s) (handshakeChannel s) q
    (reqNewConnChan s) (controlChannel s) (restartMutex s).

Definition with_reqNewConnChan (q : Chan.chan unit) (s : Transport) : Transport :=
  mkTransport (config s) (parent_done s) (ctx s) (ctx_done s) (cancel s)
    (tunnelChannel s) (handshakeChannel s) (localChannel s)
    q (controlChannel s) (restartMutex s).

Definition with_restartMutex (b : bool) (s : Transport) : Transport :=
  mkTransport (config s) (parent_done s) (ctx s) (ctx_done s) (cancel s)
    (tunnelChannel s) (handshakeChannel s) (localChannel s)
    (reqNewConnChan s) (controlChannel s) b.

(** Whether a loop goes round again or its function returns. *)
Inductive flow : Type := Continue | Return.

(** [select { case s.reqNewConnChan <- struct{}{}: default: warn }] *)
Definition offer_req (warning : string) (s : Transport) : Transport * list effect :=
  match Chan.sent_chan (Chan.try_send tt (reqNewConnChan s)) with
  | Some q => (with_reqNewConnChan q s, [OfferReq true])
  | None => (s, [OfferReq false; Log Warn warning])
  end.

(** *** channelHandler (the same text in tcp.go and tcpmux.go) *)

Inductive reader_pc : Type :=
| RdReading      (* in [utils.ReceiveBinaryByte(s.controlChannel)] *)
| RdSending      (* parked in [resultChan <- ...] *)
| RdReturned.

Record channelHandler_locals : Type := mkCh {
  resultChan : Chan.chan recv_result;
  reader     : reader_pc;
  returned   : bool
}.

Definition channelHandler_start : channelHandler_locals :=
  {| resultChan := Chan.make 0; reader := RdReading; returned := false |}.

(** The reading goroutine: one read, one send, then it ends. *)
Definition reader_goroutine (r : recv_result) (h : channelHandler_locals)
  : option channelHandler_locals :=
  match reader h with
  | RdReading =>
      let (q, parks) := Chan.send r (resultChan h) in
      Some (mkCh q (if parks then RdSending else RdReturned) (returned h))
  | _ => None
  end.

Definition resume_reader (q : Chan.chan recv_result) (p : reader_pc) : reader_pc :=
  match p, Chan.sendq q with
  | RdSending, [] => RdReturned
  | _, _ => p
  end.

Inductive handler_branch : Type :=
| HCtxDone                  (* case <-s.ctx.Done() *)
| HReq (write_ok : bool)    (* case <-s.reqNewConnChan *)
| HTick (write_ok : bool)   (* case <-ticker.C *)
| HResult.                  (* case result := <-resultChan *)

(** One round of the loop of [channelHandler]; [write_ok] says whether
    [utils.SendBinaryByte] succeeds. *)
Definition channelHandler_select (b : handler_branch) (s : Transport)
    (h : channelHandler_locals)
  : option (Transport * channelHandler_locals * list effect) :=
  if returned h then None else
  let stop := mkCh (resultChan h) (reader h) true in
  match b with
  | HCtxDone =>
      if ctx_done s then
        Some (s, stop, [SendBinaryByte (controlChannel s) (byte_of SG_Closed)])
      else None
  | HReq write_ok =>
      match Chan.try_recv (reqNewConnChan s) with
      | Some (_, q) =>
          let s := with_reqNewConnChan q s in
          if write_ok then
            Some (s, h, [SendBinaryByte (controlChannel s) (byte_of SG_Chan)])
          else
            Some (s, stop,
                  [SendBinaryByte (controlChannel s) (byte_of SG_Chan);
                   Log Error "error sending channel signal, attempting to restart server...";
                   Go g_Restart])
      | None => None
      end
  | HTick write_ok =>
      if write_ok then
        Some (s, h, [SendBinaryByte (controlChannel s) (byte_of SG_HB);
                     Log Trace "heartbeat signal sent successfully"])
      else
        Some (s, stop,
              [SendBinaryByte (controlChannel s) (byte_of SG_HB);
               Log Error "failed to send heartbeat signal, attempting to restart server...";
               Go g_Restart])
  | HResult =>
      match Chan.try_recv (resultChan h) with
      | Some (RecvErr, q) =>
          Some (s, mkCh q (resume_reader q (reader h)) true,
                [Log Error "failed to receive message from channel connection";
                 Go g_Restart])
      | Some (RecvByte message, q) =>
          if message =? byte_of SG_Closed then
            Some (s, mkCh q (resume_reader q (reader h)) true,
                  [Log Info "control channel has been closed by the client";
                   Go g_Restart])
          else
            Some (s, mkCh q (resume_reader q (reader h)) false, [])
      | None => None
      end
  end.

(** The control channel of a running server: its consumer loop, its
    reading goroutine, and the others as far as they touch the state the
    loop reads. *)
Inductive event : Type :=
| EvReader (r : recv_result)     (* the client's next byte, or a read error *)
| EvHandler (b : handler_branch)
| EvOffer                        (* some goroutine offers a request token *)
| EvCancel.                      (* the context is cancelled *)

Definition step (e : event) (sh : Transport * channelHandler_locals)
  : option (Transport * channelHandler_locals * list effect) :=
  let (s, h) := sh in
  match e with
  | EvReader r =>
      match reader_goroutine r h with
      | Some h' => Some (s, h', [])
      | None => None
      end
  | EvHandler b => channelHandler_select b s h
  | EvOffer => let (s', t) := offer_req "channel is full" s in Some (s', h, t)
  | EvCancel => Some (with_ctx_done true s, h, [])
  end.

Fixpoint run (es : list event) (sh : Transport * channelHandler_locals)
  : option (Transport * channelHandler_locals * list effect) :=
  match es with
  | [] => Some (sh, [])
  | e :: rest =>
      match step e sh with
      | Some (s1, h1, t1) =>
          match run rest (s1, h1) with
          | Some (s2, h2, t2) => Some (s2, h2, t1 ++ t2)
          | None => None
          end
      | None => None
      end
  end.

(** *** tcp.go (server) *)

Module Tcp.

(** [Restart], up to and including [time.Sleep]: [None] when the mutex
    is taken (the caller logs and returns). *)
Definition Restart_enter (s : Transport) : option Transport * list effect :=
  if restartMutex s then
    (None, [Log Warn "server restart already in progress, skipping restart attempt"])
  else
    let s := with_restartMutex true s in
    let (s, t1) := if cancel s then (with_ctx_done true s, [CtxCancel])
                   else (s, []) in
    let t2 := match controlChannel s with
              | Some k => [ConnClose k]
              | None => []
              end in
    (Some s, [MutexLock; Log Info "restarting server..."] ++ t1 ++ t2 ++ [Sleep 2]).

(** [Restart], after the sleep; [None] is the panic of [make] on a
    negative [ChannelSize].  The deferred unlock runs last. *)
Definition Restart_resume (s : Transport) : option (Transport * list effect) :=
  let n := ChannelSize (config s) in
  let ctx' := S (ctx s) in
  match Chan.make_int n, Chan.make_int n, Chan.make_int n with
  | Some tq, Some lq, Some rq =>
      Some ( {| config := mkConfig n (MuxCon (config s)) (Nodelay (config s))
                                   (WebPort (config s)) "";
                parent_done := parent_done s;
                ctx := ctx';
                ctx_done := parent_done s;
                cancel := true;
                tunnelChannel := tq;
                handshakeChannel := handshakeChannel s;
                localChannel := lq;
                reqNewConnChan := rq;
                controlChannel := None;
                restartMutex := false |},
             [WithCancel ctx'; MakeChan "tunnelChannel" n;
              MakeChan "localChannel" n; MakeChan "reqNewConnChan" n;
              NewDataStore ctx'; Go g_Start; MutexUnlock] )
  | _, _, _ => None
  end.

Definition Restart (s : Transport) : option (Transport * list effect) :=
  match Restart_enter s with
  | (None, t) => Some (s, t)
  | (Some s1, t1) =>
      match Restart_resume s1 with
      | Some (s2, t2) => Some (s2, t1 ++ t2)
      | None => None
      end
  end.

(** What [listener.Accept()] and the type assertion give. *)
Inductive accepted : Type :=
| AcceptErr
| AcceptOther (k : conn)                    (* not a *net.TCPConn *)
| AcceptTCP (k : conn) (nodelay_ok : bool). (* nodelay_ok: SetNoDelay succeeds *)

Definition set_nodelay (s : Transport) (ok : bool) : list effect :=
  if Nodelay (config s) then []
  else if ok then [Log Trace "TCP_NODELAY disabled"]
  else [Log Warn "failed to set TCP_NODELAY"].

(** One round of the loop of [acceptLocalConn]. *)
Definition acceptLocalConn (remote : string) (a : accepted) (s : Transport)
  : Transport * list effect * flow :=
  if ctx_done s then (s, [], Return) else
  let waiting := Log Debug "waiting for accept incoming connection" in
  match a with
  | AcceptErr =>
      (s, [waiting; Log Debug "failed to accept connection"], Continue)
  | AcceptOther k =>
      (s, [waiting; Log Warn "disarded non-TCP connection"; ConnClose k], Continue)
  | AcceptTCP k ok =>
      match Chan.sent_chan (Chan.try_send (mkLocal k remote) (localChannel s)) with
      | Some q =>
          let (s', t) :=
            offer_req "channel is full, cannot request a new connection"
                      (with_localChannel q s) in
          (s', waiting :: set_nodelay s ok ++ t
                 ++ [Log Debug "accepted incoming TCP connection"], Continue)
      | None =>
          (s, waiting :: set_nodelay s ok
                ++ [Log Warn "channel with listener is full, discarding TCP connection";
                    ConnClose k], Continue)
      end
  end.

(** Where one [handleLoop] worker stands. *)
Inductive hl_pc : Type :=
| HlOuter                              (* at the outer select *)
| HlInner (localConn : LocalTCPConn)   (* at the select of [loop:] *)
| HlReturned.

Inductive hl_branch : Type :=
| HlCtxDone                    (* case <-s.ctx.Done() *)
| HlLocal                      (* case localConn := <-s.localChannel *)
| HlTunnel (write_ok : bool).  (* case tunnelConn := <-s.tunnelChannel *)

(** One select of [handleLoop]; [write_ok] says whether
    [utils.SendBinaryTransportString] succeeds. *)
Definition handleLoop_select (b : hl_branch) (s : Transport) (p : hl_pc)
  : option (Transport * hl_pc * list effect) :=
  match p, b with
  | HlReturned, _ => None
  | _, HlCtxDone => if ctx_done s then Some (s, HlReturned, []) else None
  | HlOuter, HlLocal =>
      match Chan.try_recv (localChannel s) with
      | Some (localConn, q) => Some (with_localChannel q s, HlInner localConn, [])
      | None => None
      end
  | HlInner localConn, HlTunnel write_ok =>
      match Chan.try_recv (tunnelChannel s) with
      | Some (tunnelConn, q) =>
          let s := with_tunnelChannel q s in
          let tag := Some (byte_of SG_TCP) in
          if write_ok then
            Some (s, HlOuter,
                  [SendTarget tunnelConn (remoteAddr localConn) tag true;
                   Go (g_TCPConnectionHandler (lconn localConn) tunnelConn)])
          else
            Some (s, HlInner localConn,
                  [SendTarget tunnelConn (remoteAddr localConn) tag false;
                   Log Error "send failed";
                   ConnClose tunnelConn])
      | None => None
      end
  | _, _ => None
  end.

(** The selects of one worker, as long as each is enabled. *)
Fixpoint handleLoop_run (bs : list hl_branch) (s : Transport) (p : hl_pc)
  : option (Transport * hl_pc * list effect) :=
  match bs with
  | [] => Some (s, p, [])
  | b :: rest =>
      match handleLoop_select b s p with
      | Some (s1, p1, t1) =>
          match handleLoop_run rest s1 p1 with
          | Some (s2, p2, t2) => Some (s2, p2, t1 ++ t2)
          | None => None
          end
      | None => None
      end
  end.

End Tcp.

(** *** tcpmux.go *)

Module TcpMux.

(** One round of the loop of [acceptLocalConn]. *)
Definition acceptLocalConn (remote : string) (a : Tcp.accepted) (s : Transport)
  : Transport * list effect * flow :=
  if ctx_done s then (s, [], Return) else
  match a with
  | Tcp.AcceptErr =>
      (s, [Log Debug "failed to accept connection"], Continue)
  | Tcp.AcceptOther k =>
      (s, [Log Warn "disarded non-TCP connection"; ConnClose k], Continue)
  | Tcp.AcceptTCP k ok =>
      match Chan.sent_chan (Chan.try_send (mkLocal k remote) (localChannel s)) with
      | Some q =>
          (with_localChannel q s,
           Tcp.set_nodelay s ok ++ [Log Debug "accepted incoming TCP connection"],
           Continue)
      | None =>
          (s, Tcp.set_nodelay s ok
                ++ [Log Warn "local listener channel is full, discarding TCP connection";
                    ConnClose k], Continue)
      end
  end.

(** The locals of one [handleSession]. *)
Record handleSession_locals : Type := mkHs {
  done       : Chan.chan unit;
  counter    : Z;              (* int *)
  returned   : bool;
  requeueing : bool            (* standing in [s.localChannel <- *incomingConn] *)
}.

(** Up to the loop; [None] is the panic of [make] on a negative
    [MuxCon]. *)
Definition handleSession_start (s : Transport) : option handleSession_locals :=
  match Chan.make_int (MuxCon (config s)) with
  | Some d => Some {| done := d; counter := 0; returned := false;
                      requeueing := false |}
  | None => None
  end.

(** [for i := 0; i < counter; i++ { <-done }] *)
Definition await_done (counter : Z) : list effect :=
  repeat AwaitDone (Z.to_nat counter).

(** [handleSessionError] from the line after its send on
    [localChannel]. *)
Definition handleSessionError_resume (session : conn) (s : Transport)
    (counter : Z) : Transport * list effect :=
  let (s', t) := offer_req "request new connection channel is full" s in
  (s', [SignalNext] ++ t ++ await_done counter ++ [ConnClose session]).

(** [handleSessionError]: the send on [localChannel] is a plain one, so
    on a full queue the handler stands in it ([true]) and the rest runs
    only once a receiver has taken the connection. *)
Definition handleSessionError (session : conn) (incomingConn : LocalTCPConn)
    (s : Transport) (counter : Z) : Transport * list effect * bool :=
  let (q, parks) := Chan.send incomingConn (localChannel s) in
  if parks then
    (with_localChannel q s,
     [Log Error "failed to handle session"; Requeue true], true)
  else
    let (s', t) := handleSessionError_resume session (with_localChannel q s)
                                             counter in
    (s', [Log Error "failed to handle session"; Requeue false] ++ t, false).

Definition finalizeSession (session : conn) (s : Transport) (counter : Z)
  : Transport * list effect :=
  let (s', t) := offer_req "request new connection channel is full" s in
  (s', [SignalNext] ++ t ++ await_done counter ++ [ConnClose session]).

(** The branch a round of [handleSession] takes.  With a user
    connection received, [stream] is what [session.OpenStream()] returns
    and [write_ok] whether [utils.SendBinaryString] succeeds. *)
Inductive hs_branch : Type :=
| HsCtxDone                                          (* case <-s.ctx.Done() *)
| HsLocal (stream : option conn) (write_ok : bool)   (* case incomingConn := <-s.localChannel *)
| HsRequeued.                                        (* the send of handleSessionError is through *)

(** One round of the loop of [handleSession].  A handler that stands
    in the send of [handleSessionError] takes no round: it goes on from
    there once no sender is parked on [localChannel] any more. *)
Definition handleSession_select (session : conn) (b : hs_branch)
    (s : Transport) (l : handleSession_locals)
  : option (Transport * handleSession_locals * list effect) :=
  if returned l then None else
  if requeueing l then
    match b, Chan.sendq (localChannel s) with
    | HsRequeued, [] =>
        let (s', t) := handleSessionError_resume session s (counter l) in
        Some (s', mkHs (done l) (counter l) true false, t)
    | _, _ => None
    end
  else
  match b with
  | HsRequeued => None
  | HsCtxDone =>
      if ctx_done s then
        Some (s, mkHs (done l) (if 0 <? counter l then 0 else counter l) true false,
              await_done (counter l))
      else None
  | HsLocal stream write_ok =>
      match Chan.try_recv (localChannel s) with
      | Some (incomingConn, q) =>
          let s := with_localChannel q s in
          match stream with
          | None =>
              let '(s', t, parks) :=
                handleSessionError session incomingConn s (counter l) in
              Some (s', mkHs (done l) (counter l) (negb parks) parks,
                    OpenStream session false :: t)
          | Some st =>
              let send := SendTarget st (remoteAddr incomingConn) None write_ok in
              if write_ok then
                let counter' := GoInt.add (counter l) 1 in
                let t0 := [OpenStream session true; send;
                           Go (g_TCPConnectionHandler st (lconn incomingConn))] in
                if counter' =? MuxCon (config s) then
                  let (s', t) := finalizeSession session s counter' in
                  Some (s', mkHs (done l) counter' true false, t0 ++ t)
                else
                  Some (s, mkHs (done l) counter' false false, t0)
              else
                let '(s', t, parks) :=
                  handleSessionError session incomingConn s (counter l) in
                Some (s', mkHs (done l) (counter l) (negb parks) parks,
                      OpenStream session true :: send :: t)
          end
      | None => None
      end
  end.

(** The rounds of one [handleSession], as long as each is enabled. *)
Fixpoint handleSession_rounds (session : conn) (bs : list hs_branch)
    (s : Transport) (l : handleSession_locals)
  : option (Transport * handleSession_locals * list effect) :=
  match bs with
  | [] => Some (s, l, [])
  | b :: rest =>
      match handleSession_select session b s l with
      | Some (s1, l1, t1) =>
          match handleSession_rounds session rest s1 l1 with
          | Some (s2, l2, t2) => Some (s2, l2, t1 ++ t2)
          | None => None
          end
      | None => None
      end
  end.

(** [handleSession] from its first line. *)
Definition handleSession (session : conn) (bs : list hs_branch) (s : Transport)
  : option (Transport * handleSession_locals * list effect) :=
  match handleSession_start s with
  | Some l => handleSession_rounds session bs s l
  | None => None
  end.

End TcpMux.

(** *** wsmux.go *)

Module WsMux.

(** One round of the loop of [acceptLocalConn]. *)
Definition acceptLocalConn (remote : string) (a : Tcp.accepted) (s : Transport)
  : Transport * list effect * flow :=
  if ctx_done s then (s, [], Return) else
  match a with
  | Tcp.AcceptErr =>
      (s, [Log Debug "failed to accept connection"], Continue)
  | Tcp.AcceptOther k =>
      (s, [Log Warn "disarded non-TCP connection"; ConnClose k], Continue)
  | Tcp.AcceptTCP k ok =>
      match Chan.sent_chan (Chan.try_send (mkLocal k remote) (localChannel s)) with
      | Some q =>
          (with_localChannel q s,
           Tcp.set_nodelay s ok ++ [Log Debug "accepted incoming TCP connection"],
           Continue)
      | None =>
          (s, Tcp.set_nodelay s ok
                ++ [Log Warn "local listener channel is full, discarding TCP connection";
                    ConnClose k], Continue)
      end
  end.

End WsMux.

End Server.

(* ------------------------------------------------------------------ *)
(** ** The pool sizer as the specification words it *)

Module SizerSpec.

(** The ceiling of [a / b]. *)
Definition ceil_div (a b : Z) : Z := - ((- a) / b).

(** Closing a window: the new target and the number of tunnel-dial
    tasks to start, from the two accumulators and the current target. *)
Definition close_window (ConnPoolSize pool_sum load_observed pool_size : Z)
  : Z * nat :=
  let avg_pool := ceil_div pool_sum 60 in
  let avg_load := ceil_div load_observed 60 in
  if ceil_div avg_load 5 >? avg_pool then (pool_size + 1, 1%nat)
  else if (ceil_div avg_load 4 <? avg_pool) && (pool_size >? ConnPoolSize)
       then (pool_size - 1, 0%nat)
       else (pool_size, 0%nat).

End SizerSpec.

(* ------------------------------------------------------------------ *)
(** ** Reading schedules and traces *)

(** The window closes of a schedule. *)
Definition is_window (e : Client.event) : bool :=
  match e with Client.EvMaintainer Client.PmTickLoad => true | _ => false end.

Definition windows (es : list Client.event) : Z :=
  Z.of_nat (length (filter is_window es)).

(** The reads of the server's reading goroutine in a schedule, and the
    results its consumer loop takes. *)
Definition is_read (e : Server.event) : bool :=
  match e with Server.EvReader _ => true | _ => false end.

Definition is_result (e : Server.event) : bool :=
  match e with Server.EvHandler Server.HResult => true | _ => false end.

Definition reads (es : list Server.event) : nat := length (filter is_read es).
Definition results (es : list Server.event) : nat := length (filter is_result es).

(** The request tokens a trace offers, and whether it closes [k]. *)
Definition offers (t : list Runtime.effect) : nat :=
  length (filter Runtime.is_offer t).

Definition closes (k : Runtime.conn) (t : list Runtime.effect) : bool :=
  existsb (fun e => match e with
                    | Runtime.ConnClose k' => Nat.eqb k k'
                    | _ => false
                    end) t.

(** How many effects of a kind a trace holds. *)
Definition count (f : Runtime.effect -> bool) (t : list Runtime.effect) : Z :=
  Z.of_nat (length (filter f t)).

(** The streams a trace opens and the copiers it starts. *)
Definition opened (t : list Runtime.effect) : Z := count Runtime.is_opened t.
Definition copiers (t : list Runtime.effect) : Z := count Runtime.is_copier t.

(** What a worker does with a tunnel connection that refuses the
    target address of the parked user connection. *)
Definition refused (localConn : Server.LocalTCPConn) (tunnelConn : Runtime.conn)
  : list Runtime.effect :=
  [ Runtime.SendTarget tunnelConn (Server.remoteAddr localConn)
      (Some (Signals.byte_of Signals.SG_TCP)) false;
    Runtime.Log Runtime.Error "send failed";
    Runtime.ConnClose tunnelConn ].

(** A retiring session, [req] being the request queue before and
    [req'] after: the trace ends with the next session let in, one
    request token offered without waiting, each of the [n] streams
    awaited, and the session closed.  The token is on the queue (or
    with a receiver that stood by) when the queue had room; a full
    queue stays as it was and the handler only warns. *)
Definition retires (session : Runtime.conn) (n : Z)
    (req req' : Chan.chan unit) (t : list Runtime.effect) : Prop :=
  exists pre : list Runtime.effect,
    copiers pre = n
    /\ closes session pre = false
    /\ match Chan.sent_chan (Chan.try_send tt req) with
       | Some q =>
           req' = q
           /\ t = pre ++ [Runtime.SignalNext; Runtime.OfferReq true]
                    ++ repeat Runtime.AwaitDone (Z.to_nat n)
                    ++ [Runtime.ConnClose session]
       | None =>
           req' = req
           /\ t = pre ++ [Runtime.SignalNext; Runtime.OfferReq false;
                          Runtime.Log Runtime.Warn
                            "request new connection channel is full"]
                    ++ repeat Runtime.AwaitDone (Z.to_nat n)
                    ++ [Runtime.ConnClose session]
       end.

(* ------------------------------------------------------------------ *)
(** ** Invariants *)

(** The values a running client holds fit their Go types. *)
Definition client_typed (c : Client.TcpTransport)
    (l : Client.poolMaintainer_locals) : Prop :=
  GoInt.is_int (Client.ConnPoolSize (Client.config c))
  /\ GoInt.is_int32 (Client.loadConnections c)
  /\ GoInt.is_int32 (Client.poolConnectionsSum l)
  /\ GoInt.is_int (Client.newPoolSize l).

(** What every step keeps: the configured floor, and the target between
    the floor and the floor plus the windows closed so far. *)
Definition floor_inv (P n : Z) (s : Client.system) : Prop :=
  Client.ConnPoolSize (Client.config (Client.transport s)) = P
  /\ P <= Client.newPoolSize (Client.maintainer s) <= P + n.

(** The reads the reading goroutine can still make, and the results the
    loop can still take: those and the ones waiting in [resultChan]. *)
Definition reads_left (h : Server.channelHandler_locals) : nat :=
  match Server.reader h with Server.RdReading => 1 | _ => 0 end.

Definition results_left (h : Server.channelHandler_locals) : nat :=
  reads_left h + length (Chan.buf (Server.resultChan h))
  + length (Chan.sendq (Server.resultChan h)).

(** What every round of [handleSession] keeps, [t] being the trace of
    the session so far and [req] the request queue it started with:
    while the loop runs, the streams opened and the copiers started are
    the counter, below [M], the session is not closed and the request
    queue is untouched; once it has returned, at most [M] streams were
    opened, and with [M] copiers started the session retired; a handler
    that stands in its requeue has started fewer than [M] copiers. *)
Definition session_inv (M : Z) (session : Runtime.conn) (req : Chan.chan unit)
    (s : Server.Transport) (l : Server.TcpMux.handleSession_locals)
    (t : list Runtime.effect) : Prop :=
  if Server.TcpMux.returned l then
    opened t <= M
    /\ (copiers t = M -> retires session M req (Server.reqNewConnChan s) t)
  else if Server.TcpMux.requeueing l then
    opened t <= M /\ copiers t < M
  else
    opened t = Server.TcpMux.counter l
    /\ copiers t = Server.TcpMux.counter l
    /\ 0 <= Server.TcpMux.counter l < M
    /\ closes session t = false
    /\ Server.reqNewConnChan s = req.

(* ------------------------------------------------------------------ *)
(** ** Concrete states and schedules *)

(** A schedule of a client with [ConnPoolSize = 2]: one REQ_CHAN and a
    window close (the target grows), a dialed connection sampled and a
    second window close (the target shrinks and the sizer parks on
    [controlFlow]), and a REQ_CHAN that takes the token. *)
Definition floor_config : Client.TcpConfig := Client.mkConfig 2 0 "".

Definition floor_schedule : list Client.event :=
  [ Client.EvReader (Runtime.RecvByte 1); Client.EvHandler Client.HMsg;
    Client.EvMaintainer Client.PmTickLoad;
    Client.EvDialed; Client.EvMaintainer Client.PmTickPool;
    Client.EvMaintainer Client.PmTickLoad;
    Client.EvReader (Runtime.RecvByte 1); Client.EvHandler Client.HMsg;
    Client.EvMaintainer Client.PmTickPool ].

(** A client at the close of an idle window ([load_observed = 0],
    [pool_sum = 60]) whose target 3 is above the floor 2. *)
Definition idle_client : Client.TcpTransport :=
  Client.NewTCPClient false floor_config.

Definition idle_locals : Client.poolMaintainer_locals :=
  Client.mkPm 3 60 Client.PmSelect.

(** A window with [load_observed = 600] and [pool_sum = 60] at the
    floor [ConnPoolSize = 4]. *)
Definition busy_client : Client.TcpTransport :=
  Client.with_loadConnections 600
    (Client.NewTCPClient false (Client.mkConfig 4 0 "Connected (TCP)")).

Definition busy_locals : Client.poolMaintainer_locals :=
  Client.mkPm 4 60 Client.PmSelect.

(** A server with queues of size 2 and the control channel 1
    established, nothing queued. *)
Definition quiet_server : Server.Transport :=
  {| Server.config := Server.mkConfig 2 3 true 0 "Connected (TCP)";
     Server.parent_done := false;
     Server.ctx := 0%nat;
     Server.ctx_done := false;
     Server.cancel := true;
     Server.tunnelChannel := Chan.make 2;
     Server.handshakeChannel := Chan.make 0;
     Server.localChannel := Chan.make 2;
     Server.reqNewConnChan := Chan.make 2;
     Server.controlChannel := Some 1%nat;
     Server.restartMutex := false |}.

(** The client sends a heartbeat, the server takes it, the client sends
    CLOSED: the last read is never made. *)
Definition closed_after_heartbeat : list Server.event :=
  [ Server.EvReader (Runtime.RecvByte 0); Server.EvHandler Server.HResult;
    Server.EvHandler (Server.HTick true);
    Server.EvReader (Runtime.RecvByte 3) ].

(** A worker's schedule: it takes a user connection, meets [n] tunnel
    connections whose write fails, then one whose write succeeds. *)
Definition pairing_schedule (n : nat) : list Server.Tcp.hl_branch :=
  Server.Tcp.HlLocal
    :: repeat (Server.Tcp.HlTunnel false) n ++ [Server.Tcp.HlTunnel true].

(** A server with the user connections 9 and 10 parked and the tunnel
    connections 20, 21 and 22 waiting. *)
Definition busy_server : Server.Transport :=
  Server.with_tunnelChannel (Chan.mk 4 [20; 21; 22]%nat [] 0)
    (Server.with_localChannel
       (Chan.mk 4 [Server.mkLocal 9%nat ":9090"; Server.mkLocal 10%nat ":9090"] [] 0)
       quiet_server).

(** Three user connections waiting on a mux server with [MuxCon = 3]. *)
Definition mux_server : Server.Transport :=
  Server.with_localChannel
    (Chan.mk 4 [Server.mkLocal 9%nat ":9090"; Server.mkLocal 10%nat ":9090";
                Server.mkLocal 11%nat ":9090"] [] 0)
    quiet_server.

Definition mux_schedule : list Server.TcpMux.hs_branch :=
  [ Server.TcpMux.HsLocal (Some 31%nat) true;
    Server.TcpMux.HsLocal (Some 32%nat) true;
    Server.TcpMux.HsLocal (Some 33%nat) true ].

(** The same server configured with [MuxCon = 0]. *)
Definition uncapped_mux_server : Server.Transport :=
  {| Server.config := Server.mkConfig 2 0 true 0 "Connected (TCP)";
     Server.parent_done := false;
     Server.ctx := 0%nat;
     Server.ctx_done := false;
     Server.cancel := true;
     Server.tunnelChannel := Chan.make 2;
     Server.handshakeChannel := Chan.make 0;
     Server.localChannel := Server.localChannel mux_server;
     Server.reqNewConnChan := Chan.make 2;
     Server.controlChannel := Some 1%nat;
     Server.restartMutex := false |}.

(** The server with [MuxCon = 3] whose request queue, of size 2, holds
    two tokens the control channel handler has not taken yet. *)
Definition crowded_mux_server : Server.Transport :=
  Server.with_reqNewConnChan (Chan.mk 2 [tt; tt] [] 0) mux_server.

(* ================================================================== *)
(** * The rest of the transports *)

(** The goroutines of one kind form a list; [set_nth i x l] moves the
    [i]-th of them to [x]. *)
Fixpoint set_nth {A : Type} (i : nat) (x : A) (l : list A) : list A :=
  match l, i with
  | [], _ => []
  | _ :: rest, O => x :: rest
  | y :: rest, S j => y :: set_nth j x rest
  end.

(* ------------------------------------------------------------------ *)
(** ** tcp.go (client): the dialers

    [config.Token] and [config.RetryInterval] (in seconds) are arguments
    of the functions that read them.  [SendTarget k s None ok] records a
    call [utils.SendBinaryString(k, s)], [ok] telling whether it
    succeeded. *)

Module ClientDial.
Import Signals Runtime Client.

(** Whether a loop goes round again or its function returns. *)
Inductive flow : Type := Continue | Return.

(** What one pass of the loop of [channelDialer] meets, up to its first
    failing call. *)
Inductive attempt : Type :=
| DialFails                              (* TcpDialer returns an error *)
| SendFails (k : conn)                   (* utils.SendBinaryString fails *)
| DeadlineFails (k : conn)               (* SetReadDeadline fails *)
| RecvFails (k : conn) (timeout : bool)  (* utils.ReceiveBinaryString fails *)
| Reply (k : conn) (message : string).   (* the server's answer *)

(** One pass of the loop of [channelDialer]. *)
Definition channelDialer_round (Token : string) (RetryInterval : Z)
    (a : attempt) (c : TcpTransport) : TcpTransport * list effect * flow :=
  if ctx_done c then (c, [], Return) else
  match a with
  | DialFails =>
      (c, [Log Error "channel dialer: error dialing remote address";
           Sleep RetryInterval], Continue)
  | SendFails k =>
      (c, [SendTarget k Token None false;
           Log Error "failed to send security token";
           ConnClose k], Continue)
  | DeadlineFails k =>
      (c, [SendTarget k Token None true;
           Log Error "failed to set read deadline";
           ConnClose k], Continue)
  | RecvFails k timeout =>
      (c, [SendTarget k Token None true;
           (if timeout
            then Log Warn "timeout while waiting for control channel response"
            else Log Error "failed to receive control channel response");
           ConnClose k;
           Sleep RetryInterval], Continue)
  | Reply k message =>
      if String.eqb message Token then
        let (c', t) := channelDialer_established k c in
        (c', SendTarget k Token None true :: t, Return)
      else
        (c, [SendTarget k Token None true;
             Log Error "invalid token received. Retrying...";
             ConnClose k;
             Sleep RetryInterval], Continue)
  end.

(** The passes of the loop, until one returns. *)
Fixpoint channelDialer_rounds (Token : string) (RetryInterval : Z)
    (attempts : list attempt) (c : TcpTransport)
  : TcpTransport * list effect * flow :=
  match attempts with
  | [] => (c, [], Continue)
  | a :: rest =>
      match channelDialer_round Token RetryInterval a c with
      | (c1, t1, Return) => (c1, t1, Return)
      | (c1, t1, Continue) =>
          let '(c2, t2, f) := channelDialer_rounds Token RetryInterval rest c1 in
          (c2, t1 ++ t2, f)
      end
  end.

(** [channelDialer] *)
Definition channelDialer (Token : string) (RetryInterval : Z)
    (attempts : list attempt) (c : TcpTransport)
  : TcpTransport * list effect * flow :=
  let '(c', t, f) := channelDialer_rounds Token RetryInterval attempts c in
  (c', Log Info "attempting to establish a new control channel connection..."
         :: t, f).

(** Where one [tunnelDialer] stands: before its dial, in
    [utils.ReceiveBinaryString] on the tunnel connection [k], ended
    without a stream, or inside [utils.TCPConnectionHandler]. *)
Inductive td_pc : Type :=
| TdStart
| TdWaiting (k : conn)
| TdFailed
| TdCopying (tunnel localConnection : conn) (port : Z).

(** [tunnelDialer] up to its blocking receive; [r] is what [TcpDialer]
    returns. *)
Definition tunnelDialer_dial (r : option conn) (c : TcpTransport)
  : TcpTransport * td_pc * list effect :=
  let initiating := Log Debug "initiating new connection to tunnel server" in
  match r with
  | None => (c, TdFailed, [initiating; Log Error "failed to dial tunnel server"])
  | Some k =>
      (with_poolConnections (GoInt.add32 (poolConnections c) 1) c,
       TdWaiting k, [initiating])
  end.

(** What follows the receive on the tunnel connection. *)
Inductive td_outcome : Type :=
| RecvErr                                     (* ReceiveBinaryString fails *)
| ResolveErr                                  (* ResolveRemoteAddr fails *)
| LocalDialErr (port : Z)                     (* TcpDialer to the local service fails *)
| LocalDialed (port : Z) (localConnection : conn).

(** [tunnelDialer] from its receive on, with [localDialer]. *)
Definition tunnelDialer_recv (k : conn) (o : td_outcome) (c : TcpTransport)
  : TcpTransport * td_pc * list effect :=
  let c := with_poolConnections (GoInt.add32 (poolConnections c) (-1)) c in
  match o with
  | RecvErr =>
      (c, TdFailed,
       [Log Debug "failed to receive port from tunnel connection"; ConnClose k])
  | ResolveErr =>
      (c, TdFailed, [Log Info "failed to resolve remote port"; ConnClose k])
  | LocalDialErr port =>
      (c, TdFailed, [Log Error "failed to connect to local address"; ConnClose k])
  | LocalDialed port localConnection =>
      (c, TdCopying k localConnection port,
       [Log Debug "connected to local address successfully"])
  end.

(** The tunnel dialers of a client: what each of them does next. *)
Inductive td_action : Type :=
| Spawn                          (* go c.tunnelDialer() *)
| Dial (i : nat) (r : option conn)
| Receive (i : nat) (o : td_outcome).

Definition td_step (a : td_action) (st : TcpTransport * list td_pc)
  : option (TcpTransport * list td_pc * list effect) :=
  let (c, ds) := st in
  match a with
  | Spawn => Some (c, ds ++ [TdStart], [Go g_tunnelDialer])
  | Dial i r =>
      match nth_error ds i with
      | Some TdStart =>
          let '(c', p, t) := tunnelDialer_dial r c in
          Some (c', set_nth i p ds, t)
      | _ => None
      end
  | Receive i o =>
      match nth_error ds i with
      | Some (TdWaiting k) =>
          let '(c', p, t) := tunnelDialer_recv k o c in
          Some (c', set_nth i p ds, t)
      | _ => None
      end
  end.

Fixpoint td_run (acts : list td_action) (st : TcpTransport * list td_pc)
  : option (TcpTransport * list td_pc * list effect) :=
  match acts with
  | [] => Some (st, [])
  | a :: rest =>
      match td_step a st with
      | Some (c1, ds1, t1) =>
          match td_run rest (c1, ds1) with
          | Some (c2, ds2, t2) => Some (c2, ds2, t1 ++ t2)
          | None => None
          end
      | None => None
      end
  end.

End ClientDial.

(* ------------------------------------------------------------------ *)
(** ** Reading the dialers *)

(** The connections a trace closes, in order. *)
Definition closed (t : list Runtime.effect) : list Runtime.conn :=
  flat_map (fun e => match e with Runtime.ConnClose k => [k] | _ => [] end) t.

Definition is_poolMaintainer (g : Runtime.goroutine) : bool :=
  match g with Runtime.g_poolMaintainer => true | _ => false end.

Definition is_channelHandler (g : Runtime.goroutine) : bool :=
  match g with Runtime.g_channelHandler => true | _ => false end.

(** The connection of the first attempt the server answers with the
    token. *)
Fixpoint first_reply (Token : string) (attempts : list ClientDial.attempt)
  : option Runtime.conn :=
  match attempts with
  | [] => None
  | ClientDial.Reply k message :: rest =>
      if String.eqb message Token then Some k else first_reply Token rest
  | _ :: rest => first_reply Token rest
  end.

Definition answered (Token : string) (attempts : list ClientDial.attempt) : bool :=
  match first_reply Token attempts with Some _ => true | None => false end.

(** The connections dialed by the attempts before that one. *)
Fixpoint failed_before (Token : string) (attempts : list ClientDial.attempt)
  : list Runtime.conn :=
  match attempts with
  | [] => []
  | ClientDial.DialFails :: rest => failed_before Token rest
  | ClientDial.SendFails k :: rest
  | ClientDial.DeadlineFails k :: rest
  | ClientDial.RecvFails k _ :: rest => k :: failed_before Token rest
  | ClientDial.Reply k message :: rest =>
      if String.eqb message Token then [] else k :: failed_before Token rest
  end.

(** The tunnel dialers that stand in their receive. *)
Definition is_waiting (p : ClientDial.td_pc) : bool :=
  match p with ClientDial.TdWaiting _ => true | _ => false end.

Definition waiting (ds : list ClientDial.td_pc) : Z :=
  Z.of_nat (length (filter is_waiting ds)).

(** Five attempts: no route, a timeout on connection 3, a wrong token
    on 4, the token on 5, the token on 6. *)
Definition dial_attempts : list ClientDial.attempt :=
  [ ClientDial.DialFails; ClientDial.RecvFails 3%nat true;
    ClientDial.Reply 4%nat "guess"; ClientDial.Reply 5%nat "musix";
    ClientDial.Reply 6%nat "musix" ].

(** Two dialers in their receive when the client restarts; they end,
    one without a stream and one with the local service dialed, while a
    dialer started after the restart reaches its receive. *)
Definition restart_dialers : list ClientDial.td_pc :=
  [ ClientDial.TdWaiting 11%nat; ClientDial.TdWaiting 12%nat ].

Definition restart_actions : list ClientDial.td_action :=
  [ ClientDial.Receive 0%nat ClientDial.RecvErr;
    ClientDial.Spawn; ClientDial.Dial 2%nat (Some 13%nat);
    ClientDial.Receive 1%nat (ClientDial.LocalDialed 9090 40%nat);
    ClientDial.Receive 2%nat ClientDial.ResolveErr ].

(* ------------------------------------------------------------------ *)
(** ** Reading the control channel *)

(** The byte a step of the client's reading goroutine takes off the
    wire, and the byte a step of the consumer loop takes out of
    [msgChan]. *)
Definition read_of (e : Client.event) (s : Client.system) : list Z :=
  match e with
  | Client.EvReader (Runtime.RecvByte b) =>
      match Client.reader (Client.handler s) with
      | Client.RdLoop => if Client.ctx_done (Client.transport s) then [] else [b]
      | _ => []
      end
  | _ => []
  end.

Definition taken_of (e : Client.event) (s : Client.system) : list Z :=
  match e with
  | Client.EvHandler Client.HMsg =>
      if Client.returned (Client.handler s) then []
      else match Chan.try_recv (Client.msgChan (Client.handler s)) with
           | Some (msg, _) => [msg]
           | None => []
           end
  | _ => []
  end.

(** The bytes read off the wire along a schedule, and the bytes the
    consumer loop dispatched, each in order. *)
Fixpoint wire_reads (es : list Client.event) (s : Client.system) : list Z :=
  match es with
  | [] => []
  | e :: rest =>
      read_of e s ++ match Client.step e s with
                     | Some (s1, _) => wire_reads rest s1
                     | None => []
                     end
  end.

Fixpoint dispatched (es : list Client.event) (s : Client.system) : list Z :=
  match es with
  | [] => []
  | e :: rest =>
      taken_of e s ++ match Client.step e s with
                      | Some (s1, _) => dispatched rest s1
                      | None => []
                      end
  end.

(** What waits in a channel: the buffer, then the parked senders. *)
Definition pending {A : Type} (q : Chan.chan A) : list A :=
  Chan.buf q ++ Chan.sendq q.

(** Only a reading goroutine that stands in its send has a value parked
    on [msgChan], and nothing is parked receiving on it. *)
Definition msgChan_inv (s : Client.system) : Prop :=
  Chan.recvq (Client.msgChan (Client.handler s)) = 0%nat
  /\ (Client.reader (Client.handler s) <> Client.RdSending ->
      Chan.sendq (Client.msgChan (Client.handler s)) = []).

(** The request tokens a trace puts on the queue and the REQ_CHAN bytes
    it writes on the control channel. *)
Definition is_accepted_offer (e : Runtime.effect) : bool :=
  match e with Runtime.OfferReq true => true | _ => false end.

Definition is_req_write (e : Runtime.effect) : bool :=
  match e with
  | Runtime.SendBinaryByte _ b => b =? Signals.byte_of Signals.SG_Chan
  | _ => false
  end.

(** A client schedule: three signals arrive, two are dispatched. *)
Definition order_schedule : list Client.event :=
  [ Client.EvReader (Runtime.RecvByte 0); Client.EvReader (Runtime.RecvByte 1);
    Client.EvHandler Client.HMsg; Client.EvReader (Runtime.RecvByte 0);
    Client.EvHandler Client.HMsg ].

(** A server schedule: three offers on a queue of two, two writes. *)
Definition token_schedule : list Server.event :=
  [ Server.EvOffer; Server.EvOffer; Server.EvOffer;
    Server.EvHandler (Server.HReq true); Server.EvHandler (Server.HTick true);
    Server.EvOffer; Server.EvHandler (Server.HReq true) ].

(* ------------------------------------------------------------------ *)
(** ** The server transports: handshake, start and tunnel listener

    [config.Token] is an argument of the functions that read it, and
    [ip k] is the IP
    address of [k.RemoteAddr()], the peer of a connection, as a string.  A mux session is known by the identifier
    of the connection it wraps.  [SendTarget k s (Some tag) ok] records
    a call [utils.SendBinaryTransportString(k, s, tag)]. *)

Module ServerAccept.
Import Signals Runtime Server.

Definition with_controlChannel (k : option conn) (s : Transport) : Transport :=
  mkTransport (config s) (parent_done s) (ctx s) (ctx_done s) (cancel s)
    (tunnelChannel s) (handshakeChannel s) (localChannel s)
    (reqNewConnChan s) k (restartMutex s).

Definition with_handshakeChannel (q : Chan.chan conn) (s : Transport) : Transport :=
  mkTransport (config s) (parent_done s) (ctx s) (ctx_done s) (cancel s)
    (tunnelChannel s) q (localChannel s)
    (reqNewConnChan s) (controlChannel s) (restartMutex s).

Definition with_status (st : string) (s : Transport) : Transport :=
  mkTransport
    (mkConfig (ChannelSize (config s)) (MuxCon (config s)) (Nodelay (config s))
              (WebPort (config s)) st)
    (parent_done s) (ctx s) (ctx_done s) (cancel s)
    (tunnelChannel s) (handshakeChannel s) (localChannel s)
    (reqNewConnChan s) (controlChannel s) (restartMutex s).

(** What the calls of one pass of [channelHandshake] return. *)
Record handshake : Type := mkHandshake {
  deadline_ok : bool;          (* conn.SetReadDeadline succeeds *)
  msg         : string;        (* utils.ReceiveBinaryTransportString: *)
  transport   : Z;             (*   the string, its tag, *)
  recv_err    : option bool;   (*   its error, [Some true] for a timeout *)
  echo_ok     : bool           (* utils.SendBinaryTransportString succeeds *)
}.

(** The body of [case conn := <-...:] in [channelHandshake] (the same
    text in tcp.go and tcpmux.go). *)
Definition channelHandshake_conn (Token : string) (k : conn) (o : handshake)
    (s : Transport) : Transport * list effect * flow :=
  if negb (deadline_ok o) then
    (s, [Log Error "failed to set read deadline"; ConnClose k], Continue)
  else if negb (transport o =? byte_of SG_Chan) then
    (s, [Log Error "invalid signal received for channel, Discarding connection";
         ConnClose k], Continue)
  else
    match recv_err o with
    | Some timeout =>
        (s, [(if timeout
              then Log Warn "timeout while waiting for control channel signal"
              else Log Error "failed to receive control channel signal");
             ConnClose k], Continue)
    | None =>
        if negb (String.eqb (msg o) Token) then
          (s, [Log Warn "invalid security token received"; ConnClose k], Continue)
        else if negb (echo_ok o) then
          (s, [SendTarget k Token (Some (byte_of SG_Chan)) false;
               Log Error "failed to send security token";
               ConnClose k], Continue)
        else
          (with_controlChannel (Some k) s,
           [SendTarget k Token (Some (byte_of SG_Chan)) true;
            Log Info "control channel successfully established."], Return)
    end.

Inductive hk_branch : Type :=
| HkCtxDone                 (* case <-s.ctx.Done() *)
| HkConn (o : handshake).   (* case conn := <-s.tunnelChannel *)

(** One round of the loop of the tcp server's [channelHandshake]. *)
Definition channelHandshake_select (Token : string) (b : hk_branch)
    (s : Transport) : option (Transport * list effect * flow) :=
  match b with
  | HkCtxDone => if ctx_done s then Some (s, [], Return) else None
  | HkConn o =>
      match Chan.try_recv (tunnelChannel s) with
      | Some (k, q) =>
          Some (channelHandshake_conn Token k o (with_tunnelChannel q s))
      | None => None
      end
  end.

(** The rounds of [channelHandshake] until one returns. *)
Fixpoint channelHandshake (Token : string) (bs : list hk_branch) (s : Transport)
  : option (Transport * list effect * flow) :=
  match bs with
  | [] => Some (s, [], Continue)
  | b :: rest =>
      match channelHandshake_select Token b s with
      | Some (s1, t1, Return) => Some (s1, t1, Return)
      | Some (s1, t1, Continue) =>
          match channelHandshake Token rest s1 with
          | Some (s2, t2, f) => Some (s2, t1 ++ t2, f)
          | None => None
          end
      | None => None
      end
  end.

(** [Start] of the tcp server; [numCPU] is [runtime.NumCPU()], and the
    result is [Continue] while [channelHandshake] has not returned. *)
Definition Start (Token : string) (numCPU : Z) (bs : list hk_branch)
    (s : Transport) : option (Transport * list effect * flow) :=
  let t0 := (if 0 <? WebPort (config s) then [Go g_Monitor] else [])
              ++ [Go g_tunnelListener] in
  match channelHandshake Token bs (with_status "Disconnected (TCP)" s) with
  | Some (s1, t1, Return) =>
      match controlChannel s1 with
      | Some _ =>
          let numCPU := if 4 <? numCPU then 4 else numCPU in
          Some (with_status "Connected (TCP)" s1,
                t0 ++ t1
                  ++ [Go g_parsePortMappings; Go g_channelHandler;
                      Log Info "starting handle loops on each CPU thread"]
                  ++ repeat (Go g_handleLoop) (Z.to_nat numCPU),
                Return)
      | None => Some (s1, t0 ++ t1, Return)
      end
  | Some (s1, t1, Continue) => Some (s1, t0 ++ t1, Continue)
  | None => None
  end.

(** [s.controlChannel != nil && ip(s.controlChannel) != ip(tcpConn)] *)
Definition suspicious (ip : conn -> string) (s : Transport) (k : conn) : bool :=
  match controlChannel s with
  | Some kc => negb (String.eqb (ip kc) (ip k))
  | None => false
  end.

(** The log lines of [SetKeepAlive(true)] and [SetKeepAlivePeriod]. *)
Definition set_keepalive (keepalive_ok period_ok : bool) : list effect :=
  (if keepalive_ok then [Log Trace "TCP keep-alive enabled"]
   else [Log Warn "failed to enable TCP keep-alive"])
  ++ (if period_ok then [] else [Log Warn "failed to set TCP keep-alive period"]).

(** What one pass of the loop of [acceptTunnelConn] meets: the accepted
    connection, whether the two keep-alive calls succeed and, on the mux
    server, whether [smux.Client] does. *)
Record tunnel_accept : Type := mkAccept {
  accepted     : Tcp.accepted;
  keepalive_ok : bool;
  period_ok    : bool;
  session_ok   : bool
}.

(** One round of the loop of the tcp server's [acceptTunnelConn]. *)
Definition acceptTunnelConn (ip : conn -> string) (a : tunnel_accept)
    (s : Transport) : Transport * list effect * flow :=
  if ctx_done s then (s, [], Return) else
  let waiting := Log Debug "waiting for accept incoming tunnel connection" in
  match accepted a with
  | Tcp.AcceptErr =>
      (s, [waiting; Log Debug "failed to accept tunnel connection"], Continue)
  | Tcp.AcceptOther k =>
      (s, [waiting; Log Warn "disarded non-TCP tunnel connection"; ConnClose k],
       Continue)
  | Tcp.AcceptTCP k nodelay_ok =>
      if suspicious ip s k then
        (s, [waiting; Log Debug "suspicious packet. discarding packet...";
             ConnClose k], Continue)
      else
        let opts := Tcp.set_nodelay s nodelay_ok
                      ++ set_keepalive (keepalive_ok a) (period_ok a) in
        match Chan.sent_chan (Chan.try_send k (tunnelChannel s)) with
        | Some q => (with_tunnelChannel q s, waiting :: opts, Continue)
        | None =>
            (s, waiting :: opts
                  ++ [Log Warn "tunnel listener channel is full, discarding TCP connection";
                      ConnClose k], Continue)
        end
  end.

(** One round of the loop of the mux server's [acceptTunnelConn]. *)
Definition acceptTunnelConn_mux (ip : conn -> string) (a : tunnel_accept)
    (s : Transport) : Transport * list effect * flow :=
  if ctx_done s then (s, [], Return) else
  let waiting := Log Debug "waiting for accept incoming tunnel connection" in
  match accepted a with
  | Tcp.AcceptErr =>
      (s, [waiting; Log Debug "failed to accept tunnel connection"], Continue)
  | Tcp.AcceptOther k =>
      (s, [waiting; Log Warn "disarded non-TCP tunnel connection"; ConnClose k],
       Continue)
  | Tcp.AcceptTCP k nodelay_ok =>
      if suspicious ip s k then
        (s, [waiting; Log Debug "suspicious packet. discarding packet...";
             ConnClose k], Continue)
      else
        let opts := Tcp.set_nodelay s nodelay_ok
                      ++ set_keepalive (keepalive_ok a) (period_ok a) in
        match controlChannel s with
        | None =>
            let found := Log Info "control channel not found, attempting to establish a new session" in
            match Chan.sent_chan (Chan.try_send k (handshakeChannel s)) with
            | Some q => (with_handshakeChannel q s, waiting :: opts ++ [found], Continue)
            | None =>
                (s, waiting :: opts
                      ++ [found; Log Warn "control channel handshake in progress...";
                          ConnClose k], Continue)
            end
        | Some _ =>
            if session_ok a then
              match Chan.sent_chan (Chan.try_send k (tunnelChannel s)) with
              | Some q => (with_tunnelChannel q s, waiting :: opts, Continue)
              | None =>
                  (s, waiting :: opts
                        ++ [Log Warn "tunnel listener channel is full, discarding TCP connection";
                            ConnClose k], Continue)
              end
            else
              (s, waiting :: opts
                    ++ [Log Error "failed to create MUX session for connection";
                        ConnClose k], Continue)
        end
  end.

(** The rounds of an accept loop, until one returns. *)
Fixpoint accept_rounds (round : tunnel_accept -> Transport -> Transport * list effect * flow)
    (inputs : list tunnel_accept) (s : Transport)
  : Transport * list effect * flow :=
  match inputs with
  | [] => (s, [], Continue)
  | a :: rest =>
      match round a s with
      | (s1, t1, Return) => (s1, t1, Return)
      | (s1, t1, Continue) =>
          let '(s2, t2, f) := accept_rounds round rest s1 in
          (s2, t1 ++ t2, f)
      end
  end.

End ServerAccept.

(* ------------------------------------------------------------------ *)
(** ** Reading the handshake and the tunnel listener *)

(** The handshake a server accepts: the deadline is set, the tag is
    REQ_CHAN, nothing failed, the token is the server's, the echo is
    written. *)
Definition accepts (Token : string) (o : ServerAccept.handshake) : bool :=
  ServerAccept.deadline_ok o
  && (ServerAccept.transport o =? Signals.byte_of Signals.SG_Chan)
  && match ServerAccept.recv_err o with None => true | Some _ => false end
  && String.eqb (ServerAccept.msg o) Token
  && ServerAccept.echo_ok o.

Definition is_handleLoop (g : Runtime.goroutine) : bool :=
  match g with Runtime.g_handleLoop => true | _ => false end.

Definition is_parsePortMappings (g : Runtime.goroutine) : bool :=
  match g with Runtime.g_parsePortMappings => true | _ => false end.

(** The connections an accept loop was given. *)
Definition offered_conn (a : ServerAccept.tunnel_accept) : list Runtime.conn :=
  match ServerAccept.accepted a with
  | Server.Tcp.AcceptErr => []
  | Server.Tcp.AcceptOther k | Server.Tcp.AcceptTCP k _ => [k]
  end.

Definition offered (inputs : list ServerAccept.tunnel_accept) : list Runtime.conn :=
  flat_map offered_conn inputs.

(** How an accept loop grew the tunnel queue from [s] to [s'] with the
    trace [t], given the connections [given]: each of them is appended
    to the queue or closed, and every appended one has the peer address
    of the control channel, when there is one. *)
Definition queue_grows (ip : Runtime.conn -> string) (s s' : Server.Transport)
    (t : list Runtime.effect) (given : list Runtime.conn) : Prop :=
  exists new,
    Chan.buf (Server.tunnelChannel s') = Chan.buf (Server.tunnelChannel s) ++ new
    /\ Permutation (new ++ closed t) given
    /\ forall kc, Server.controlChannel s = Some kc ->
                  Forall (fun k => ip k = ip kc) new.

(** How the mux listener served the handshake channel from [s] to [s']
    with the trace [t], given the connections [given]: each of them is
    handed to a receiver that stood in the channel ([handed], one per
    receiver served), stored in its buffer ([new]) or closed. *)
Definition handshake_grows (s s' : Server.Transport)
    (t : list Runtime.effect) (given : list Runtime.conn) : Prop :=
  exists handed new,
    Chan.buf (Server.handshakeChannel s')
      = Chan.buf (Server.handshakeChannel s) ++ new
    /\ (Chan.recvq (Server.handshakeChannel s') + length handed)%nat
       = Chan.recvq (Server.handshakeChannel s)
    /\ Chan.sendq (Server.handshakeChannel s')
       = Chan.sendq (Server.handshakeChannel s)
    /\ Chan.cap (Server.handshakeChannel s') = Chan.cap (Server.handshakeChannel s)
    /\ Permutation (handed ++ new ++ closed t) given.

(** A mux server before its handshake: no control channel, nothing
    queued, and [channelHandshake] standing in its receive on the
    handshake channel. *)
Definition handshaking_server : Server.Transport :=
  ServerAccept.with_handshakeChannel (Chan.mk 0 [] [] 1)
    (ServerAccept.with_controlChannel None quiet_server).

(** A server before its handshake: no control channel, the connections
    3, 4 and 5 waiting on the tunnel queue. *)
Definition fresh_server : Server.Transport :=
  Server.with_tunnelChannel (Chan.mk 2 [3; 4; 5]%nat [] 0)
    (ServerAccept.with_controlChannel None quiet_server).

(** A handshake with the wrong tag, one with the wrong token, and the
    right one. *)
Definition handshakes : list ServerAccept.hk_branch :=
  [ ServerAccept.HkConn (ServerAccept.mkHandshake true "musix" 4 None true);
    ServerAccept.HkConn (ServerAccept.mkHandshake true "guess" 1 None true);
    ServerAccept.HkConn (ServerAccept.mkHandshake true "musix" 1 None true) ].

(** Peers: the control channel 1 and the connections below 30 come from
    one address, the others from another. *)
Definition peer (k : Runtime.conn) : string :=
  if (k <? 30)%nat then "10.0.0.1" else "10.0.0.2".

(** Four tunnel connections: one from the client, one from elsewhere,
    and two more from the client, the queue holding two. *)
Definition tunnel_accepts : list ServerAccept.tunnel_accept :=
  [ ServerAccept.mkAccept (Server.Tcp.AcceptTCP 20%nat true) true true true;
    ServerAccept.mkAccept (Server.Tcp.AcceptTCP 31%nat true) true true true;
    ServerAccept.mkAccept (Server.Tcp.AcceptTCP 21%nat true) true true true;
    ServerAccept.mkAccept (Server.Tcp.AcceptTCP 22%nat true) true true true ].

(* ------------------------------------------------------------------ *)
(** ** The pairing workers of the tcp server together *)

Module Pairing.
Import Runtime Server.

(** A worker takes a branch of its select, or the context is
    cancelled. *)
Inductive event : Type :=
| Worker (i : nat) (b : Tcp.hl_branch)
| Cancel.

Definition step (e : event) (st : Transport * list Tcp.hl_pc)
  : option (Transport * list Tcp.hl_pc * list effect) :=
  let (s, ws) := st in
  match e with
  | Worker i b =>
      match nth_error ws i with
      | Some p =>
          match Tcp.handleLoop_select b s p with
          | Some (s', p', t) => Some (s', set_nth i p' ws, t)
          | None => None
          end
      | None => None
      end
  | Cancel => Some (with_ctx_done true s, ws, [])
  end.

Fixpoint run (es : list event) (st : Transport * list Tcp.hl_pc)
  : option (Transport * list Tcp.hl_pc * list effect) :=
  match es with
  | [] => Some (st, [])
  | e :: rest =>
      match step e st with
      | Some (s1, ws1, t1) =>
          match run rest (s1, ws1) with
          | Some (s2, ws2, t2) => Some (s2, ws2, t1 ++ t2)
          | None => None
          end
      | None => None
      end
  end.

End Pairing.

(* ------------------------------------------------------------------ *)
(** ** Reading the pairing *)

(** The two connections of each copier a trace starts. *)
Definition copier_fst (t : list Runtime.effect) : list Runtime.conn :=
  flat_map (fun e => match e with
                     | Runtime.Go (Runtime.g_TCPConnectionHandler a _) => [a]
                     | _ => []
                     end) t.

Definition copier_snd (t : list Runtime.effect) : list Runtime.conn :=
  flat_map (fun e => match e with
                     | Runtime.Go (Runtime.g_TCPConnectionHandler _ b) => [b]
                     | _ => []
                     end) t.

(** The user connections the workers hold. *)
Definition parked_of (p : Server.Tcp.hl_pc) : list Runtime.conn :=
  match p with
  | Server.Tcp.HlInner localConn => [Server.lconn localConn]
  | _ => []
  end.

Definition parked (ws : list Server.Tcp.hl_pc) : list Runtime.conn :=
  flat_map parked_of ws.

(** The user connections waiting on the local queue. *)
Definition queued_users (s : Server.Transport) : list Runtime.conn :=
  map Server.lconn (pending (Server.localChannel s)).

(** Two workers on [busy_server]: both take a user connection; the
    first meets a tunnel connection that refuses the address and then
    one that takes it, the second is served next. *)
Definition two_workers : list Pairing.event :=
  [ Pairing.Worker 0 Server.Tcp.HlLocal; Pairing.Worker 1 Server.Tcp.HlLocal;
    Pairing.Worker 0 (Server.Tcp.HlTunnel false);
    Pairing.Worker 1 (Server.Tcp.HlTunnel true);
    Pairing.Worker 0 (Server.Tcp.HlTunnel true) ].

(** A mux session on [mux_server]: a stream, a failed write on the
    second. *)
Definition failing_session : list Server.TcpMux.hs_branch :=
  [ Server.TcpMux.HsLocal (Some 31%nat) true;
    Server.TcpMux.HsLocal (Some 32%nat) false ].

(* ------------------------------------------------------------------ *)
(** ** parsePortMappings

    The loop body is the same text in the three server transports; the
    UDP listener is started by the TCP transport only, so the mux
    transports are the case [AcceptUDP = false].

    The library calls are arguments: [Atoi] is [strconv.Atoi] ([None]
    for an error), [Itoa] is [strconv.Itoa], which is also how
    [fmt.Sprintf] prints [%d], and [TrimSpace] is [strings.TrimSpace].
    [config.Ports] and [config.AcceptUDP] are arguments too. *)

Module PortMappings.

Section Library.
Variable Atoi : string -> option Z.
Variable Itoa : Z -> string.
Variable TrimSpace : string -> string.

(** [strings.Split(s, "=")], as its first part and the parts after it. *)
Fixpoint Split (s : string) : string * list string :=
  match s with
  | EmptyString => (EmptyString, [])
  | String c rest =>
      let (p, ps) := Split rest in
      if Ascii.eqb c "="%char then (EmptyString, p :: ps)
      else (String c p, ps)
  end.

(** The body of the loop for one entry: the addresses the listener is
    started with, [None] for the [Fatalf]. *)
Definition parsePortMapping (portMapping : string) : option (string * string) :=
  match Split portMapping with
  | (p0, []) =>
      match Atoi p0 with
      | None => None
      | Some port => Some (String ":"%char (Itoa port), TrimSpace (Itoa port))
      end
  | (p0, p1 :: _) =>
      let localAddr := TrimSpace p0 in
      Some (match Atoi localAddr with
            | Some _ => String ":"%char localAddr
            | None => localAddr
            end,
            TrimSpace p1)
  end.



End Library.

End PortMappings.

(** Whether a string holds the separator of a port mapping. *)
Fixpoint has_eq (s : string) : bool :=
  match s with
  | EmptyString => false
  | String c rest => Ascii.eqb c "="%char || has_eq rest
  end.

(** A decimal reader for small examples: one digit. *)
Definition digit_Atoi (s : string) : option Z :=
  match s with
  | String c EmptyString =>
      let n := Z.of_nat (Ascii.nat_of_ascii c) - 48 in
      if (0 <=? n) && (n <=? 9) then Some n else None
  | _ => None
  end.

Definition digit_Itoa (n : Z) : string :=
  String (Ascii.ascii_of_nat (Z.to_nat (n + 48))) EmptyString.

(* ================================================================== *)
(** * Properties *)

(** ** Machine integers *)

Lemma wrap32_id z : GoInt.is_int32 z -> GoInt.wrap32 z = z.
Proof.
  unfold GoInt.is_int32, GoInt.min_int32, GoInt.max_int32, GoInt.wrap32, GoInt.wrap.
  intros H.
  change (2 ^ (32 - 1)) with 2147483648. change (2 ^ 32) with 4294967296.
  change (2 ^ 31) with 2147483648 in H.
  rewrite Z.mod_small; lia.
Qed.

Lemma wrap64_id z : GoInt.is_int z -> GoInt.wrap64 z = z.
Proof.
  unfold GoInt.is_int, GoInt.min_int, GoInt.max_int, GoInt.wrap64, GoInt.wrap.
  intros H.
  change (2 ^ (64 - 1)) with 9223372036854775808.
  change (2 ^ 64) with 18446744073709551616.
  change (2 ^ 63) with 9223372036854775808 in H.
  rewrite Z.mod_small; lia.
Qed.

Lemma max_int_value : GoInt.max_int = 9223372036854775807.
Proof. reflexivity. Qed.

Lemma min_int_value : GoInt.min_int = -9223372036854775808.
Proof. reflexivity. Qed.

Lemma max_int32_value : GoInt.max_int32 = 2147483647.
Proof. reflexivity. Qed.

Lemma min_int32_value : GoInt.min_int32 = -2147483648.
Proof. reflexivity. Qed.

Ltac int_bounds :=
  unfold GoInt.is_int, GoInt.is_int32 in *;
  rewrite ?max_int_value, ?min_int_value, ?max_int32_value, ?min_int32_value in *.

(** [ceil_div a b] is the least integer that, multiplied by [b],
    reaches [a]. *)
Lemma ceil_div_least (a b : Z) :
  0 < b -> b * (SizerSpec.ceil_div a b - 1) < a <= b * SizerSpec.ceil_div a b.
Proof.
  intros Hb. unfold SizerSpec.ceil_div.
  pose proof (Z.div_mod (- a) b ltac:(lia)) as E.
  pose proof (Z.mod_pos_bound (- a) b Hb) as B.
  lia.
Qed.

Lemma ceil_div_nonneg (a b : Z) : 0 < b -> 0 <= a -> 0 <= SizerSpec.ceil_div a b <= a.
Proof.
  intros Hb Ha. pose proof (ceil_div_least a b Hb). nia.
Qed.

(** The code's [(x + (k-1)) / k] is the ceiling for a non-negative [x]. *)
Lemma go_ceil_form (x k : Z) :
  0 < k -> 0 <= x -> x + (k - 1) <= GoInt.max_int ->
  GoInt.div (GoInt.add x (k - 1)) k = SizerSpec.ceil_div x k.
Proof.
  intros Hk Hx Hmax. unfold GoInt.div, GoInt.add.
  rewrite wrap64_id by (int_bounds; lia).
  rewrite Z.quot_div_nonneg by lia.
  unfold SizerSpec.ceil_div.
  pose proof (Z.div_mod (x + (k - 1)) k ltac:(lia)) as E.
  pose proof (Z.mod_pos_bound (x + (k - 1)) k Hk) as B.
  set (q := (x + (k - 1)) / k) in *. set (m := (x + (k - 1)) mod k) in *.
  assert (Hq : - q = (- x) / k).
  { apply (Z.div_unique (- x) k (- q) (k - 1 - m)); lia. }
  lia.
Qed.

(** ** The signal alphabet *)

(** C9: the wire bytes of the signal alphabet are HB = 0x00,
    REQ_CHAN = 0x01, PING = 0x02, CLOSED = 0x03, TCP = 0x04, UDP = 0x05,
    and the six values are pairwise distinct. *)
Theorem signal_wire_values :
  Signals.byte_of Signals.SG_HB = 0x00
  /\ Signals.byte_of Signals.SG_Chan = 0x01
  /\ Signals.byte_of Signals.SG_Ping = 0x02
  /\ Signals.byte_of Signals.SG_Closed = 0x03
  /\ Signals.byte_of Signals.SG_TCP = 0x04
  /\ Signals.byte_of Signals.SG_UDP = 0x05
  /\ NoDup (map Signals.byte_of Signals.const_block).
Proof.
  repeat split; try reflexivity.
  cbn. repeat constructor; cbn; intuition discriminate.
Qed.

(** ** The pool sizer *)

Section WindowClose.
Import Client Runtime.

Variables (c : TcpTransport) (l : poolMaintainer_locals).
Hypothesis Htyped : client_typed c l.
Hypothesis Hload : 0 <= loadConnections c.
Hypothesis Hsum : 0 <= poolConnectionsSum l.

Let avg_load := SizerSpec.ceil_div (loadConnections c) 60.
Let avg_pool := SizerSpec.ceil_div (poolConnectionsSum l) 60.

Lemma avg_load_form :
  GoInt.div (GoInt.add (loadConnections c) 59) 60 = avg_load.
Proof.
  destruct Htyped as (_ & H32 & _). int_bounds.
  apply (go_ceil_form (loadConnections c) 60); rewrite ?max_int_value; lia.
Qed.

Lemma avg_pool_form :
  GoInt.div (GoInt.add (poolConnectionsSum l) 59) 60 = avg_pool.
Proof.
  destruct Htyped as (_ & _ & H32 & _). int_bounds.
  apply (go_ceil_form (poolConnectionsSum l) 60); rewrite ?max_int_value; lia.
Qed.

Lemma avg_load_bounds : 0 <= avg_load <= GoInt.max_int32.
Proof.
  destruct Htyped as (_ & H32 & _). int_bounds.
  pose proof (ceil_div_nonneg (loadConnections c) 60 ltac:(lia) Hload).
  unfold avg_load. lia.
Qed.

Lemma grow_form :
  GoInt.div (GoInt.add avg_load 4) 5 = SizerSpec.ceil_div avg_load 5.
Proof.
  pose proof avg_load_bounds as B. rewrite max_int32_value in B.
  apply (go_ceil_form avg_load 5); rewrite ?max_int_value; lia.
Qed.

Lemma shrink_form :
  GoInt.div (GoInt.add avg_load 3) 4 = SizerSpec.ceil_div avg_load 4.
Proof.
  pose proof avg_load_bounds as B. rewrite max_int32_value in B.
  apply (go_ceil_form avg_load 4); rewrite ?max_int_value; lia.
Qed.

End WindowClose.

(** C1: at a window close the sizer takes the averages by ceiling
    division, [avg_pool = ceil (pool_sum / 60)] and
    [avg_load = ceil (load_observed / 60)], resets both accumulators, and
    then: if [ceil (avg_load / 5) > avg_pool] the target grows by one
    and exactly one tunnel-dial task is started; else if
    [ceil (avg_load / 4) < avg_pool] and the target exceeds
    [ConnPoolSize], the target shrinks by one.  The integer forms of the
    code, [(x+59)/60], [(l+4)/5] and [(l+3)/4], are these ceilings for
    non-negative counters. *)
Theorem window_close_refines_spec
    (c : Client.TcpTransport) (l : Client.poolMaintainer_locals) :
  client_typed c l ->
  0 <= Client.loadConnections c ->
  0 <= Client.poolConnectionsSum l ->
  Client.newPoolSize l < GoInt.max_int ->
  let load := Client.loadConnections c in
  let sum := Client.poolConnectionsSum l in
  let avg_load := SizerSpec.ceil_div load 60 in
  let '(c', l', t) := Client.window_close c l in
  GoInt.div (GoInt.add load 59) 60 = avg_load
  /\ GoInt.div (GoInt.add sum 59) 60 = SizerSpec.ceil_div sum 60
  /\ GoInt.div (GoInt.add avg_load 4) 5 = SizerSpec.ceil_div avg_load 5
  /\ GoInt.div (GoInt.add avg_load 3) 4 = SizerSpec.ceil_div avg_load 4
  /\ Client.loadConnections c' = 0
  /\ Client.poolConnectionsSum l' = 0
  /\ (Client.newPoolSize l', Runtime.spawned Runtime.is_tunnelDialer t)
     = SizerSpec.close_window (Client.ConnPoolSize (Client.config c))
         sum load (Client.newPoolSize l).
Proof.
  intros Htyped Hload Hsum Hmax load sum avg_load.
  pose proof (avg_load_form c l Htyped Hload) as E1.
  pose proof (avg_pool_form c l Htyped Hsum) as E2.
  pose proof (grow_form c l Htyped Hload) as E3.
  pose proof (shrink_form c l Htyped Hload) as E4.
  destruct Htyped as (Hcfg & _ & _ & Hn).
  subst load sum avg_load.
  unfold Client.window_close, SizerSpec.close_window.
  cbn [Client.loadConnections Client.with_loadConnections
       Client.config Client.controlFlow].
  rewrite E1, E2, E3, E4.
  set (sum := Client.poolConnectionsSum l).
  set (avg_load := SizerSpec.ceil_div (Client.loadConnections c) 60).
  rewrite Z.gtb_ltb.
  destruct (SizerSpec.ceil_div sum 60 <? SizerSpec.ceil_div avg_load 5) eqn:Hgrow.
  - cbn. repeat split; try assumption; try reflexivity.
    unfold GoInt.add. rewrite wrap64_id by (int_bounds; lia). reflexivity.
  - rewrite (Z.gtb_ltb (Client.newPoolSize l)).
    destruct ((SizerSpec.ceil_div avg_load 4 <? SizerSpec.ceil_div sum 60)
              && (Client.ConnPoolSize (Client.config c) <? Client.newPoolSize l))
      eqn:Hshrink.
    + destruct (Chan.send tt (Client.controlFlow c)) as [f parks]. cbn.
      repeat split; try assumption; try reflexivity.
      apply andb_true_iff in Hshrink. destruct Hshrink as [_ Hgt].
      apply Z.ltb_lt in Hgt.
      unfold GoInt.sub. rewrite wrap64_id by (int_bounds; lia). reflexivity.
    + cbn. repeat split; try assumption; reflexivity.
Qed.

Lemma window_close_refines_spec_witness :
  Client.newPoolSize (snd (fst (Client.window_close busy_client busy_locals))) = 5
  /\ Runtime.spawned Runtime.is_tunnelDialer
       (snd (Client.window_close busy_client busy_locals)) = 1%nat.
Proof.
  pose proof (window_close_refines_spec busy_client busy_locals) as H.
  assert (Ht : client_typed busy_client busy_locals).
  { unfold client_typed, GoInt.is_int, GoInt.is_int32; cbn. lia. }
  specialize (H Ht ltac:(cbn; lia) ltac:(cbn; lia) ltac:(cbn; lia)).
  cbv zeta in H.
  destruct (Client.window_close busy_client busy_locals) as [[c' l'] t].
  destruct H as (_ & _ & _ & _ & _ & _ & H).
  change (SizerSpec.close_window _ _ _ _) with (5, 1%nat) in H.
  split; [exact (f_equal fst H) | exact (f_equal snd H)].
Defined.

(** *** The floor of the target *)

(** Destructs the matches a step function is made of. *)
Ltac step_cases H :=
  repeat match type of H with
         | context [match ?x with _ => _ end] => destruct x eqn:?
         | context [if ?x then _ else _] => destruct x eqn:?
         end;
  try discriminate H.

Ltac some_inv H := try discriminate H; injection H as <- <-.

Lemma resume_maintainer_newPoolSize f l :
  Client.newPoolSize (Client.resume_maintainer f l) = Client.newPoolSize l.
Proof.
  unfold Client.resume_maintainer.
  destruct (Client.pc l), (Chan.sendq f); reflexivity.
Qed.

Lemma dispatch_keeps msg c l c' l' t g :
  Client.dispatch msg c l = (c', l', t, g) ->
  Client.config c' = Client.config c
  /\ Client.newPoolSize l' = Client.newPoolSize l.
Proof.
  unfold Client.dispatch. intros H. step_cases H;
    inversion H; subst; cbn; rewrite ?resume_maintainer_newPoolSize; auto.
Qed.

(** A window close keeps the target at or above the floor and raises
    it by at most one. *)
Lemma window_close_floor c l c' l' t :
  Client.window_close c l = (c', l', t) ->
  GoInt.is_int (Client.ConnPoolSize (Client.config c)) ->
  Client.ConnPoolSize (Client.config c) <= Client.newPoolSize l < GoInt.max_int ->
  Client.config c' = Client.config c
  /\ Client.ConnPoolSize (Client.config c) <= Client.newPoolSize l'
       <= Client.newPoolSize l + 1.
Proof.
  unfold Client.window_close. intros H Hcfg Hn.
  cbn [Client.config Client.with_loadConnections Client.controlFlow] in H.
  step_cases H; inversion H; subst; cbn;
    (split; [reflexivity|]);
    try match goal with
        | E : (_ && _)%bool = true |- _ =>
            apply andb_true_iff in E; destruct E as [_ E]; apply Z.ltb_lt in E
        end;
    unfold GoInt.add, GoInt.sub;
    rewrite ?wrap64_id by (int_bounds; lia); lia.
Qed.

Lemma step_floor_inv P n e s s' t :
  GoInt.is_int P ->
  (is_window e = true -> P + n < GoInt.max_int) ->
  floor_inv P n s ->
  Client.step e s = Some (s', t) ->
  floor_inv P (n + (if is_window e then 1 else 0)) s'.
Proof.
  intros HP Hmax [Hcfg Hn] H. unfold floor_inv.
  destruct e as [b | r | b | | | ]; cbn [Client.step is_window] in H, Hmax |- *.
  - unfold Client.poolMaintainer_select in H.
    destruct (Client.pc (Client.maintainer s)); try discriminate H.
    destruct b.
    + destruct (Client.ctx_done (Client.transport s)); some_inv H; cbn.
      split; [assumption | lia].
    + some_inv H; cbn. split; [assumption | lia].
    + specialize (Hmax eq_refl).
      destruct (Client.window_close (Client.transport s) (Client.maintainer s))
        as [[c' l'] t'] eqn:W.
      some_inv H; cbn.
      apply window_close_floor in W; rewrite ?Hcfg; try assumption; try lia.
      destruct W as [W1 W2]. rewrite W1. split; [assumption | lia].
  - destruct (Client.reader_round r (Client.transport s) (Client.handler s));
      some_inv H; cbn. split; [assumption | lia].
  - unfold Client.channelHandler_select in H.
    destruct (Client.returned (Client.handler s)); try discriminate H.
    destruct b.
    + destruct (Client.ctx_done (Client.transport s)); some_inv H; cbn.
      split; [assumption | lia].
    + destruct (Chan.try_recv (Client.msgChan (Client.handler s)))
        as [[msg m]|]; try discriminate H.
      destruct (Client.dispatch msg (Client.transport s) (Client.maintainer s))
        as [[[c' l'] t'] g] eqn:D.
      some_inv H; cbn.
      apply dispatch_keeps in D. destruct D as [D1 D2].
      rewrite D1, D2. split; [assumption | lia].
    + destruct (Chan.try_recv (Client.errChan (Client.handler s)))
        as [[u e]|]; some_inv H; cbn.
      split; [assumption | lia].
  - some_inv H; cbn. split; [assumption | lia].
  - some_inv H; cbn. split; [assumption | lia].
  - some_inv H; cbn. split; [assumption | lia].
Qed.

Lemma windows_cons e es :
  windows (e :: es) = (if is_window e then 1 else 0) + windows es.
Proof.
  unfold windows. cbn [filter]. destruct (is_window e); cbn [length]; lia.
Qed.

Lemma windows_nonneg es : 0 <= windows es.
Proof. unfold windows. lia. Qed.

Lemma run_floor_inv P es : forall n s s' t,
  GoInt.is_int P ->
  P + n + windows es <= GoInt.max_int ->
  floor_inv P n s ->
  Client.run es s = Some (s', t) ->
  floor_inv P (n + windows es) s'.
Proof.
  induction es as [|e es IH]; intros n s s' t HP Hmax Hinv H.
  - cbn in H. inversion H; subst. unfold windows; cbn.
    replace (n + 0) with n by lia. assumption.
  - cbn [Client.run] in H. rewrite windows_cons in Hmax |- *.
    destruct (Client.step e s) as [[s1 t1]|] eqn:S1; try discriminate H.
    destruct (Client.run es s1) as [[s2 t2]|] eqn:R; try discriminate H.
    inversion H; subst.
    pose proof (windows_nonneg es) as Hw.
    assert (I1 : floor_inv P (n + (if is_window e then 1 else 0)) s1).
    { apply (step_floor_inv P n e s s1 t1); auto.
      intros We. rewrite We in Hmax. lia. }
    rewrite Z.add_assoc.
    apply (IH _ s1 s' t2); auto. lia.
Qed.

(** C4: in every state the client reaches from the establishment of the
    control channel, the target pool size is at least [ConnPoolSize]: it
    starts there, and a window close lowers it only when it is strictly
    above.  The schedule is any interleaving of the sizer, the consumer,
    its reader and the tunnel dialers; the bound on the number of window
    closes (one per minute) keeps [newPoolSize++] below the largest
    [int]. *)
Theorem pool_size_floor
    (cfg : Client.TcpConfig) (k : Runtime.conn) (es : list Client.event)
    (s : Client.system) (t : list Runtime.effect) :
  GoInt.is_int (Client.ConnPoolSize cfg) ->
  Client.ConnPoolSize cfg + windows es <= GoInt.max_int ->
  Client.run es (Client.established cfg k) = Some (s, t) ->
  Client.newPoolSize (Client.maintainer (Client.established cfg k))
    = Client.ConnPoolSize cfg
  /\ Client.ConnPoolSize cfg <= Client.newPoolSize (Client.maintainer s).
Proof.
  intros Hcfg Hmax Hrun. split; [reflexivity|].
  assert (I0 : floor_inv (Client.ConnPoolSize cfg) 0 (Client.established cfg k)).
  { split; cbn; lia. }
  pose proof (run_floor_inv _ es 0 _ s t Hcfg ltac:(lia) I0 Hrun) as [_ I].
  lia.
Qed.

Lemma pool_size_floor_witness :
  match Client.run floor_schedule (Client.established floor_config 7%nat) with
  | Some (s, _) => 2 <= Client.newPoolSize (Client.maintainer s)
  | None => False
  end.
Proof.
  destruct (Client.run floor_schedule (Client.established floor_config 7%nat))
    as [[s t]|] eqn:R.
  - apply (pool_size_floor floor_config 7%nat floor_schedule s t).
    + unfold GoInt.is_int; cbn; lia.
    + vm_compute; discriminate.
    + exact R.
  - vm_compute in R. discriminate R.
Defined.

(** *** REQ_CHAN and the shrink token *)

(** C5, as stated, fails: the channel [NewTCPClient] makes for the
    shrink token has capacity 0, not 1, and the sizer's emit on a
    decrement parks the sizer: at the close of an idle window the target
    goes from 3 to 2, the sizer stands in its send, and its next tick is
    not taken. *)
Lemma shrink_emit_parks_sizer :
  Chan.cap (Client.controlFlow (Client.NewTCPClient false floor_config)) = 0%nat
  /\ (let '(c', l', _) := Client.window_close idle_client idle_locals in
      Client.newPoolSize l' = 2
      /\ Client.pc l' = Client.PmSending
      /\ Client.poolMaintainer_select Client.PmTickPool c' l' = None).
Proof. vm_compute. repeat split; reflexivity. Qed.

(** C5, amended: for every REQ_CHAN the consumer dispatches it adds one
    to [loadConnections] (as an int32) and goes on; it then tries to
    take a token from [controlFlow] without parking: with a token it
    starts no tunnel dialer and the parked sizer resumes, without one it
    starts exactly one.  [controlFlow] is unbuffered (capacity 0), as
    [NewTCPClient] and [Restart] make it, so a sizer that decrements
    parks in its send with the token, and the next REQ_CHAN takes the
    token, starts no dialer and lets the sizer go on. *)
Theorem req_chan_and_shrink_token
    (c1 : Client.TcpTransport) (l1 : Client.poolMaintainer_locals)
    (c : Client.TcpTransport) (l : Client.poolMaintainer_locals)
    (p : bool) (cfg : Client.TcpConfig) :
  Client.controlFlow c = Chan.make 0 ->
  snd (Client.window_close c l) = [Runtime.Log Runtime.Info "decreasing pool size"] ->
  (let '(c', l', t, goes_on) :=
     Client.dispatch (Signals.byte_of Signals.SG_Chan) c1 l1 in
   Client.loadConnections c' = GoInt.add32 (Client.loadConnections c1) 1
   /\ goes_on = true
   /\ match Chan.try_recv (Client.controlFlow c1) with
      | Some (_, f) =>
          Client.controlFlow c' = f
          /\ l' = Client.resume_maintainer f l1
          /\ Runtime.spawned Runtime.is_tunnelDialer t = 0%nat
      | None =>
          Client.controlFlow c' = Client.controlFlow c1
          /\ l' = l1
          /\ Runtime.spawned Runtime.is_tunnelDialer t = 1%nat
      end)
  /\ Chan.cap (Client.controlFlow (Client.NewTCPClient p cfg)) = 0%nat
  /\ Chan.cap (Client.controlFlow (fst (Client.Restart_resume c1))) = 0%nat
  /\ (let '(c', l', _) := Client.window_close c l in
      Client.newPoolSize l' = GoInt.sub (Client.newPoolSize l) 1
      /\ Client.pc l' = Client.PmSending
      /\ Chan.sendq (Client.controlFlow c') = [tt]
      /\ Client.poolMaintainer_select Client.PmTickLoad c' l' = None
      /\ let '(c'', l'', t, _) :=
           Client.dispatch (Signals.byte_of Signals.SG_Chan) c' l' in
         Runtime.spawned Runtime.is_tunnelDialer t = 0%nat
         /\ Client.pc l'' = Client.PmSelect
         /\ Chan.sendq (Client.controlFlow c'') = []).
Proof.
  intros Hflow Hdec. repeat apply conj; try reflexivity.
  - unfold Client.dispatch. rewrite Z.eqb_refl.
    cbn [Client.controlFlow Client.with_loadConnections].
    destruct (Chan.try_recv (Client.controlFlow c1)) as [[u f]|];
      cbn; repeat split; reflexivity.
  - revert Hdec. unfold Client.window_close.
    cbn [Client.config Client.with_loadConnections Client.controlFlow].
    rewrite Hflow.
    destruct (_ <? _); [discriminate|].
    destruct (_ && _)%bool; [|discriminate].
    intros _. cbn. repeat split; reflexivity.
Qed.

Lemma req_chan_and_shrink_token_witness :
  let '(c', l', _) := Client.window_close idle_client idle_locals in
  Client.newPoolSize l' = GoInt.sub 3 1
  /\ Client.pc l' = Client.PmSending
  /\ Chan.sendq (Client.controlFlow c') = [tt].
Proof.
  pose proof (req_chan_and_shrink_token idle_client idle_locals
                idle_client idle_locals false floor_config
                eq_refl eq_refl) as (_ & _ & _ & H).
  destruct (Client.window_close idle_client idle_locals) as [[c' l'] t].
  destruct H as (H1 & H2 & H3 & _). repeat split; assumption.
Defined.

(** ** Signals outside the alphabet *)

(** C2, as stated, fails on the server: the byte 7 is no signal, the
    server's consumer receives it from its reader, starts no Restart and
    goes on with its loop. *)
Lemma server_ignores_unknown_byte :
  Signals.of_byte 7 = None
  /\ match Server.run [Server.EvReader (Runtime.RecvByte 7);
                       Server.EvHandler Server.HResult]
                      (quiet_server, Server.channelHandler_start) with
     | Some (_, h, t) =>
         Server.returned h = false
         /\ Runtime.spawned Runtime.is_Restart t = 0%nat
     | None => False
     end.
Proof. vm_compute. repeat split; reflexivity. Qed.

(** C2, amended: the client's consumer starts Restart and returns on
    every byte other than HB and REQ_CHAN, that is on CLOSED and on every
    byte outside the alphabet.  The server's consumer (tcp and tcpmux)
    starts Restart and returns on CLOSED only: every other byte its
    reader delivers is dropped without any effect and the loop goes on. *)
Theorem unknown_byte_dispatch
    (msg : Z) (c : Client.TcpTransport) (l : Client.poolMaintainer_locals)
    (s : Server.Transport) :
  (let '(_, _, t, goes_on) := Client.dispatch msg c l in
   let known := (msg =? Signals.byte_of Signals.SG_Chan)
                || (msg =? Signals.byte_of Signals.SG_HB) in
   goes_on = known
   /\ Runtime.spawned Runtime.is_Restart t = (if known then 0 else 1)%nat)
  /\ Server.run [Server.EvReader (Runtime.RecvByte msg);
                 Server.EvHandler Server.HResult]
                (s, Server.channelHandler_start)
     = Some (s,
             Server.mkCh (Chan.make 0) Server.RdReturned
                         (msg =? Signals.byte_of Signals.SG_Closed),
             if msg =? Signals.byte_of Signals.SG_Closed
             then [Runtime.Log Runtime.Info
                     "control channel has been closed by the client";
                   Runtime.Go Runtime.g_Restart]
             else []).
Proof.
  split.
  - unfold Client.dispatch.
    destruct (msg =? Signals.byte_of Signals.SG_Chan).
    + cbn [Client.controlFlow Client.with_loadConnections].
      destruct (Chan.try_recv (Client.controlFlow c)) as [[u f]|];
        cbn; split; reflexivity.
    + destruct (msg =? Signals.byte_of Signals.SG_HB); [cbn; split; reflexivity|].
      destruct (msg =? Signals.byte_of Signals.SG_Closed); cbn; split; reflexivity.
  - cbn -[Z.eqb Signals.byte_of].
    destruct (msg =? Signals.byte_of Signals.SG_Closed); reflexivity.
Qed.

(** ** The server reads one signal *)

Lemma try_recv_shrinks {A} (q q' : Chan.chan A) (x : A) :
  Chan.try_recv q = Some (x, q') ->
  (length (Chan.buf q') + length (Chan.sendq q') + 1
   = length (Chan.buf q) + length (Chan.sendq q))%nat.
Proof.
  unfold Chan.try_recv. intros H.
  destruct (Chan.buf q) as [|b rest], (Chan.sendq q) as [|y w];
    try discriminate H; inversion H; subst; cbn;
    rewrite ?length_app; cbn; lia.
Qed.

Lemma send_grows {A} (q q' : Chan.chan A) (x : A) (parks : bool) :
  Chan.send x q = (q', parks) ->
  (length (Chan.buf q') + length (Chan.sendq q')
   <= length (Chan.buf q) + length (Chan.sendq q) + 1)%nat.
Proof.
  unfold Chan.send, Chan.try_send. intros H.
  destruct (Chan.recvq q); [destruct (_ <? _)%nat|];
    cbn in H; inversion H; subst; cbn; rewrite ?length_app; cbn; lia.
Qed.

Lemma resume_reader_reads_left q h :
  match Server.resume_reader q (Server.reader h) with
  | Server.RdReading => 1%nat
  | _ => 0%nat
  end = reads_left h.
Proof.
  unfold reads_left, Server.resume_reader.
  destruct (Server.reader h), (Chan.sendq q); reflexivity.
Qed.

(** Each step pays for a read or a taken result out of what is left. *)
Lemma step_budget e s h s' h' t :
  Server.step e (s, h) = Some (s', h', t) ->
  (reads_left h' + (if is_read e then 1 else 0) <= reads_left h
   /\ results_left h' + (if is_result e then 1 else 0) <= results_left h)%nat.
Proof.
  intros H. destruct e as [r | b | | ]; cbn [Server.step is_read is_result] in H |- *.
  - unfold Server.reader_goroutine in H. unfold results_left, reads_left.
    destruct (Server.reader h) eqn:R; try discriminate H.
    destruct (Chan.send r (Server.resultChan h)) as [q parks] eqn:Q.
    apply send_grows in Q. injection H as <- <- <-. cbn.
    destruct parks; cbn; lia.
  - unfold Server.channelHandler_select in H.
    destruct (Server.returned h); try discriminate H.
    destruct b as [ | w | w | ].
    + destruct (Server.ctx_done s); try discriminate H.
      injection H as <- <- <-. unfold results_left, reads_left; cbn. lia.
    + destruct (Chan.try_recv (Server.reqNewConnChan s)) as [[u q]|];
        try discriminate H.
      destruct w; injection H as <- <- <-; unfold results_left, reads_left; cbn; lia.
    + destruct w; injection H as <- <- <-; unfold results_left, reads_left; cbn; lia.
    + destruct (Chan.try_recv (Server.resultChan h)) as [[r q]|] eqn:Q;
        try discriminate H.
      apply try_recv_shrinks in Q.
      pose proof (resume_reader_reads_left q h) as RR.
      unfold results_left.
      destruct r as [message|]; [destruct (message =? _)|];
        injection H as <- <- <-; unfold reads_left at 1 3; cbn;
        rewrite RR; lia.
  - destruct (Server.offer_req _ s) as [s1 t1]. injection H as <- <- <-. lia.
  - injection H as <- <- <-. lia.
Qed.

Lemma run_budget es : forall s h s' h' t,
  Server.run es (s, h) = Some (s', h', t) ->
  (reads es <= reads_left h /\ results es <= results_left h)%nat.
Proof.
  induction es as [|e es IH]; intros s h s' h' t H.
  - cbn. lia.
  - cbn [Server.run] in H.
    destruct (Server.step e (s, h)) as [[[s1 h1] t1]|] eqn:S1; try discriminate H.
    destruct (Server.run es (s1, h1)) as [[[s2 h2] t2]|] eqn:R; try discriminate H.
    apply step_budget in S1. apply IH in R.
    unfold reads, results in *. cbn [filter].
    destruct (is_read e), (is_result e); cbn [length]; lia.
Qed.

(** C10: over the lifetime of one control channel the server (tcp and
    tcpmux) reads at most one signal byte from the client and its
    consumer loop takes at most one result: the reading goroutine
    delivers a single (byte, error) pair and ends, so a signal the client
    sends after its first byte is never seen by the loop. *)
Theorem server_reads_one_signal
    (s : Server.Transport) (es : list Server.event)
    (s' : Server.Transport) (h' : Server.channelHandler_locals)
    (t : list Runtime.effect) :
  Server.run es (s, Server.channelHandler_start) = Some (s', h', t) ->
  (reads es <= 1 /\ results es <= 1)%nat.
Proof.
  intros H. apply run_budget in H. exact H.
Qed.

Lemma server_reads_one_signal_witness :
  match Server.run (firstn 3 closed_after_heartbeat)
                   (quiet_server, Server.channelHandler_start) with
  | Some _ => (reads (firstn 3 closed_after_heartbeat) <= 1)%nat
  | None => False
  end
  /\ Server.run closed_after_heartbeat
                (quiet_server, Server.channelHandler_start) = None.
Proof.
  split.
  - destruct (Server.run (firstn 3 closed_after_heartbeat)
                         (quiet_server, Server.channelHandler_start))
      as [[[s' h'] t]|] eqn:R.
    + exact (proj1 (server_reads_one_signal quiet_server _ s' h' t R)).
    + vm_compute in R. discriminate R.
  - vm_compute. reflexivity.
Defined.

(** ** Restart *)

(** C3: the restart sequence.  On the server it is as the claim words
    it: under the mutex, cancel, close the control channel, sleep two
    seconds, a fresh context from the parent, the queues re-made and the
    control channel pointer reset, [Start] started, unlock.  On the
    client the same sequence runs without the close: [Restart] forgets
    the control connection ([controlChannel] becomes nil) and never
    closes it.  On either side a caller that finds the mutex taken only
    logs and leaves the state as it is. *)
Theorem Restart_sequences
    (c : Client.TcpTransport) (k : Runtime.conn)
    (s : Server.Transport) (ks : Runtime.conn) :
  Client.restartMutex c = false -> Client.cancel c = true ->
  Client.controlChannel c = Some k ->
  Server.restartMutex s = false -> Server.cancel s = true ->
  Server.controlChannel s = Some ks ->
  0 <= Server.ChannelSize (Server.config s) ->
  (* the client never closes its control channel *)
  snd (Client.Restart c)
    = [Runtime.MutexLock; Runtime.Log Runtime.Info "restarting client...";
       Runtime.CtxCancel; Runtime.Sleep 2;
       Runtime.WithCancel (S (Client.ctx c));
       Runtime.NewDataStore (S (Client.ctx c));
       Runtime.MakeChan "controlFlow" 0;
       Runtime.Go Runtime.g_Start; Runtime.MutexUnlock]
  /\ existsb Runtime.is_close (snd (Client.Restart c)) = false
  /\ (let c' := fst (Client.Restart c) in
      Client.controlChannel c' = None
      /\ Client.poolConnections c' = 0 /\ Client.loadConnections c' = 0
      /\ Client.controlFlow c' = Chan.make 0
      /\ Client.ctx c' = S (Client.ctx c)
      /\ Client.restartMutex c' = false)
  (* the server does *)
  /\ option_map snd (Server.Tcp.Restart s)
     = Some [Runtime.MutexLock; Runtime.Log Runtime.Info "restarting server...";
             Runtime.CtxCancel; Runtime.ConnClose ks; Runtime.Sleep 2;
             Runtime.WithCancel (S (Server.ctx s));
             Runtime.MakeChan "tunnelChannel" (Server.ChannelSize (Server.config s));
             Runtime.MakeChan "localChannel" (Server.ChannelSize (Server.config s));
             Runtime.MakeChan "reqNewConnChan" (Server.ChannelSize (Server.config s));
             Runtime.NewDataStore (S (Server.ctx s));
             Runtime.Go Runtime.g_Start; Runtime.MutexUnlock]
  (* the mutex is held from the first step to the sleep and beyond *)
  /\ option_map Client.restartMutex (fst (Client.Restart_enter c)) = Some true
  /\ option_map Server.restartMutex (fst (Server.Tcp.Restart_enter s)) = Some true
  (* a second caller only logs *)
  /\ Client.Restart (Client.with_restartMutex true c)
     = (Client.with_restartMutex true c,
        [Runtime.Log Runtime.Warn "client is already restarting"])
  /\ Server.Tcp.Restart (Server.with_restartMutex true s)
     = Some (Server.with_restartMutex true s,
             [Runtime.Log Runtime.Warn
                "server restart already in progress, skipping restart attempt"]).
Proof.
  intros Hm Hc Hk Hsm Hsc Hsk Hsize.
  assert (Hmake : forall A, @Chan.make_int A (Server.ChannelSize (Server.config s))
                  = Some (Chan.make (Z.to_nat (Server.ChannelSize (Server.config s))))).
  { intros A. unfold Chan.make_int.
    destruct (Server.ChannelSize (Server.config s) <? 0) eqn:E; [|reflexivity].
    apply Z.ltb_lt in E. lia. }
  unfold Client.Restart, Client.Restart_enter, Server.Tcp.Restart,
    Server.Tcp.Restart_enter, Server.Tcp.Restart_resume.
  rewrite Hm, Hsm.
  cbn [Client.cancel Client.with_restartMutex
       Server.cancel Server.with_restartMutex].
  rewrite Hc, Hsc.
  cbn [Server.controlChannel Server.with_ctx_done Server.with_restartMutex
       Server.config Server.ctx].
  rewrite Hsk, !Hmake. cbn.
  repeat split; reflexivity.
Qed.

Lemma Restart_sequences_witness :
  existsb Runtime.is_close
    (snd (Client.Restart (Client.transport (Client.established floor_config 7%nat))))
  = false
  /\ existsb Runtime.is_close
       (match Server.Tcp.Restart quiet_server with
        | Some (_, t) => t
        | None => []
        end) = true.
Proof.
  pose proof (Restart_sequences
                (Client.transport (Client.established floor_config 7%nat)) 7%nat
                quiet_server 1%nat
                eq_refl eq_refl eq_refl eq_refl eq_refl eq_refl
                ltac:(cbn; lia)) as (_ & H & _).
  split; [exact H | reflexivity].
Defined.

(** ** The accept path *)

(** C6, as stated, fails on the mux servers: tcpmux accepts the user
    connection 9 into its empty local queue and offers no request
    token; the request queue stays as it was. *)
Lemma mux_accept_offers_no_token :
  let '(s', t, _) :=
    Server.TcpMux.acceptLocalConn "127.0.0.1:9090"
      (Server.Tcp.AcceptTCP 9%nat true) quiet_server in
  Chan.buf (Server.localChannel s') = [Server.mkLocal 9%nat "127.0.0.1:9090"]
  /\ offers t = 0%nat
  /\ Server.reqNewConnChan s' = Server.reqNewConnChan quiet_server.
Proof. vm_compute. repeat split; reflexivity. Qed.

Ltac accept_cases s :=
  unfold Server.offer_req, Server.Tcp.set_nodelay;
  unfold Chan.full, Chan.try_send, Chan.sent_chan;
  destruct (Chan.recvq (Server.localChannel s));
  [destruct (length (Chan.buf (Server.localChannel s))
             <? Chan.cap (Server.localChannel s))%nat|];
  cbn [negb Server.reqNewConnChan Server.with_localChannel Server.config
       Server.with_reqNewConnChan Server.localChannel].

Ltac offer_cases s :=
  unfold Chan.try_send, Chan.sent_chan;
  destruct (Chan.recvq (Server.reqNewConnChan s));
  [destruct (length (Chan.buf (Server.reqNewConnChan s))
             <? Chan.cap (Server.reqNewConnChan s))%nat|].

(** C6, amended: in every server transport a user connection accepted
    while the local queue is full is closed and dropped, and one
    accepted otherwise is placed on the queue; either way the accept
    loop goes round again and no sender is parked.  After a successful
    enqueue the tcp server offers exactly one request token without
    parking, a full request queue dropping it; the mux servers (tcpmux,
    wsmux) offer no token on their accept path. *)
Theorem accept_path_never_parks
    (s : Server.Transport) (remote : string) (k : Runtime.conn) (ok : bool) :
  Server.ctx_done s = false ->
  let a := Server.Tcp.AcceptTCP k ok in
  let enqueued (s' : Server.Transport) :=
    Chan.sent_chan (Chan.try_send (Server.mkLocal k remote) (Server.localChannel s))
    = Some (Server.localChannel s') in
  (let '(s', t, f) := Server.Tcp.acceptLocalConn remote a s in
   f = Server.Continue
   /\ Chan.sendq (Server.localChannel s') = Chan.sendq (Server.localChannel s)
   /\ Chan.sendq (Server.reqNewConnChan s') = Chan.sendq (Server.reqNewConnChan s)
   /\ if Chan.full (Server.localChannel s)
      then s' = s /\ closes k t = true /\ offers t = 0%nat
      else enqueued s' /\ closes k t = false /\ offers t = 1%nat
           /\ if Chan.full (Server.reqNewConnChan s)
              then Server.reqNewConnChan s' = Server.reqNewConnChan s
              else Chan.sent_chan (Chan.try_send tt (Server.reqNewConnChan s))
                   = Some (Server.reqNewConnChan s'))
  /\ (let '(s', t, f) := Server.TcpMux.acceptLocalConn remote a s in
      f = Server.Continue
      /\ Chan.sendq (Server.localChannel s') = Chan.sendq (Server.localChannel s)
      /\ Server.reqNewConnChan s' = Server.reqNewConnChan s
      /\ offers t = 0%nat
      /\ if Chan.full (Server.localChannel s)
         then s' = s /\ closes k t = true
         else enqueued s' /\ closes k t = false)
  /\ (let '(s', t, f) := Server.WsMux.acceptLocalConn remote a s in
      f = Server.Continue
      /\ Chan.sendq (Server.localChannel s') = Chan.sendq (Server.localChannel s)
      /\ Server.reqNewConnChan s' = Server.reqNewConnChan s
      /\ offers t = 0%nat
      /\ if Chan.full (Server.localChannel s)
         then s' = s /\ closes k t = true
         else enqueued s' /\ closes k t = false).
Proof.
  intros Hctx a enqueued. subst a enqueued.
  unfold Server.Tcp.acceptLocalConn, Server.TcpMux.acceptLocalConn,
    Server.WsMux.acceptLocalConn.
  rewrite Hctx. repeat apply conj.
  - accept_cases s.
    + offer_cases s;
        destruct (Server.Nodelay (Server.config s)), ok; cbn;
        repeat split; reflexivity.
    + destruct (Server.Nodelay (Server.config s)), ok; cbn;
        rewrite ?Nat.eqb_refl; repeat split; reflexivity.
    + offer_cases s;
        destruct (Server.Nodelay (Server.config s)), ok; cbn;
        repeat split; reflexivity.
  - accept_cases s;
      destruct (Server.Nodelay (Server.config s)), ok; cbn;
      rewrite ?Nat.eqb_refl; repeat split; reflexivity.
  - accept_cases s;
      destruct (Server.Nodelay (Server.config s)), ok; cbn;
      rewrite ?Nat.eqb_refl; repeat split; reflexivity.
Qed.

Lemma accept_path_never_parks_witness :
  let '(s', t, f) :=
    Server.Tcp.acceptLocalConn "127.0.0.1:9090"
      (Server.Tcp.AcceptTCP 9%nat true) quiet_server in
  f = Server.Continue
  /\ Chan.sendq (Server.localChannel s') = []
  /\ Chan.sendq (Server.reqNewConnChan s') = [].
Proof.
  pose proof (accept_path_never_parks quiet_server "127.0.0.1:9090" 9%nat true
                eq_refl) as [H _].
  cbv zeta in H.
  destruct (Server.Tcp.acceptLocalConn "127.0.0.1:9090"
              (Server.Tcp.AcceptTCP 9%nat true) quiet_server) as [[s' t] f].
  destruct H as (H1 & H2 & H3 & _). repeat split; assumption.
Defined.

(** ** The pairing loop *)

Lemma inner_loop_retries (localConn : Server.LocalTCPConn) (tc : Runtime.conn)
    (rest_t : list Runtime.conn) (fails : list Runtime.conn) :
  forall s : Server.Transport,
  Chan.buf (Server.tunnelChannel s) = fails ++ tc :: rest_t ->
  Chan.sendq (Server.tunnelChannel s) = [] ->
  Server.Tcp.handleLoop_run
    (repeat (Server.Tcp.HlTunnel false) (length fails) ++ [Server.Tcp.HlTunnel true])
    s (Server.Tcp.HlInner localConn)
  = Some (Server.with_tunnelChannel
            (Chan.mk (Chan.cap (Server.tunnelChannel s)) rest_t []
                     (Chan.recvq (Server.tunnelChannel s))) s,
          Server.Tcp.HlOuter,
          concat (map (refused localConn) fails)
            ++ [Runtime.SendTarget tc (Server.remoteAddr localConn)
                  (Some (Signals.byte_of Signals.SG_TCP)) true;
                Runtime.Go (Runtime.g_TCPConnectionHandler
                              (Server.lconn localConn) tc)]).
Proof.
  induction fails as [|f fails IH]; intros s Hbuf Hsq.
  - cbn [length repeat app Server.Tcp.handleLoop_run Server.Tcp.handleLoop_select].
    unfold Chan.try_recv. cbn [app] in Hbuf. rewrite Hbuf, Hsq. reflexivity.
  - cbn [length repeat app Server.Tcp.handleLoop_run Server.Tcp.handleLoop_select].
    unfold Chan.try_recv at 1. cbn [app] in Hbuf. rewrite Hbuf, Hsq.
    rewrite IH by reflexivity.
    reflexivity.
Qed.

(** C8: a worker of the non-mux pairing loop that holds a parked user
    connection and fails to write the tagged target address onto a
    tunnel connection closes that tunnel connection and waits for the
    next one with the same user connection, without reading the local
    queue again; when the write succeeds it hands the pair to the copier
    and is back at reading the local queue. *)
Theorem pairing_keeps_parked_connection
    (s : Server.Transport) (localConn : Server.LocalTCPConn)
    (rest_l : list Server.LocalTCPConn)
    (fails : list Runtime.conn) (tc : Runtime.conn) (rest_t : list Runtime.conn) :
  Chan.buf (Server.localChannel s) = localConn :: rest_l ->
  Chan.sendq (Server.localChannel s) = [] ->
  Chan.buf (Server.tunnelChannel s) = fails ++ tc :: rest_t ->
  Chan.sendq (Server.tunnelChannel s) = [] ->
  Server.Tcp.handleLoop_run (pairing_schedule (length fails)) s Server.Tcp.HlOuter
  = Some (Server.with_tunnelChannel
            (Chan.mk (Chan.cap (Server.tunnelChannel s)) rest_t []
                     (Chan.recvq (Server.tunnelChannel s)))
            (Server.with_localChannel
               (Chan.mk (Chan.cap (Server.localChannel s)) rest_l []
                        (Chan.recvq (Server.localChannel s))) s),
          Server.Tcp.HlOuter,
          concat (map (refused localConn) fails)
            ++ [Runtime.SendTarget tc (Server.remoteAddr localConn)
                  (Some (Signals.byte_of Signals.SG_TCP)) true;
                Runtime.Go (Runtime.g_TCPConnectionHandler
                              (Server.lconn localConn) tc)])
  /\ Server.Tcp.handleLoop_select Server.Tcp.HlLocal s
       (Server.Tcp.HlInner localConn) = None
  /\ Server.Tcp.handleLoop_select (Server.Tcp.HlTunnel true) s
       Server.Tcp.HlOuter = None.
Proof.
  intros Hl Hlq Ht Htq. repeat split.
  unfold pairing_schedule.
  cbn [Server.Tcp.handleLoop_run Server.Tcp.handleLoop_select].
  unfold Chan.try_recv at 1. rewrite Hl, Hlq.
  rewrite (inner_loop_retries localConn tc rest_t fails) by assumption.
  reflexivity.
Qed.

Lemma pairing_keeps_parked_connection_witness :
  option_map snd
    (Server.Tcp.handleLoop_run (pairing_schedule 2) busy_server Server.Tcp.HlOuter)
  = Some (refused (Server.mkLocal 9%nat ":9090") 20%nat
          ++ refused (Server.mkLocal 9%nat ":9090") 21%nat
          ++ [Runtime.SendTarget 22%nat ":9090" (Some 4) true;
              Runtime.Go (Runtime.g_TCPConnectionHandler 9%nat 22%nat)]).
Proof.
  pose proof (pairing_keeps_parked_connection busy_server
                (Server.mkLocal 9%nat ":9090") [Server.mkLocal 10%nat ":9090"]
                [20; 21]%nat 22%nat []
                eq_refl eq_refl eq_refl eq_refl) as [H _].
  change (length [20%nat; 21%nat]) with 2%nat in H.
  rewrite H. reflexivity.
Defined.

(** ** Mux sessions *)

Lemma count_app f a b : count f (a ++ b) = count f a + count f b.
Proof. unfold count. rewrite filter_app, length_app. lia. Qed.

Lemma count_cons f e a : count f (e :: a) = (if f e then 1 else 0) + count f a.
Proof. unfold count. cbn [filter]. destruct (f e); cbn [length]; lia. Qed.

Lemma count_nil f : count f [] = 0.
Proof. reflexivity. Qed.

Lemma count_await f n :
  f Runtime.AwaitDone = false -> count f (repeat Runtime.AwaitDone n) = 0.
Proof.
  intros H. induction n as [|n IH]; [reflexivity|].
  cbn [repeat]. rewrite count_cons, H, IH. reflexivity.
Qed.

Lemma closes_app k a b : closes k (a ++ b) = closes k a || closes k b.
Proof. unfold closes. apply existsb_app. Qed.

Lemma closes_await k n : closes k (repeat Runtime.AwaitDone n) = false.
Proof. induction n as [|n IH]; [reflexivity|]. cbn. exact IH. Qed.

Ltac counts :=
  unfold opened, copiers in *;
  repeat first [ rewrite count_app | rewrite count_cons | rewrite count_nil
               | rewrite count_await by reflexivity ];
  cbn [Runtime.is_opened Runtime.is_copier].

Lemma offer_req_cases w s :
  exists s' offer,
    Server.offer_req w s = (s', offer)
    /\ Server.config s' = Server.config s
    /\ (offer = [Runtime.OfferReq true]
        \/ offer = [Runtime.OfferReq false; Runtime.Log Runtime.Warn w]).
Proof.
  unfold Server.offer_req.
  destruct (Chan.sent_chan (Chan.try_send tt (Server.reqNewConnChan s))) as [q|];
    eexists; eexists; (split; [reflexivity|]); split; auto.
Qed.

Lemma handleSessionError_resume_facts session s c s' t :
  Server.TcpMux.handleSessionError_resume session s c = (s', t) ->
  Server.config s' = Server.config s /\ opened t = 0 /\ copiers t = 0.
Proof.
  unfold Server.TcpMux.handleSessionError_resume, Server.TcpMux.await_done.
  destruct (offer_req_cases "request new connection channel is full" s)
    as (s1 & offer & E & Hc & Ho).
  rewrite E. intros H. injection H as <- <-.
  split; [exact Hc|].
  destruct Ho as [-> | ->]; counts; split; lia.
Qed.

Lemma handleSessionError_facts session ic s c s' t parks :
  Server.TcpMux.handleSessionError session ic s c = (s', t, parks) ->
  Server.config s' = Server.config s /\ opened t = 0 /\ copiers t = 0.
Proof.
  unfold Server.TcpMux.handleSessionError.
  destruct (Chan.send ic (Server.localChannel s)) as [q [|]].
  - intros H. injection H as <- <- <-. repeat split.
  - destruct (Server.TcpMux.handleSessionError_resume session
                (Server.with_localChannel q s) c) as [s1 t1] eqn:E.
    apply handleSessionError_resume_facts in E. destruct E as (Ec & Eo & Eco).
    intros H. injection H as <- <- <-.
    split; [exact Ec|]. counts. unfold opened, copiers in Eo, Eco.
    rewrite Eo, Eco. split; reflexivity.
Qed.

(** What [finalizeSession] does to the request queue and in which
    order it acts. *)
Lemma finalizeSession_facts session s c s' t :
  Server.TcpMux.finalizeSession session s c = (s', t) ->
  Server.config s' = Server.config s
  /\ match Chan.sent_chan (Chan.try_send tt (Server.reqNewConnChan s)) with
     | Some q =>
         Server.reqNewConnChan s' = q
         /\ t = [Runtime.SignalNext; Runtime.OfferReq true]
                  ++ repeat Runtime.AwaitDone (Z.to_nat c)
                  ++ [Runtime.ConnClose session]
     | None =>
         Server.reqNewConnChan s' = Server.reqNewConnChan s
         /\ t = [Runtime.SignalNext; Runtime.OfferReq false;
                 Runtime.Log Runtime.Warn "request new connection channel is full"]
                  ++ repeat Runtime.AwaitDone (Z.to_nat c)
                  ++ [Runtime.ConnClose session]
     end.
Proof.
  unfold Server.TcpMux.finalizeSession, Server.offer_req,
    Server.TcpMux.await_done.
  destruct (Chan.sent_chan (Chan.try_send tt (Server.reqNewConnChan s))) as [q|];
    intros H; injection H as <- <-; repeat split.
Qed.

(** One round keeps the invariant of the session. *)
Lemma select_session_inv M session req b s l s1 l1 t1 t0 :
  Server.MuxCon (Server.config s) = M ->
  1 <= M <= GoInt.max_int ->
  session_inv M session req s l t0 ->
  Server.TcpMux.handleSession_select session b s l = Some (s1, l1, t1) ->
  Server.MuxCon (Server.config s1) = M
  /\ session_inv M session req s1 l1 (t0 ++ t1).
Proof.
  intros HM Hrange Hinv H.
  unfold Server.TcpMux.handleSession_select in H.
  unfold session_inv in Hinv.
  destruct (Server.TcpMux.returned l) eqn:Hret; [discriminate H|].
  destruct (Server.TcpMux.requeueing l) eqn:Hpark.
  - (* the handler stands in its requeue *)
    destruct Hinv as [Hop Hco].
    destruct b; try discriminate H.
    destruct (Chan.sendq (Server.localChannel s)); [|discriminate H].
    destruct (Server.TcpMux.handleSessionError_resume session s
                (Server.TcpMux.counter l)) as [s2 t2] eqn:E.
    apply handleSessionError_resume_facts in E. destruct E as (Ec & Eo & Eco).
    injection H as <- <- <-. split; [rewrite Ec; exact HM|].
    unfold session_inv. cbn [Server.TcpMux.returned].
    counts. unfold opened, copiers in Eo, Eco. rewrite Eo, Eco.
    split; [lia|]. intros E. lia.
  - destruct Hinv as (Hop & Hco & Hc & Hcl & Hreq).
    destruct b as [|stream write_ok|]; [| |discriminate H].
    + (* the context is cancelled *)
      destruct (Server.ctx_done s); [|discriminate H].
      injection H as <- <- <-. split; [exact HM|].
      unfold session_inv, Server.TcpMux.await_done. cbn [Server.TcpMux.returned].
      counts. split; [lia|]. intros E. lia.
    + destruct (Chan.try_recv (Server.localChannel s)) as [[ic q]|];
        [|discriminate H].
      assert (Herr : forall s2 t2 parks pre,
                Server.TcpMux.handleSessionError session ic
                  (Server.with_localChannel q s) (Server.TcpMux.counter l)
                  = (s2, t2, parks) ->
                opened pre <= 1 ->
                copiers pre = 0 ->
                Server.MuxCon (Server.config s2) = M
                /\ session_inv M session req s2
                     (Server.TcpMux.mkHs (Server.TcpMux.done l)
                        (Server.TcpMux.counter l) (negb parks) parks)
                     (t0 ++ pre ++ t2)).
      { intros s2 t2 parks pre E Hpo Hpc.
        apply handleSessionError_facts in E. destruct E as (Ec & Eo & Eco).
        split; [rewrite Ec; exact HM|].
        unfold session_inv.
        cbn [Server.TcpMux.returned Server.TcpMux.requeueing].
        unfold opened, copiers in *.
        rewrite !count_app, Eo, Eco, Hpc.
        destruct parks; cbn [negb]; (split; [lia|]); [lia | intros E; lia]. }
      destruct stream as [st|].
      * destruct write_ok.
        -- (* a stream is opened and handed to a copier *)
           assert (Hadd : GoInt.add (Server.TcpMux.counter l) 1
                          = Server.TcpMux.counter l + 1).
           { unfold GoInt.add. apply wrap64_id. int_bounds. lia. }
           rewrite Hadd in H.
           cbn [Server.config Server.with_localChannel] in H. rewrite HM in H.
           destruct (Server.TcpMux.counter l + 1 =? M) eqn:Hfull.
           ++ apply Z.eqb_eq in Hfull.
              destruct (Server.TcpMux.finalizeSession session
                          (Server.with_localChannel q s)
                          (Server.TcpMux.counter l + 1)) as [s2 t2] eqn:F.
              apply finalizeSession_facts in F. destruct F as (Fc & F).
              cbn [Server.reqNewConnChan Server.with_localChannel] in F.
              rewrite Hreq in F.
              injection H as <- <- <-. split; [rewrite Fc; exact HM|].
              unfold session_inv. cbn [Server.TcpMux.returned].
              split.
              ** destruct (Chan.sent_chan (Chan.try_send tt req));
                   destruct F as [_ ->]; counts; lia.
              ** intros _. rewrite Hfull in F.
                 exists (t0 ++ [Runtime.OpenStream session true;
                                Runtime.SendTarget st (Server.remoteAddr ic) None true;
                                Runtime.Go (Runtime.g_TCPConnectionHandler
                                              st (Server.lconn ic))]).
                 split; [counts; lia|].
                 split; [rewrite closes_app, Hcl; reflexivity|].
                 destruct (Chan.sent_chan (Chan.try_send tt req));
                   destruct F as [Fq ->]; (split; [exact Fq|]);
                   rewrite <- !app_assoc; reflexivity.
           ++ apply Z.eqb_neq in Hfull.
              injection H as <- <- <-. split; [exact HM|].
              unfold session_inv.
              cbn [Server.TcpMux.returned Server.TcpMux.requeueing
                   Server.TcpMux.counter Server.reqNewConnChan
                   Server.with_localChannel].
              counts. rewrite closes_app, Hcl.
              repeat split; try lia; try reflexivity. exact Hreq.
        -- (* the write of the target address fails *)
           destruct (Server.TcpMux.handleSessionError session ic
                       (Server.with_localChannel q s) (Server.TcpMux.counter l))
             as [[s2 t2] parks] eqn:E.
           injection H as <- <- <-.
           exact (Herr s2 t2 parks
                    [Runtime.OpenStream session true;
                     Runtime.SendTarget st (Server.remoteAddr ic) None false]
                    eq_refl ltac:(cbn; lia) eq_refl).
      * (* no stream could be opened *)
        destruct (Server.TcpMux.handleSessionError session ic
                    (Server.with_localChannel q s) (Server.TcpMux.counter l))
          as [[s2 t2] parks] eqn:E.
        injection H as <- <- <-.
        exact (Herr s2 t2 parks [Runtime.OpenStream session false]
                 eq_refl ltac:(cbn; lia) eq_refl).
Qed.

Lemma rounds_session_inv M session req bs : forall s l s' l' t t0,
  Server.MuxCon (Server.config s) = M ->
  1 <= M <= GoInt.max_int ->
  session_inv M session req s l t0 ->
  Server.TcpMux.handleSession_rounds session bs s l = Some (s', l', t) ->
  session_inv M session req s' l' (t0 ++ t).
Proof.
  induction bs as [|b bs IH]; intros s l s' l' t t0 HM Hrange Hinv H.
  - cbn in H. injection H as <- <- <-. rewrite app_nil_r. exact Hinv.
  - cbn [Server.TcpMux.handleSession_rounds] in H.
    destruct (Server.TcpMux.handleSession_select session b s l)
      as [[[s1 l1] t1]|] eqn:S1; [|discriminate H].
    destruct (Server.TcpMux.handleSession_rounds session bs s1 l1)
      as [[[s2 l2] t2]|] eqn:R; [|discriminate H].
    injection H as <- <- <-.
    destruct (select_session_inv M session req b s l s1 l1 t1 t0 HM Hrange Hinv S1)
      as [HM1 Hinv1].
    rewrite app_assoc. exact (IH s1 l1 s2 l2 t2 (t0 ++ t1) HM1 Hrange Hinv1 R).
Qed.

(** C7, as stated, fails in two ways.  With [MuxCon = 0] the counter is
    never equal to it after a stream: the session opens three streams,
    is not closed, and its handler is still in the loop.  With
    [MuxCon = 3] and a full request queue the session retires and is
    closed, but no token is emitted: the handler only warns and the
    queue holds what it held. *)
Lemma mux_session_misses_cap_and_token :
  match Server.TcpMux.handleSession 5%nat mux_schedule uncapped_mux_server with
  | Some (_, l', t) =>
      opened t = 3
      /\ Server.TcpMux.returned l' = false
      /\ closes 5%nat t = false
  | None => False
  end
  /\ match Server.TcpMux.handleSession 5%nat mux_schedule crowded_mux_server with
     | Some (s', l', t) =>
         copiers t = 3
         /\ Server.TcpMux.returned l' = true
         /\ closes 5%nat t = true
         /\ filter Runtime.is_offer t = [Runtime.OfferReq false]
         /\ Server.reqNewConnChan s' = Server.reqNewConnChan crowded_mux_server
     | None => False
     end.
Proof. vm_compute. repeat split; reflexivity. Qed.

(** C7, amended: on every mux session the server handles with [MuxCon]
    at least one, at most [MuxCon] streams are opened; when the count
    of streams handed to copiers reaches [MuxCon] the handler has
    returned and the session retired: the handler lets the next session
    in, offers one request token without waiting, waits for each of the
    [MuxCon] streams to finish, and only then closes the session.  The
    token is on the request queue afterwards when the queue had room,
    and a full queue is left as it was. *)
Theorem mux_session_stream_cap
    (s : Server.Transport) (session : Runtime.conn)
    (bs : list Server.TcpMux.hs_branch)
    (s' : Server.Transport) (l' : Server.TcpMux.handleSession_locals)
    (t : list Runtime.effect) :
  1 <= Server.MuxCon (Server.config s) <= GoInt.max_int ->
  Server.TcpMux.handleSession session bs s = Some (s', l', t) ->
  opened t <= Server.MuxCon (Server.config s)
  /\ (copiers t = Server.MuxCon (Server.config s) ->
      Server.TcpMux.returned l' = true
      /\ retires session (Server.MuxCon (Server.config s))
           (Server.reqNewConnChan s) (Server.reqNewConnChan s') t).
Proof.
  intros Hrange H. unfold Server.TcpMux.handleSession in H.
  destruct (Server.TcpMux.handleSession_start s) as [l|] eqn:Hstart;
    [|discriminate H].
  unfold Server.TcpMux.handleSession_start in Hstart.
  destruct (Chan.make_int (Server.MuxCon (Server.config s))) as [d|];
    [|discriminate Hstart].
  injection Hstart as <-.
  pose proof (rounds_session_inv (Server.MuxCon (Server.config s)) session
                (Server.reqNewConnChan s) bs
                s (Server.TcpMux.mkHs d 0 false false) s' l' t []
                eq_refl Hrange) as Hinv.
  cbn [app] in Hinv.
  assert (Hinit : session_inv (Server.MuxCon (Server.config s)) session
                    (Server.reqNewConnChan s) s
                    (Server.TcpMux.mkHs d 0 false false) []).
  { unfold session_inv. cbn. repeat split; try lia; discriminate. }
  specialize (Hinv Hinit H).
  unfold session_inv in Hinv.
  destruct (Server.TcpMux.returned l').
  - destruct Hinv as [Hop Hret]. split; [exact Hop|].
    intros E. split; [reflexivity | exact (Hret E)].
  - destruct (Server.TcpMux.requeueing l').
    + destruct Hinv as [Hop Hco]. split; [exact Hop|]. intros E. lia.
    + destruct Hinv as (Hop & Hco & Hc & _). split; [lia|]. intros E. lia.
Qed.

Lemma mux_session_stream_cap_witness :
  match Server.TcpMux.handleSession 5%nat mux_schedule mux_server with
  | Some (s', l', t) =>
      opened t <= 3
      /\ Server.TcpMux.returned l' = true
      /\ retires 5%nat 3 (Server.reqNewConnChan mux_server)
           (Server.reqNewConnChan s') t
      /\ Chan.buf (Server.reqNewConnChan s') = [tt]
  | None => False
  end.
Proof.
  destruct (Server.TcpMux.handleSession 5%nat mux_schedule mux_server)
    as [[[s' l'] t]|] eqn:R.
  - pose proof (mux_session_stream_cap mux_server 5%nat mux_schedule s' l' t
                  ltac:(vm_compute; split; discriminate) R) as [H1 H2].
    vm_compute in R. injection R as <- <- <-.
    split; [exact H1|].
    destruct (H2 eq_refl) as [H3 H4].
    split; [exact H3|]. split; [exact H4 | reflexivity].
  - vm_compute in R. discriminate R.
Defined.

(* ================================================================== *)
(** * Further properties *)

(** ** The client's dialers *)

Lemma closed_app a b : closed (a ++ b) = closed a ++ closed b.
Proof. unfold closed. apply flat_map_app. Qed.

Lemma spawned_app g a b :
  Runtime.spawned g (a ++ b) = (Runtime.spawned g a + Runtime.spawned g b)%nat.
Proof. unfold Runtime.spawned. rewrite filter_app, length_app. reflexivity. Qed.

Lemma channelDialer_rounds_spec (Token : string) (RetryInterval : Z)
    (attempts : list ClientDial.attempt) :
  forall c : Client.TcpTransport,
  Client.ctx_done c = false ->
  let '(c', t, f) := ClientDial.channelDialer_rounds Token RetryInterval attempts c in
  Client.controlChannel c'
    = match first_reply Token attempts with
      | Some k => Some k
      | None => Client.controlChannel c
      end
  /\ closed t = failed_before Token attempts
  /\ Runtime.spawned is_poolMaintainer t
     = (if answered Token attempts then 1 else 0)%nat
  /\ Runtime.spawned is_channelHandler t
     = (if answered Token attempts then 1 else 0)%nat
  /\ f = (if answered Token attempts
          then ClientDial.Return else ClientDial.Continue).
Proof.
  induction attempts as [|a rest IH]; intros c Hctx.
  - cbn. repeat split; reflexivity.
  - cbn [ClientDial.channelDialer_rounds]. unfold ClientDial.channelDialer_round.
    rewrite Hctx. specialize (IH c Hctx).
    destruct a as [ | k | k | k timeout | k message ];
      unfold answered in *; cbn [first_reply failed_before];
      try (destruct (ClientDial.channelDialer_rounds Token RetryInterval rest c)
             as [[c2 t2] f2];
           destruct IH as (I1 & I2 & I3 & I4 & I5);
           rewrite closed_app, !spawned_app, I2, I3, I4;
           try destruct timeout; repeat split; assumption || reflexivity).
    destruct (String.eqb message Token).
    + cbn. repeat split; reflexivity.
    + destruct (ClientDial.channelDialer_rounds Token RetryInterval rest c)
        as [[c2 t2] f2].
      destruct IH as (I1 & I2 & I3 & I4 & I5).
      rewrite closed_app, !spawned_app, I2, I3, I4.
      repeat split; assumption || reflexivity.
Qed.

(** X1: [channelDialer] installs a control channel exactly when the
    server answers an attempt with the token, and then it is the
    connection of the first such attempt; it closes every connection it
    dialed before, and no other; it starts [poolMaintainer] and
    [channelHandler] once each when it establishes and never otherwise. *)
Theorem channelDialer_establishes_on_token
    (Token : string) (RetryInterval : Z)
    (attempts : list ClientDial.attempt) (c : Client.TcpTransport) :
  Client.ctx_done c = false ->
  let '(c', t, f) := ClientDial.channelDialer Token RetryInterval attempts c in
  Client.controlChannel c'
    = match first_reply Token attempts with
      | Some k => Some k
      | None => Client.controlChannel c
      end
  /\ closed t = failed_before Token attempts
  /\ Runtime.spawned is_poolMaintainer t
     = (if answered Token attempts then 1 else 0)%nat
  /\ Runtime.spawned is_channelHandler t
     = (if answered Token attempts then 1 else 0)%nat
  /\ f = (if answered Token attempts
          then ClientDial.Return else ClientDial.Continue).
Proof.
  intros Hctx. unfold ClientDial.channelDialer.
  pose proof (channelDialer_rounds_spec Token RetryInterval attempts c Hctx) as H.
  destruct (ClientDial.channelDialer_rounds Token RetryInterval attempts c)
    as [[c' t] f].
  exact H.
Qed.

Lemma channelDialer_establishes_on_token_witness :
  let '(c', t, f) :=
    ClientDial.channelDialer "musix" 3 dial_attempts idle_client in
  Client.controlChannel c' = Some 5%nat
  /\ closed t = [3; 4]%nat
  /\ f = ClientDial.Return.
Proof.
  pose proof (channelDialer_establishes_on_token "musix" 3 dial_attempts
                idle_client eq_refl) as H.
  destruct (ClientDial.channelDialer "musix" 3 dial_attempts idle_client)
    as [[c' t] f].
  destruct H as (H1 & H2 & _ & _ & H5). repeat split; assumption.
Defined.

(** *** The counter of connections in flight *)

Lemma wrap32_range z : GoInt.is_int32 (GoInt.wrap32 z).
Proof.
  unfold GoInt.is_int32, GoInt.min_int32, GoInt.max_int32, GoInt.wrap32, GoInt.wrap.
  change (2 ^ (32 - 1)) with 2147483648. change (2 ^ 32) with 4294967296.
  change (2 ^ 31) with 2147483648.
  pose proof (Z.mod_pos_bound (z + 2147483648) 4294967296 ltac:(lia)). lia.
Qed.

Lemma wrap32_add_l a b : GoInt.wrap32 (GoInt.wrap32 a + b) = GoInt.wrap32 (a + b).
Proof.
  unfold GoInt.wrap32, GoInt.wrap.
  change (2 ^ (32 - 1)) with 2147483648. change (2 ^ 32) with 4294967296.
  f_equal.
  replace ((a + 2147483648) mod 4294967296 - 2147483648 + b + 2147483648)
    with ((a + 2147483648) mod 4294967296 + b) by lia.
  rewrite Zplus_mod_idemp_l. f_equal. lia.
Qed.

Lemma wrap32_sub_l a b : GoInt.wrap32 (GoInt.wrap32 a - b) = GoInt.wrap32 (a - b).
Proof. rewrite <- !Z.add_opp_r. apply wrap32_add_l. Qed.

(** A value of the int32 range that wraps to 0 after a shift of less
    than 2^32 is the shift. *)
Lemma wrap32_zero_small x :
  - 4294967296 < x < 4294967296 -> GoInt.wrap32 x = 0 -> x = 0.
Proof.
  unfold GoInt.wrap32, GoInt.wrap.
  change (2 ^ (32 - 1)) with 2147483648. change (2 ^ 32) with 4294967296.
  intros Hx H.
  pose proof (Z.div_mod (x + 2147483648) 4294967296 ltac:(lia)) as E.
  pose proof (Z.mod_pos_bound (x + 2147483648) 4294967296 ltac:(lia)) as B.
  lia.
Qed.

Lemma waiting_app ds p :
  waiting (ds ++ [p]) = waiting ds + (if is_waiting p then 1 else 0).
Proof.
  unfold waiting. rewrite filter_app, length_app. cbn [filter].
  destruct (is_waiting p); cbn [length]; lia.
Qed.

Lemma waiting_set_nth ds : forall i old p,
  nth_error ds i = Some old ->
  waiting (set_nth i p ds)
  = waiting ds - (if is_waiting old then 1 else 0)
    + (if is_waiting p then 1 else 0).
Proof.
  induction ds as [|d ds IH]; intros i old p H.
  - destruct i; discriminate H.
  - destruct i as [|j]; cbn [nth_error] in H; cbn [set_nth].
    + injection H as ->. unfold waiting. cbn [filter].
      destruct (is_waiting old), (is_waiting p); cbn [length]; lia.
    + specialize (IH j old p H). unfold waiting in *. cbn [filter].
      destruct (is_waiting d); cbn [length]; lia.
Qed.

Lemma length_set_nth {A} (ds : list A) : forall i p,
  length (set_nth i p ds) = length ds.
Proof.
  induction ds as [|d ds IH]; intros [|j] p; cbn; auto.
Qed.

Lemma waiting_bounds ds : 0 <= waiting ds <= Z.of_nat (length ds).
Proof.
  unfold waiting. pose proof (filter_length_le is_waiting ds). lia.
Qed.

(** What a step of the dialers keeps: the counter minus the dialers in
    their receive, modulo 2^32; the counter within int32; the dialers
    never fewer. *)
Lemma td_step_keeps a c ds c' ds' t :
  ClientDial.td_step a (c, ds) = Some (c', ds', t) ->
  GoInt.is_int32 (Client.poolConnections c) ->
  GoInt.wrap32 (Client.poolConnections c' - waiting ds')
  = GoInt.wrap32 (Client.poolConnections c - waiting ds)
  /\ GoInt.is_int32 (Client.poolConnections c')
  /\ (length ds <= length ds')%nat.
Proof.
  intros H Hint. destruct a as [ | i r | i o ]; cbn [ClientDial.td_step] in H.
  - injection H as <- <- <-. rewrite waiting_app, length_app. cbn.
    replace (waiting ds + 0) with (waiting ds) by lia.
    split; [reflexivity|]. split; [assumption | lia].
  - destruct (nth_error ds i) as [[ | k | | ]|] eqn:N; try discriminate H.
    destruct r as [k|]; cbn in H; injection H as <- <- <-;
      rewrite (waiting_set_nth ds i _ _ N), length_set_nth; cbn.
    + unfold GoInt.add32. rewrite wrap32_sub_l.
      split; [f_equal; lia|]. split; [apply wrap32_range | lia].
    + split; [f_equal; lia|]. split; [assumption | lia].
  - destruct (nth_error ds i) as [[ | k | | ]|] eqn:N; try discriminate H.
    destruct o; cbn in H; injection H as <- <- <-;
      rewrite (waiting_set_nth ds i _ _ N), length_set_nth; cbn;
      unfold GoInt.add32; rewrite wrap32_sub_l;
      (split; [f_equal; lia|]); (split; [apply wrap32_range | lia]).
Qed.

Lemma td_run_keeps acts : forall c ds c' ds' t,
  ClientDial.td_run acts (c, ds) = Some (c', ds', t) ->
  GoInt.is_int32 (Client.poolConnections c) ->
  GoInt.wrap32 (Client.poolConnections c' - waiting ds')
  = GoInt.wrap32 (Client.poolConnections c - waiting ds)
  /\ GoInt.is_int32 (Client.poolConnections c')
  /\ (length ds <= length ds')%nat.
Proof.
  induction acts as [|a acts IH]; intros c ds c' ds' t H Hint.
  - cbn in H. injection H as <- <- <-.
    split; [reflexivity|]. split; [assumption | lia].
  - cbn [ClientDial.td_run] in H.
    destruct (ClientDial.td_step a (c, ds)) as [[[c1 ds1] t1]|] eqn:S1;
      [|discriminate H].
    destruct (ClientDial.td_run acts (c1, ds1)) as [[[c2 ds2] t2]|] eqn:R;
      [|discriminate H].
    injection H as <- <- <-.
    apply td_step_keeps in S1; [|assumption]. destruct S1 as (E1 & I1 & L1).
    apply IH in R; [|assumption]. destruct R as (E2 & I2 & L2).
    split; [congruence|]. split; [assumption | lia].
Qed.

(** X2: [poolConnections] counts the tunnel dialers that stand in their
    receive, relative to the moment it was last zero.  From a client
    whose counter is 0, as [NewTCPClient] and [Restart] leave it, and
    with fewer than 2^31 dialers, after any interleaving of dialers
    being started, dialing and ending, the counter is the number of
    dialers in their receive now minus their number then.  A fresh
    client has none then, so its counter is exactly the connections in
    flight; a restart with [n] dialers in flight leaves the counter
    short by [n], negative as soon as fewer than [n] are in flight. *)
Theorem pool_counter_tracks_dialers
    (c : Client.TcpTransport) (ds : list ClientDial.td_pc)
    (acts : list ClientDial.td_action)
    (c' : Client.TcpTransport) (ds' : list ClientDial.td_pc)
    (t : list Runtime.effect) :
  Client.poolConnections c = 0 ->
  Z.of_nat (length ds') <= GoInt.max_int32 ->
  ClientDial.td_run acts (c, ds) = Some (c', ds', t) ->
  Client.poolConnections c' = waiting ds' - waiting ds.
Proof.
  intros H0 Hlen Hrun.
  apply td_run_keeps in Hrun; [|rewrite H0; int_bounds; lia].
  destruct Hrun as (E & I & L). rewrite H0 in E.
  pose proof (waiting_bounds ds) as B. pose proof (waiting_bounds ds') as B'.
  rewrite max_int32_value in Hlen. int_bounds.
  assert (Z : Client.poolConnections c' - waiting ds' - (0 - waiting ds) = 0).
  { apply wrap32_zero_small; [lia|].
    rewrite <- (wrap32_sub_l (Client.poolConnections c' - waiting ds')).
    rewrite E, wrap32_sub_l.
    replace (0 - waiting ds - (0 - waiting ds)) with 0 by lia.
    reflexivity. }
  lia.
Qed.

Lemma pool_counter_tracks_dialers_witness :
  match ClientDial.td_run restart_actions
          (fst (Client.Restart_resume busy_client), restart_dialers) with
  | Some (c', ds', _) => Client.poolConnections c' = -2 /\ waiting ds' = 0
  | None => False
  end.
Proof.
  destruct (ClientDial.td_run restart_actions
              (fst (Client.Restart_resume busy_client), restart_dialers))
    as [[[c' ds'] t]|] eqn:R.
  - pose proof (pool_counter_tracks_dialers
                  (fst (Client.Restart_resume busy_client)) restart_dialers
                  restart_actions c' ds' t eq_refl) as H.
    specialize (fun L => H L R).
    vm_compute in R. injection R as <- <- <-.
    split; [apply H; vm_compute; discriminate | reflexivity].
  - vm_compute in R. discriminate R.
Defined.

(** ** The order of signals on the client *)

Lemma try_recv_pending {A} (q q' : Chan.chan A) (x : A) :
  Chan.try_recv q = Some (x, q') ->
  pending q = x :: pending q' /\ Chan.recvq q' = Chan.recvq q
  /\ (Chan.sendq q = [] -> Chan.sendq q' = []).
Proof.
  unfold Chan.try_recv, pending. intros H.
  destruct (Chan.buf q) as [|b rest], (Chan.sendq q) as [|y w];
    try discriminate H; injection H as <- <-; cbn;
    rewrite <- ?app_assoc; repeat split; auto; discriminate.
Qed.

Lemma send_pending {A} (q q' : Chan.chan A) (x : A) (parks : bool) :
  Chan.send x q = (q', parks) ->
  Chan.recvq q = 0%nat -> Chan.sendq q = [] ->
  pending q' = pending q ++ [x] /\ Chan.recvq q' = 0%nat
  /\ (parks = false -> Chan.sendq q' = []).
Proof.
  unfold Chan.send, Chan.try_send, pending. intros H Hr Hs. rewrite Hr, Hs in *.
  destruct (length (Chan.buf q) <? Chan.cap q)%nat; cbn in H;
    injection H as <- <-; cbn; rewrite ?app_nil_r;
    repeat split; auto; discriminate.
Qed.

(** One step keeps the invariant of [msgChan] and moves bytes from the
    wire to the end of what is pending, and from its head to the loop. *)
Lemma step_order e s s' t :
  Client.step e s = Some (s', t) ->
  msgChan_inv s ->
  msgChan_inv s'
  /\ pending (Client.msgChan (Client.handler s)) ++ read_of e s
     = taken_of e s ++ pending (Client.msgChan (Client.handler s')).
Proof.
  intros H [Hr Hs]. unfold msgChan_inv.
  destruct e as [b | r | b | | | ]; cbn [Client.step read_of taken_of] in H |- *.
  - destruct (Client.poolMaintainer_select b (Client.transport s) (Client.maintainer s))
      as [[[c l] t']|]; [|discriminate H].
    injection H as <- <-. cbn. rewrite app_nil_r. auto.
  - unfold Client.reader_round in H.
    destruct (Client.reader (Client.handler s)) eqn:R; try discriminate H.
    specialize (Hs ltac:(discriminate)).
    destruct (Client.ctx_done (Client.transport s)).
    + injection H as <- <-. cbn. destruct r; rewrite app_nil_r;
        (split; [split; [assumption | intros _; assumption] | reflexivity]).
    + destruct r as [b|].
      * destruct (Chan.send b (Client.msgChan (Client.handler s))) as [m parks] eqn:Q.
        apply send_pending in Q; try assumption. destruct Q as (Q1 & Q2 & Q3).
        injection H as <- <-. cbn.
        split; [split; [assumption|]|exact (eq_sym Q1)].
        destruct parks; [intros E; contradiction E; reflexivity | intros _; auto].
      * destruct (Chan.send tt (Client.errChan (Client.handler s))) as [e' parks].
        injection H as <- <-. cbn. rewrite app_nil_r.
        split; [split; [assumption | intros _; assumption] | reflexivity].
  - unfold Client.channelHandler_select in H.
    destruct (Client.returned (Client.handler s)) eqn:Ret; [discriminate H|].
    destruct b.
    + destruct (Client.ctx_done (Client.transport s)); [|discriminate H].
      injection H as <- <-. cbn. rewrite app_nil_r. auto.
    + destruct (Chan.try_recv (Client.msgChan (Client.handler s)))
        as [[msg m]|] eqn:Q; [|discriminate H].
      destruct (Client.dispatch msg (Client.transport s) (Client.maintainer s))
        as [[[c' l'] t'] g].
      injection H as <- <-. cbn.
      apply try_recv_pending in Q. destruct Q as (Q1 & Q2 & Q3).
      rewrite app_nil_r. split; [|exact Q1].
      split; [congruence|].
      unfold Client.resume_reader.
      destruct (Client.reader (Client.handler s)) eqn:R;
        try (intros _; apply Q3, Hs; discriminate).
      destruct (Chan.sendq m); [reflexivity | intros E; contradiction E; reflexivity].
    + destruct (Chan.try_recv (Client.errChan (Client.handler s)))
        as [[u e']|]; [|discriminate H].
      injection H as <- <-. cbn. rewrite app_nil_r. auto.
  - injection H as <- <-. cbn. rewrite app_nil_r. auto.
  - injection H as <- <-. cbn. rewrite app_nil_r. auto.
  - injection H as <- <-. cbn. rewrite app_nil_r. auto.
Qed.

Lemma run_order es : forall s s' t,
  Client.run es s = Some (s', t) ->
  msgChan_inv s ->
  pending (Client.msgChan (Client.handler s)) ++ wire_reads es s
  = dispatched es s ++ pending (Client.msgChan (Client.handler s')).
Proof.
  induction es as [|e es IH]; intros s s' t H Hinv.
  - cbn in H. injection H as <- <-. cbn. apply app_nil_r.
  - cbn [Client.run wire_reads dispatched] in H |- *.
    destruct (Client.step e s) as [[s1 t1]|] eqn:S1; [|discriminate H].
    destruct (Client.run es s1) as [[s2 t2]|] eqn:R; [|discriminate H].
    injection H as <- <-.
    apply step_order in S1; [|assumption]. destruct S1 as [Hinv1 E1].
    specialize (IH s1 s2 t2 R Hinv1).
    rewrite app_assoc, E1, <- !app_assoc, IH. reflexivity.
Qed.

(** X3: on the client the signals are dispatched in the order they came
    off the wire, none skipped and none repeated: after any schedule
    from the establishment of the control channel, the bytes read are
    the bytes dispatched followed by those still waiting in [msgChan],
    buffered or held by the parked reader. *)
Theorem client_dispatches_in_wire_order
    (cfg : Client.TcpConfig) (k : Runtime.conn) (es : list Client.event)
    (s' : Client.system) (t : list Runtime.effect) :
  Client.run es (Client.established cfg k) = Some (s', t) ->
  wire_reads es (Client.established cfg k)
  = dispatched es (Client.established cfg k)
      ++ pending (Client.msgChan (Client.handler s')).
Proof.
  intros H. apply run_order in H.
  - exact H.
  - split; [reflexivity | intros _; reflexivity].
Qed.

Lemma client_dispatches_in_wire_order_witness :
  wire_reads order_schedule (Client.established floor_config 7%nat) = [0; 1; 0]
  /\ dispatched order_schedule (Client.established floor_config 7%nat) = [0; 1].
Proof.
  destruct (Client.run order_schedule (Client.established floor_config 7%nat))
    as [[s' t]|] eqn:R.
  - pose proof (client_dispatches_in_wire_order floor_config 7%nat
                  order_schedule s' t R) as H.
    vm_compute in R. injection R as <- <-.
    split; [rewrite H|]; reflexivity.
  - vm_compute in R. discriminate R.
Defined.

(** ** Restarts started by the consumer loops *)

Lemma window_close_no_restart c l c' l' t :
  Client.window_close c l = (c', l', t) ->
  Runtime.spawned Runtime.is_Restart t = 0%nat.
Proof.
  unfold Client.window_close. intros H.
  step_cases H; injection H as <- <- <-; reflexivity.
Qed.

Lemma dispatch_restart msg c l c' l' t g :
  Client.dispatch msg c l = (c', l', t, g) ->
  Runtime.spawned Runtime.is_Restart t = (if g then 0 else 1)%nat.
Proof.
  unfold Client.dispatch. intros H.
  step_cases H; injection H as <- <- <- <-; reflexivity.
Qed.

(** A step starts a Restart only by ending the consumer loop. *)
Lemma client_step_restart e s s' t :
  Client.step e s = Some (s', t) ->
  (Runtime.spawned Runtime.is_Restart t
   + (if Client.returned (Client.handler s') then 0 else 1)
   <= (if Client.returned (Client.handler s) then 0 else 1))%nat.
Proof.
  intros H.
  destruct e as [b | r | b | | | ]; cbn [Client.step] in H.
  - unfold Client.poolMaintainer_select in H.
    destruct (Client.pc (Client.maintainer s)); try discriminate H.
    destruct b.
    + destruct (Client.ctx_done (Client.transport s)); [|discriminate H].
      injection H as <- <-. cbn. lia.
    + injection H as <- <-. cbn. lia.
    + destruct (Client.window_close (Client.transport s) (Client.maintainer s))
        as [[c' l'] t'] eqn:W.
      apply window_close_no_restart in W.
      injection H as <- <-. cbn. lia.
  - unfold Client.reader_round in H.
    destruct (Client.reader (Client.handler s)); try discriminate H.
    destruct (Client.ctx_done (Client.transport s)).
    + injection H as <- <-. cbn. lia.
    + destruct r as [b|].
      * destruct (Chan.send b (Client.msgChan (Client.handler s))) as [m parks].
        injection H as <- <-. cbn. lia.
      * destruct (Chan.send tt (Client.errChan (Client.handler s))) as [e' parks].
        injection H as <- <-. cbn. lia.
  - unfold Client.channelHandler_select in H.
    destruct (Client.returned (Client.handler s)) eqn:Ret; [discriminate H|].
    destruct b.
    + destruct (Client.ctx_done (Client.transport s)); [|discriminate H].
      injection H as <- <-. cbn. lia.
    + destruct (Chan.try_recv (Client.msgChan (Client.handler s)))
        as [[msg m]|]; [|discriminate H].
      destruct (Client.dispatch msg (Client.transport s) (Client.maintainer s))
        as [[[c' l'] t'] g] eqn:D.
      apply dispatch_restart in D.
      injection H as <- <-. cbn. rewrite D. destruct g; cbn; lia.
    + destruct (Chan.try_recv (Client.errChan (Client.handler s)))
        as [[u e']|]; [|discriminate H].
      injection H as <- <-. cbn. lia.
  - injection H as <- <-. cbn. lia.
  - injection H as <- <-. cbn. lia.
  - injection H as <- <-. cbn. lia.
Qed.

Lemma client_run_restart es : forall s s' t,
  Client.run es s = Some (s', t) ->
  (Runtime.spawned Runtime.is_Restart t
   + (if Client.returned (Client.handler s') then 0 else 1)
   <= (if Client.returned (Client.handler s) then 0 else 1))%nat.
Proof.
  induction es as [|e es IH]; intros s s' t H.
  - cbn in H. injection H as <- <-. cbn. lia.
  - cbn [Client.run] in H.
    destruct (Client.step e s) as [[s1 t1]|] eqn:S1; [|discriminate H].
    destruct (Client.run es s1) as [[s2 t2]|] eqn:R; [|discriminate H].
    injection H as <- <-.
    apply client_step_restart in S1. apply IH in R.
    rewrite spawned_app. lia.
Qed.

(** X4: the client starts at most one Restart per control channel,
    whatever arrives and however its goroutines interleave, and when it
    has started one its consumer loop has returned: neither the sizer
    nor the reader starts one, and the loop starts one only on its way
    out. *)
Theorem client_starts_one_restart
    (cfg : Client.TcpConfig) (k : Runtime.conn) (es : list Client.event)
    (s' : Client.system) (t : list Runtime.effect) :
  Client.run es (Client.established cfg k) = Some (s', t) ->
  (Runtime.spawned Runtime.is_Restart t
   <= (if Client.returned (Client.handler s') then 1 else 0))%nat.
Proof.
  intros H. apply client_run_restart in H. cbn in H.
  destruct (Client.returned (Client.handler s')); lia.
Qed.

Lemma client_starts_one_restart_witness :
  match Client.run (floor_schedule
                      ++ [Client.EvReader (Runtime.RecvByte 9);
                          Client.EvHandler Client.HMsg;
                          Client.EvReader Runtime.RecvErr])
                   (Client.established floor_config 7%nat) with
  | Some (_, t) => (Runtime.spawned Runtime.is_Restart t <= 1)%nat
  | None => False
  end.
Proof.
  destruct (Client.run _ (Client.established floor_config 7%nat))
    as [[s' t]|] eqn:R.
  - pose proof (client_starts_one_restart floor_config 7%nat _ s' t R) as H.
    destruct (Client.returned (Client.handler s')); lia.
  - vm_compute in R. discriminate R.
Defined.

(** ** The server's control channel writer *)

Lemma count_filter_app {A} (f : A -> bool) a b :
  length (filter f (a ++ b)) = (length (filter f a) + length (filter f b))%nat.
Proof. rewrite filter_app, length_app. reflexivity. Qed.

Lemma offer_req_tokens w s s' t :
  Server.offer_req w s = (s', t) ->
  Chan.recvq (Server.reqNewConnChan s) = 0%nat ->
  Chan.sendq (Server.reqNewConnChan s) = [] ->
  Chan.recvq (Server.reqNewConnChan s') = 0%nat
  /\ Chan.sendq (Server.reqNewConnChan s') = []
  /\ (length (filter is_accepted_offer t)
      + length (Chan.buf (Server.reqNewConnChan s))
      = length (Chan.buf (Server.reqNewConnChan s')))%nat
  /\ length (filter is_req_write t) = 0%nat
  /\ Runtime.spawned Runtime.is_Restart t = 0%nat.
Proof.
  unfold Server.offer_req, Chan.sent_chan, Chan.try_send. intros H Hr Hs.
  rewrite Hr in H.
  destruct (length (Chan.buf (Server.reqNewConnChan s))
            <? Chan.cap (Server.reqNewConnChan s))%nat;
    injection H as <- <-; cbn; rewrite ?length_app; cbn;
    repeat split; auto; lia.
Qed.

(** What a step of the server's control channel keeps: nothing parked
    on the request queue; tokens put on the queue are tokens written or
    tokens still queued; a Restart is started only on the way out. *)
Lemma server_step_tokens e s h s' h' t :
  Server.step e (s, h) = Some (s', h', t) ->
  Chan.recvq (Server.reqNewConnChan s) = 0%nat ->
  Chan.sendq (Server.reqNewConnChan s) = [] ->
  Chan.recvq (Server.reqNewConnChan s') = 0%nat
  /\ Chan.sendq (Server.reqNewConnChan s') = []
  /\ (length (filter is_accepted_offer t)
      + length (Chan.buf (Server.reqNewConnChan s))
      = length (filter is_req_write t)
        + length (Chan.buf (Server.reqNewConnChan s')))%nat
  /\ (Runtime.spawned Runtime.is_Restart t
      + (if Server.returned h' then 0 else 1)
      <= (if Server.returned h then 0 else 1))%nat.
Proof.
  intros H Hr Hs.
  destruct e as [r | b | | ]; cbn [Server.step] in H.
  - destruct (Server.reader_goroutine r h) as [h1|] eqn:G; [|discriminate H].
    injection H as <- <- <-.
    unfold Server.reader_goroutine in G.
    destruct (Server.reader h); try discriminate G.
    destruct (Chan.send r (Server.resultChan h)) as [q parks].
    injection G as <-. cbn. repeat split; auto; lia.
  - unfold Server.channelHandler_select in H.
    destruct (Server.returned h) eqn:Ret; [discriminate H|].
    destruct b as [ | w | w | ].
    + destruct (Server.ctx_done s); [|discriminate H].
      injection H as <- <- <-. cbn. repeat split; auto; lia.
    + destruct (Chan.try_recv (Server.reqNewConnChan s)) as [[u q]|] eqn:Q;
        [|discriminate H].
      unfold Chan.try_recv in Q. rewrite Hs in Q.
      destruct (Chan.buf (Server.reqNewConnChan s)) as [|x rest] eqn:B;
        [discriminate Q|].
      injection Q as <- <-.
      destruct w; injection H as <- <- <-; cbn; rewrite ?Ret;
        repeat split; auto; cbn; lia.
    + destruct w; injection H as <- <- <-; cbn; rewrite ?Ret;
        repeat split; auto; cbn; lia.
    + destruct (Chan.try_recv (Server.resultChan h)) as [[[message|] q]|];
        [destruct (message =? _)| |discriminate H];
        injection H as <- <- <-; cbn; repeat split; auto; lia.
  - destruct (Server.offer_req "channel is full" s) as [s1 t1] eqn:O.
    injection H as <- <- <-.
    apply offer_req_tokens in O; auto.
    destruct O as (O1 & O2 & O3 & O4 & O5).
    repeat split; auto; lia.
  - injection H as <- <- <-. cbn. repeat split; auto; lia.
Qed.

Lemma server_run_tokens es : forall s h s' h' t,
  Server.run es (s, h) = Some (s', h', t) ->
  Chan.recvq (Server.reqNewConnChan s) = 0%nat ->
  Chan.sendq (Server.reqNewConnChan s) = [] ->
  (length (filter is_accepted_offer t)
   + length (Chan.buf (Server.reqNewConnChan s))
   = length (filter is_req_write t)
     + length (Chan.buf (Server.reqNewConnChan s')))%nat
  /\ (Runtime.spawned Runtime.is_Restart t
      + (if Server.returned h' then 0 else 1)
      <= (if Server.returned h then 0 else 1))%nat.
Proof.
  induction es as [|e es IH]; intros s h s' h' t H Hr Hs.
  - cbn in H. injection H as <- <- <-. cbn. lia.
  - cbn [Server.run] in H.
    destruct (Server.step e (s, h)) as [[[s1 h1] t1]|] eqn:S1; [|discriminate H].
    destruct (Server.run es (s1, h1)) as [[[s2 h2] t2]|] eqn:R; [|discriminate H].
    injection H as <- <- <-.
    apply server_step_tokens in S1; auto.
    destruct S1 as (R1 & S1' & T1 & B1).
    apply IH in R; auto. destruct R as (T2 & B2).
    rewrite !count_filter_app, spawned_app. lia.
Qed.

(** X5: the server's control channel writer sends one REQ_CHAN byte for
    each request token it drains, no more and no fewer: after any
    schedule of offers, heartbeats, reads and drains, the tokens
    accepted onto the queue plus those queued at the start are the
    REQ_CHAN bytes written plus the tokens still queued.  And the server
    starts at most one Restart per control channel, and none while its
    loop runs. *)
Theorem server_writes_one_request_per_token
    (s : Server.Transport) (es : list Server.event)
    (s' : Server.Transport) (h' : Server.channelHandler_locals)
    (t : list Runtime.effect) :
  Chan.recvq (Server.reqNewConnChan s) = 0%nat ->
  Chan.sendq (Server.reqNewConnChan s) = [] ->
  Server.run es (s, Server.channelHandler_start) = Some (s', h', t) ->
  (length (filter is_accepted_offer t)
   + length (Chan.buf (Server.reqNewConnChan s))
   = length (filter is_req_write t)
     + length (Chan.buf (Server.reqNewConnChan s')))%nat
  /\ (Runtime.spawned Runtime.is_Restart t
      <= (if Server.returned h' then 1 else 0))%nat.
Proof.
  intros Hr Hs H. apply server_run_tokens in H; auto.
  destruct H as [T B]. split; [exact T|].
  cbn in B. destruct (Server.returned h'); lia.
Qed.

Lemma server_writes_one_request_per_token_witness :
  match Server.run token_schedule (quiet_server, Server.channelHandler_start) with
  | Some (s', _, t) =>
      length (filter is_accepted_offer t) = 3%nat
      /\ length (filter is_req_write t) = 2%nat
      /\ length (Chan.buf (Server.reqNewConnChan s')) = 1%nat
  | None => False
  end.
Proof.
  destruct (Server.run token_schedule (quiet_server, Server.channelHandler_start))
    as [[[s' h'] t]|] eqn:R.
  - pose proof (server_writes_one_request_per_token quiet_server token_schedule
                  s' h' t eq_refl eq_refl R) as [H _].
    vm_compute in R. injection R as <- <- <-.
    cbn in H |- *. repeat split; lia.
  - vm_compute in R. discriminate R.
Defined.

(** ** The server's handshake and start *)

Lemma channelHandshake_conn_cases Token k o s :
  ServerAccept.channelHandshake_conn Token k o s
  = (if accepts Token o
     then (ServerAccept.with_controlChannel (Some k) s,
           [Runtime.SendTarget k Token (Some (Signals.byte_of Signals.SG_Chan)) true;
            Runtime.Log Runtime.Info "control channel successfully established."],
           Server.Return)
     else (s, snd (fst (ServerAccept.channelHandshake_conn Token k o s)),
           Server.Continue))
  /\ (accepts Token o = false ->
      closed (snd (fst (ServerAccept.channelHandshake_conn Token k o s))) = [k]
      /\ forall g, Runtime.spawned g
                     (snd (fst (ServerAccept.channelHandshake_conn Token k o s)))
                   = 0%nat).
Proof.
  unfold ServerAccept.channelHandshake_conn, accepts.
  destruct (ServerAccept.deadline_ok o); cbn [negb andb];
    [|split; [reflexivity | intros _; split; reflexivity]].
  destruct (ServerAccept.transport o =? Signals.byte_of Signals.SG_Chan);
    cbn [negb andb]; [|split; [reflexivity | intros _; split; reflexivity]].
  destruct (ServerAccept.recv_err o) as [timeout|]; cbn [andb].
  { destruct timeout; split; [reflexivity | intros _; split; reflexivity
                             | reflexivity | intros _; split; reflexivity]. }
  destruct (String.eqb (ServerAccept.msg o) Token); cbn [negb andb];
    [|split; [reflexivity | intros _; split; reflexivity]].
  destruct (ServerAccept.echo_ok o); cbn [negb];
    split; try reflexivity; try discriminate.
  intros _; split; reflexivity.
Qed.

(** What [channelHandshake] leaves behind, from a server without a
    control channel. *)
Lemma channelHandshake_spec Token bs : forall s s' t f,
  ServerAccept.channelHandshake Token bs s = Some (s', t, f) ->
  Server.controlChannel s = None ->
  Server.config s' = Server.config s
  /\ (forall g, Runtime.spawned g t = 0%nat)
  /\ exists taken,
       pending (Server.tunnelChannel s) = taken ++ pending (Server.tunnelChannel s')
       /\ match Server.controlChannel s' with
          | Some k =>
              f = Server.Return /\ taken = closed t ++ [k]
              /\ exists o, In (ServerAccept.HkConn o) bs /\ accepts Token o = true
          | None => taken = closed t
          end.
Proof.
  induction bs as [|b bs IH]; intros s s' t f H Hnil.
  - cbn in H. injection H as <- <- <-. rewrite Hnil.
    split; [reflexivity|]. split; [reflexivity|]. exists []. auto.
  - cbn [ServerAccept.channelHandshake] in H.
    destruct b as [|o]; cbn [ServerAccept.channelHandshake_select] in H.
    + destruct (Server.ctx_done s); [|discriminate H].
      injection H as <- <- <-. rewrite Hnil.
      split; [reflexivity|]. split; [reflexivity|]. exists []. auto.
    + destruct (Chan.try_recv (Server.tunnelChannel s)) as [[k q]|] eqn:Q;
        [|discriminate H].
      apply try_recv_pending in Q. destruct Q as (Q1 & _ & _).
      destruct (channelHandshake_conn_cases Token k o (Server.with_tunnelChannel q s))
        as [E C].
      destruct (accepts Token o) eqn:A.
      * rewrite E in H. injection H as <- <- <-. cbn.
        split; [reflexivity|]. split; [reflexivity|].
        exists [k]. split; [rewrite Q1; reflexivity|].
        split; [reflexivity|]. split; [reflexivity|].
        exists o. split; [left; reflexivity | exact A].
      * specialize (C eq_refl). destruct C as [C1 C2].
        rewrite E in H.
        set (t1 := snd (fst (ServerAccept.channelHandshake_conn Token k o
                               (Server.with_tunnelChannel q s)))) in *.
        destruct (ServerAccept.channelHandshake Token bs (Server.with_tunnelChannel q s))
          as [[[s2 t2] f2]|] eqn:R; [|discriminate H].
        injection H as <- <- <-.
        apply IH in R; [|exact Hnil].
        destruct R as (Rc & Rg & taken & Rp & Rm).
        split; [exact Rc|].
        split; [intros g; rewrite spawned_app, C2, Rg; reflexivity|].
        exists (k :: taken). cbn [Server.tunnelChannel Server.with_tunnelChannel] in Rp.
        split; [rewrite Q1, Rp; reflexivity|].
        rewrite closed_app, C1.
        destruct (Server.controlChannel s2) as [k2|].
        -- destruct Rm as (Rf & Rt & o2 & Ro & Ra).
           split; [exact Rf|]. split; [rewrite Rt; reflexivity|].
           exists o2. split; [right; exact Ro | exact Ra].
        -- rewrite Rm. reflexivity.
Qed.

Lemma spawned_cons g e l :
  Runtime.spawned g (e :: l)
  = ((if Runtime.is_go g e then 1 else 0) + Runtime.spawned g l)%nat.
Proof.
  unfold Runtime.spawned. cbn [filter].
  destruct (Runtime.is_go g e); reflexivity.
Qed.

Lemma closed_repeat_go g n : closed (repeat (Runtime.Go g) n) = [].
Proof. induction n as [|n IH]; [reflexivity | exact IH]. Qed.

Lemma spawned_repeat_go g g' n :
  Runtime.spawned g (repeat (Runtime.Go g') n) = (if g g' then n else 0)%nat.
Proof.
  induction n as [|n IH]; [destruct (g g'); reflexivity|].
  cbn [repeat]. unfold Runtime.spawned in *. cbn [filter Runtime.is_go].
  destruct (g g'); cbn [length]; lia.
Qed.

(** X6: [Start] of the tcp server installs a control channel only after
    a handshake it accepts: deadline set, tag REQ_CHAN, no read error,
    the server's own token, echo written.  It takes connections off the
    tunnel queue in order, closes every one it rejects and keeps only
    the accepted one.  It then starts the port mappings, the control
    channel handler and [min numCPU 4] pairing workers, and when the
    handshake ends without a control channel it starts none of them. *)
Theorem server_Start_after_handshake
    (Token : string) (numCPU : Z) (bs : list ServerAccept.hk_branch)
    (s s' : Server.Transport) (t : list Runtime.effect) (f : Server.flow) :
  Server.controlChannel s = None ->
  ServerAccept.Start Token numCPU bs s = Some (s', t, f) ->
  exists taken,
    pending (Server.tunnelChannel s) = taken ++ pending (Server.tunnelChannel s')
    /\ match Server.controlChannel s' with
       | Some k =>
           f = Server.Return /\ taken = closed t ++ [k]
           /\ (exists o, In (ServerAccept.HkConn o) bs /\ accepts Token o = true)
           /\ Z.of_nat (Runtime.spawned is_handleLoop t) = Z.max 0 (Z.min numCPU 4)
           /\ Runtime.spawned is_channelHandler t = 1%nat
           /\ Runtime.spawned is_parsePortMappings t = 1%nat
       | None =>
           taken = closed t
           /\ Runtime.spawned is_handleLoop t = 0%nat
           /\ Runtime.spawned is_channelHandler t = 0%nat
           /\ Runtime.spawned is_parsePortMappings t = 0%nat
       end.
Proof.
  intros Hnil H. unfold ServerAccept.Start in H.
  destruct (ServerAccept.channelHandshake Token bs
              (ServerAccept.with_status "Disconnected (TCP)" s))
    as [[[s1 t1] f1]|] eqn:R; [|discriminate H].
  apply channelHandshake_spec in R; [|exact Hnil].
  destruct R as (Rc & Rg & taken & Rp & Rm).
  cbn [Server.tunnelChannel ServerAccept.with_status] in Rp.
  set (t0 := (if 0 <? Server.WebPort (Server.config s)
              then [Runtime.Go Runtime.g_Monitor] else [])
               ++ [Runtime.Go Runtime.g_tunnelListener]) in *.
  assert (C0 : closed t0 = []).
  { subst t0. destruct (0 <? _); reflexivity. }
  assert (S0 : forall g, g Runtime.g_Monitor = false ->
                         g Runtime.g_tunnelListener = false ->
                         Runtime.spawned g t0 = 0%nat).
  { intros g G1 G2. subst t0. unfold Runtime.spawned.
    destruct (0 <? _); cbn; rewrite ?G1, ?G2; reflexivity. }
  exists taken.
  destruct f1.
  - (* still in the handshake *)
    injection H as <- <- <-. split; [exact Rp|].
    destruct (Server.controlChannel s1) as [k|].
    + destruct Rm as (Rf & _). discriminate Rf.
    + rewrite closed_app, C0, !spawned_app, !Rg, !S0 by reflexivity.
      repeat split; auto.
  - destruct (Server.controlChannel s1) as [k|] eqn:K.
    + destruct Rm as (_ & Rt & Ro).
      injection H as <- <- <-.
      cbn [Server.tunnelChannel Server.controlChannel ServerAccept.with_status].
      rewrite K. split; [exact Rp|].
      rewrite !closed_app, C0, !spawned_app, !Rg, !S0 by reflexivity.
      rewrite !spawned_cons, !spawned_repeat_go.
      cbn [Runtime.is_go is_handleLoop is_channelHandler is_parsePortMappings closed
           flat_map app].
      rewrite closed_repeat_go, !app_nil_r.
      split; [reflexivity|]. split; [exact Rt|]. split; [exact Ro|].
      split; [|split; reflexivity].
      destruct (4 <? numCPU) eqn:E;
        [apply Z.ltb_lt in E | apply Z.ltb_ge in E]; lia.
    + injection H as <- <- <-. rewrite K. split; [exact Rp|].
      rewrite closed_app, C0, !spawned_app, !Rg, !S0 by reflexivity.
      repeat split; auto.
Qed.

Lemma server_Start_after_handshake_witness :
  match ServerAccept.Start "musix" 8 handshakes fresh_server with
  | Some (s', t, _) =>
      Server.controlChannel s' = Some 5%nat
      /\ closed t = [3; 4]%nat
      /\ Runtime.spawned is_handleLoop t = 4%nat
  | None => False
  end.
Proof.
  destruct (ServerAccept.Start "musix" 8 handshakes fresh_server)
    as [[[s' t] f]|] eqn:R.
  - pose proof (server_Start_after_handshake "musix" 8 handshakes fresh_server
                  s' t f eq_refl R) as (taken & _ & H).
    vm_compute in R. injection R as <- <- <-.
    cbn [Server.controlChannel ServerAccept.with_status
         ServerAccept.with_controlChannel Server.with_tunnelChannel] in H.
    destruct H as (_ & _ & _ & H & _).
    split; [reflexivity|]. split; [reflexivity|]. lia.
  - vm_compute in R. discriminate R.
Defined.

(** ** The tunnel listener *)

Lemma perm_interleave {A} (a1 b1 o1 a2 b2 o2 : list A) :
  Permutation (a1 ++ b1) o1 -> Permutation (a2 ++ b2) o2 ->
  Permutation ((a1 ++ a2) ++ (b1 ++ b2)) (o1 ++ o2).
Proof.
  intros P1 P2.
  apply Permutation_trans with ((a1 ++ b1) ++ (a2 ++ b2)).
  - rewrite <- !app_assoc. apply Permutation_app_head.
    rewrite !app_assoc. apply Permutation_app_tail. apply Permutation_app_comm.
  - apply Permutation_app; assumption.
Qed.

Lemma try_send_queue {A} (x : A) (q : Chan.chan A) :
  Chan.recvq q = 0%nat ->
  match Chan.sent_chan (Chan.try_send x q) with
  | Some q' => Chan.buf q' = Chan.buf q ++ [x] /\ Chan.recvq q' = 0%nat
  | None => True
  end.
Proof.
  unfold Chan.try_send, Chan.sent_chan. intros ->.
  destruct (length (Chan.buf q) <? Chan.cap q)%nat; cbn; auto.
Qed.

Lemma suspicious_ip ip s k kc :
  Server.controlChannel s = Some kc ->
  ServerAccept.suspicious ip s k = false -> ip k = ip kc.
Proof.
  unfold ServerAccept.suspicious. intros -> H.
  apply negb_false_iff, String.eqb_eq in H. congruence.
Qed.

Lemma closed_log l m t : closed (Runtime.Log l m :: t) = closed t.
Proof. reflexivity. Qed.

Lemma closed_nodelay s nodelay_ok : closed (Server.Tcp.set_nodelay s nodelay_ok) = [].
Proof.
  unfold Server.Tcp.set_nodelay.
  destruct (Server.Nodelay (Server.config s)), nodelay_ok; reflexivity.
Qed.

Lemma closed_keepalive ka p : closed (ServerAccept.set_keepalive ka p) = [].
Proof. destruct ka, p; reflexivity. Qed.

Ltac closed_trace :=
  rewrite ?closed_log, ?closed_app, ?closed_nodelay, ?closed_keepalive;
  cbn [closed flat_map app].

Lemma acceptTunnelConn_round ip a s s1 t1 f1 :
  ServerAccept.acceptTunnelConn ip a s = (s1, t1, f1) ->
  Server.ctx_done s = false ->
  Chan.recvq (Server.tunnelChannel s) = 0%nat ->
  f1 = Server.Continue
  /\ Server.ctx_done s1 = false
  /\ Chan.recvq (Server.tunnelChannel s1) = 0%nat
  /\ Server.controlChannel s1 = Server.controlChannel s
  /\ queue_grows ip s s1 t1 (offered_conn a).
Proof.
  unfold ServerAccept.acceptTunnelConn, queue_grows, offered_conn.
  intros H Hctx Hr. rewrite Hctx in H.
  destruct (ServerAccept.accepted a) as [ | k | k nodelay_ok ].
  - injection H as <- <- <-. repeat split; auto.
    exists []. rewrite app_nil_r. repeat split; auto.
  - injection H as <- <- <-. repeat split; auto.
    exists []. rewrite app_nil_r. repeat split; auto.
  - destruct (ServerAccept.suspicious ip s k) eqn:Su.
    + injection H as <- <- <-. repeat split; auto.
      exists []. rewrite app_nil_r. repeat split; auto.
    + pose proof (try_send_queue k (Server.tunnelChannel s) Hr) as Q.
      destruct (Chan.sent_chan (Chan.try_send k (Server.tunnelChannel s))) as [q|].
      * destruct Q as [Qb Qr]. injection H as <- <- <-.
        split; [reflexivity|]. split; [exact Hctx|]. split; [exact Qr|].
        split; [reflexivity|].
        exists [k]. split; [exact Qb|].
        split; [closed_trace; reflexivity|].
        intros kc Hk. constructor; [|constructor].
        exact (suspicious_ip ip s k kc Hk Su).
      * injection H as <- <- <-. repeat split; auto.
        exists []. split; [rewrite app_nil_r; reflexivity|].
        split; [closed_trace; reflexivity | intros; constructor].
Qed.

Lemma queue_grows_trans ip s s1 s2 t1 t2 g1 g2 :
  Server.controlChannel s1 = Server.controlChannel s ->
  queue_grows ip s s1 t1 g1 -> queue_grows ip s1 s2 t2 g2 ->
  queue_grows ip s s2 (t1 ++ t2) (g1 ++ g2).
Proof.
  intros Hc (new1 & B1 & P1 & F1) (new2 & B2 & P2 & F2).
  exists (new1 ++ new2). split; [rewrite B2, B1, app_assoc; reflexivity|].
  split; [rewrite closed_app; apply perm_interleave; assumption|].
  intros kc Hk. apply Forall_app. split; [apply F1; exact Hk|].
  apply F2. rewrite Hc. exact Hk.
Qed.

Lemma queue_grows_refl ip s : queue_grows ip s s [] [].
Proof.
  exists []. rewrite app_nil_r. repeat split; auto.
Qed.

(** X7: the tcp server's tunnel listener neither loses a connection nor
    lets a stranger in.  After any number of rounds, every connection
    it accepted is either appended to the tunnel queue or closed, the
    queue grows at its end only, and while a control channel exists
    every connection appended has the peer address of the control
    channel.  The listener does not touch the control channel. *)
Theorem tunnel_listener_admits_peer_only
    (ip : Runtime.conn -> string) (inputs : list ServerAccept.tunnel_accept) :
  forall s : Server.Transport,
  Server.ctx_done s = false ->
  Chan.recvq (Server.tunnelChannel s) = 0%nat ->
  let '(s', t, _) :=
    ServerAccept.accept_rounds (ServerAccept.acceptTunnelConn ip) inputs s in
  Server.controlChannel s' = Server.controlChannel s
  /\ queue_grows ip s s' t (offered inputs).
Proof.
  induction inputs as [|a inputs IH]; intros s Hctx Hr.
  - cbn. split; [reflexivity | apply queue_grows_refl].
  - cbn [ServerAccept.accept_rounds offered flat_map].
    destruct (ServerAccept.acceptTunnelConn ip a s) as [[s1 t1] f1] eqn:R1.
    apply acceptTunnelConn_round in R1; auto.
    destruct R1 as (-> & Hctx1 & Hr1 & Hc1 & G1).
    specialize (IH s1 Hctx1 Hr1).
    destruct (ServerAccept.accept_rounds (ServerAccept.acceptTunnelConn ip) inputs s1)
      as [[s2 t2] f2].
    destruct IH as [Hc2 G2].
    split; [congruence|].
    exact (queue_grows_trans ip s s1 s2 t1 t2 _ _ Hc1 G1 G2).
Qed.

Lemma tunnel_listener_admits_peer_only_witness :
  let '(s', t, _) :=
    ServerAccept.accept_rounds (ServerAccept.acceptTunnelConn peer)
      tunnel_accepts quiet_server in
  queue_grows peer quiet_server s' t [20; 31; 21; 22]%nat.
Proof.
  pose proof (tunnel_listener_admits_peer_only peer tunnel_accepts quiet_server
                eq_refl eq_refl) as H.
  destruct (ServerAccept.accept_rounds (ServerAccept.acceptTunnelConn peer)
              tunnel_accepts quiet_server) as [[s' t] f].
  exact (proj2 H).
Defined.

Lemma queue_grows_dropped ip s t given :
  closed t = given -> queue_grows ip s s t given.
Proof.
  intros <-. exists []. rewrite app_nil_r. repeat split; auto.
Qed.

Lemma handshake_grows_dropped s t given :
  closed t = given -> handshake_grows s s t given.
Proof.
  intros <-. exists [], []. cbn [app length].
  rewrite Nat.add_0_r, app_nil_r. repeat split. apply Permutation_refl.
Qed.

Lemma handshake_grows_trans s s1 s2 t1 t2 g1 g2 :
  handshake_grows s s1 t1 g1 -> handshake_grows s1 s2 t2 g2 ->
  handshake_grows s s2 (t1 ++ t2) (g1 ++ g2).
Proof.
  intros (h1 & n1 & B1 & R1 & S1 & C1 & P1) (h2 & n2 & B2 & R2 & S2 & C2 & P2).
  exists (h1 ++ h2), (n1 ++ n2).
  split; [rewrite B2, B1, app_assoc; reflexivity|].
  split; [rewrite length_app; lia|].
  split; [congruence|]. split; [congruence|].
  rewrite closed_app.
  apply (Permutation_count_occ Nat.eq_dec). intro x.
  pose proof (proj1 (Permutation_count_occ Nat.eq_dec _ _) P1 x) as Q1.
  pose proof (proj1 (Permutation_count_occ Nat.eq_dec _ _) P2 x) as Q2.
  rewrite !count_occ_app in *. unfold Runtime.conn in *. lia.
Qed.

(** A connection offered to the handshake channel without waiting goes
    to a receiver that stands by, else into a free buffer slot. *)
Lemma try_send_handshake (k : Runtime.conn) (q q' : Chan.chan Runtime.conn) :
  Chan.sent_chan (Chan.try_send k q) = Some q' ->
  exists handed new,
    handed ++ new = [k]
    /\ Chan.buf q' = Chan.buf q ++ new
    /\ (Chan.recvq q' + length handed)%nat = Chan.recvq q
    /\ Chan.sendq q' = Chan.sendq q
    /\ Chan.cap q' = Chan.cap q.
Proof.
  unfold Chan.try_send, Chan.sent_chan.
  destruct (Chan.recvq q) as [|n] eqn:R.
  - destruct (length (Chan.buf q) <? Chan.cap q)%nat; [|discriminate].
    intros H. injection H as <-. exists [], [k]. cbn. auto.
  - intros H. injection H as <-. exists [k], []. cbn.
    rewrite app_nil_r, Nat.add_1_r. auto.
Qed.

Lemma acceptTunnelConn_mux_round ip a s s1 t1 f1 :
  ServerAccept.acceptTunnelConn_mux ip a s = (s1, t1, f1) ->
  Server.ctx_done s = false ->
  Chan.recvq (Server.tunnelChannel s) = 0%nat ->
  f1 = Server.Continue
  /\ Server.ctx_done s1 = false
  /\ Chan.recvq (Server.tunnelChannel s1) = 0%nat
  /\ Server.controlChannel s1 = Server.controlChannel s
  /\ match Server.controlChannel s with
     | None =>
         Server.tunnelChannel s1 = Server.tunnelChannel s
         /\ handshake_grows s s1 t1 (offered_conn a)
     | Some _ =>
         Server.handshakeChannel s1 = Server.handshakeChannel s
         /\ queue_grows ip s s1 t1 (offered_conn a)
     end.
Proof.
  unfold ServerAccept.acceptTunnelConn_mux, offered_conn.
  intros H Hctx Hr. rewrite Hctx in H.
  destruct (ServerAccept.accepted a) as [ | k | k nodelay_ok ].
  - injection H as <- <- <-. repeat (split; [auto; fail|]).
    destruct (Server.controlChannel s);
      (split; [reflexivity|]);
      [apply queue_grows_dropped | apply handshake_grows_dropped]; reflexivity.
  - injection H as <- <- <-. repeat (split; [auto; fail|]).
    destruct (Server.controlChannel s);
      (split; [reflexivity|]);
      [apply queue_grows_dropped | apply handshake_grows_dropped]; reflexivity.
  - destruct (ServerAccept.suspicious ip s k) eqn:Su.
    + injection H as <- <- <-. repeat (split; [auto; fail|]).
      destruct (Server.controlChannel s);
        (split; [reflexivity|]);
        [apply queue_grows_dropped | apply handshake_grows_dropped]; reflexivity.
    + destruct (Server.controlChannel s) as [kc|] eqn:K.
      * destruct (ServerAccept.session_ok a).
        -- pose proof (try_send_queue k (Server.tunnelChannel s) Hr) as Q.
           destruct (Chan.sent_chan (Chan.try_send k (Server.tunnelChannel s)))
             as [q|].
           ++ destruct Q as [Qb Qr]. injection H as <- <- <-.
              split; [reflexivity|]. split; [exact Hctx|]. split; [exact Qr|].
              split; [exact K|]. split; [reflexivity|].
              exists [k]. split; [exact Qb|].
              split; [closed_trace; reflexivity|].
              intros kc' Hk. constructor; [|constructor].
              cbn [Server.controlChannel Server.with_tunnelChannel] in Hk.
              apply (suspicious_ip ip s k kc'); [congruence | exact Su].
           ++ injection H as <- <- <-. repeat (split; [auto; fail|]).
              apply queue_grows_dropped. closed_trace. reflexivity.
        -- injection H as <- <- <-. repeat (split; [auto; fail|]).
           apply queue_grows_dropped. closed_trace. reflexivity.
      * destruct (Chan.sent_chan (Chan.try_send k (Server.handshakeChannel s)))
          as [q|] eqn:Q.
        -- apply try_send_handshake in Q.
           destruct Q as (handed & new & Hk & Qb & Qr & Qs & Qc).
           injection H as <- <- <-.
           split; [reflexivity|]. split; [exact Hctx|]. split; [exact Hr|].
           split; [exact K|]. split; [reflexivity|].
           exists handed, new.
           cbn [Server.handshakeChannel ServerAccept.with_handshakeChannel].
           split; [exact Qb|]. split; [exact Qr|].
           split; [exact Qs|]. split; [exact Qc|].
           closed_trace. rewrite app_nil_r, Hk. reflexivity.
        -- injection H as <- <- <-.
           split; [reflexivity|]. split; [exact Hctx|]. split; [exact Hr|].
           split; [exact K|]. split; [reflexivity|].
           apply handshake_grows_dropped. closed_trace. reflexivity.
Qed.

(** X8: the mux server's tunnel listener routes by the control channel.
    Without one the tunnel queue stays as it is, so no connection
    becomes a session, and every connection accepted is handed to a
    receiver standing in the handshake channel, stored in it, or
    closed: none is dropped open.  With one, the handshake channel is
    left alone, every connection accepted is appended to the tunnel
    queue as a session or closed, and every one appended has the peer
    address of the control channel. *)
Theorem mux_listener_routes_by_control_channel
    (ip : Runtime.conn -> string) (inputs : list ServerAccept.tunnel_accept) :
  forall s : Server.Transport,
  Server.ctx_done s = false ->
  Chan.recvq (Server.tunnelChannel s) = 0%nat ->
  let '(s', t, _) :=
    ServerAccept.accept_rounds (ServerAccept.acceptTunnelConn_mux ip) inputs s in
  Server.controlChannel s' = Server.controlChannel s
  /\ match Server.controlChannel s with
     | None =>
         Server.tunnelChannel s' = Server.tunnelChannel s
         /\ handshake_grows s s' t (offered inputs)
     | Some _ =>
         Server.handshakeChannel s' = Server.handshakeChannel s
         /\ queue_grows ip s s' t (offered inputs)
     end.
Proof.
  induction inputs as [|a inputs IH]; intros s Hctx Hr.
  - cbn. split; [reflexivity|].
    destruct (Server.controlChannel s); split;
      auto using queue_grows_refl, handshake_grows_dropped.
  - cbn [ServerAccept.accept_rounds offered flat_map].
    destruct (ServerAccept.acceptTunnelConn_mux ip a s) as [[s1 t1] f1] eqn:R1.
    apply acceptTunnelConn_mux_round in R1; auto.
    destruct R1 as (-> & Hctx1 & Hr1 & Hc1 & G1).
    specialize (IH s1 Hctx1 Hr1).
    destruct (ServerAccept.accept_rounds (ServerAccept.acceptTunnelConn_mux ip)
                inputs s1) as [[s2 t2] f2].
    destruct IH as [Hc2 G2].
    split; [congruence|].
    rewrite Hc1 in G2.
    destruct (Server.controlChannel s) as [kc|] eqn:K.
    + destruct G1 as [H1 G1]. destruct G2 as [H2 G2].
      split; [congruence|].
      apply (queue_grows_trans ip s s1 s2 t1 t2); auto. congruence.
    + destruct G1 as [H1 G1]. destruct G2 as [H2 G2].
      split; [congruence|].
      exact (handshake_grows_trans s s1 s2 t1 t2 _ _ G1 G2).
Qed.

Lemma mux_listener_routes_by_control_channel_witness :
  (let '(s', t, _) :=
     ServerAccept.accept_rounds (ServerAccept.acceptTunnelConn_mux peer)
       tunnel_accepts handshaking_server in
   Server.tunnelChannel s' = Server.tunnelChannel handshaking_server
   /\ handshake_grows handshaking_server s' t [20; 31; 21; 22]%nat
   /\ Chan.recvq (Server.handshakeChannel s') = 0%nat
   /\ closed t = [31; 21; 22]%nat)
  /\ (let '(s', t, _) :=
        ServerAccept.accept_rounds (ServerAccept.acceptTunnelConn_mux peer)
          tunnel_accepts quiet_server in
      Server.handshakeChannel s' = Server.handshakeChannel quiet_server
      /\ queue_grows peer quiet_server s' t [20; 31; 21; 22]%nat
      /\ Chan.buf (Server.tunnelChannel s') = [20; 21]%nat
      /\ closed t = [31; 22]%nat).
Proof.
  pose proof (mux_listener_routes_by_control_channel peer tunnel_accepts
                handshaking_server eq_refl eq_refl) as H1.
  pose proof (mux_listener_routes_by_control_channel peer tunnel_accepts
                quiet_server eq_refl eq_refl) as H2.
  destruct (ServerAccept.accept_rounds (ServerAccept.acceptTunnelConn_mux peer)
              tunnel_accepts handshaking_server) as [[s1 t1] f1] eqn:R1.
  destruct (ServerAccept.accept_rounds (ServerAccept.acceptTunnelConn_mux peer)
              tunnel_accepts quiet_server) as [[s2 t2] f2] eqn:R2.
  destruct H1 as [_ [A1 A2]]. destruct H2 as [_ [B1 B2]].
  vm_compute in R1. injection R1 as <- <- <-.
  vm_compute in R2. injection R2 as <- <- <-.
  split.
  - split; [exact A1|]. split; [exact A2|]. split; reflexivity.
  - split; [exact B1|]. split; [exact B2|]. split; reflexivity.
Defined.

(** ** User connections in a mux session *)

Lemma copier_snd_app a b : copier_snd (a ++ b) = copier_snd a ++ copier_snd b.
Proof. unfold copier_snd. apply flat_map_app. Qed.

Lemma copier_fst_app a b : copier_fst (a ++ b) = copier_fst a ++ copier_fst b.
Proof. unfold copier_fst. apply flat_map_app. Qed.

Lemma copier_snd_await n : copier_snd (repeat Runtime.AwaitDone n) = [].
Proof. induction n as [|n IH]; [reflexivity | exact IH]. Qed.

Lemma send_perm {A} (q q' : Chan.chan A) (x : A) (parks : bool) :
  Chan.send x q = (q', parks) ->
  Chan.recvq q = 0%nat ->
  Permutation (pending q') ([x] ++ pending q) /\ Chan.recvq q' = 0%nat.
Proof.
  unfold Chan.send, Chan.try_send, pending. intros H Hr. rewrite Hr in H.
  destruct (length (Chan.buf q) <? Chan.cap q)%nat; cbn in H;
    injection H as <- <-; cbn [Chan.buf Chan.sendq Chan.recvq];
    (split; [|reflexivity]).
  - rewrite <- app_assoc.
    apply Permutation_trans with ((Chan.buf q ++ Chan.sendq q) ++ [x]).
    + rewrite <- app_assoc. apply Permutation_app_head, Permutation_app_comm.
    + apply Permutation_app_comm.
  - rewrite app_assoc. apply Permutation_app_comm.
Qed.

Lemma offer_req_local w s :
  Server.localChannel (fst (Server.offer_req w s)) = Server.localChannel s
  /\ copier_snd (snd (Server.offer_req w s)) = [].
Proof.
  unfold Server.offer_req.
  destruct (Chan.sent_chan (Chan.try_send tt (Server.reqNewConnChan s)));
    split; reflexivity.
Qed.

Lemma handleSessionError_resume_local session s c s' t :
  Server.TcpMux.handleSessionError_resume session s c = (s', t) ->
  Server.localChannel s' = Server.localChannel s /\ copier_snd t = [].
Proof.
  unfold Server.TcpMux.handleSessionError_resume, Server.TcpMux.await_done.
  intros H.
  pose proof (offer_req_local "request new connection channel is full" s)
    as [O1 O2].
  destruct (Server.offer_req "request new connection channel is full" s)
    as [s1 t1].
  cbn [fst snd] in O1, O2. injection H as <- <-.
  split; [exact O1|].
  change (copier_snd (t1 ++ repeat Runtime.AwaitDone (Z.to_nat c)
                         ++ [Runtime.ConnClose session]) = []).
  rewrite !copier_snd_app, O2, copier_snd_await. reflexivity.
Qed.

Lemma handleSessionError_requeues session ic s c s' t parks :
  Server.TcpMux.handleSessionError session ic s c = (s', t, parks) ->
  Chan.recvq (Server.localChannel s) = 0%nat ->
  Permutation (pending (Server.localChannel s'))
              ([ic] ++ pending (Server.localChannel s))
  /\ Chan.recvq (Server.localChannel s') = 0%nat
  /\ copier_snd t = [].
Proof.
  unfold Server.TcpMux.handleSessionError.
  intros H Hr.
  destruct (Chan.send ic (Server.localChannel s)) as [q parked] eqn:Q.
  apply send_perm in Q; [|exact Hr]. destruct Q as [Qp Qr].
  destruct parked.
  - injection H as <- <- <-.
    cbn [Server.localChannel Server.with_localChannel].
    split; [exact Qp|]. split; [exact Qr | reflexivity].
  - destruct (Server.TcpMux.handleSessionError_resume session
                (Server.with_localChannel q s) c) as [s1 t1] eqn:E.
    apply handleSessionError_resume_local in E. destruct E as [E1 E2].
    injection H as <- <- <-.
    rewrite E1. cbn [Server.localChannel Server.with_localChannel].
    split; [exact Qp|]. split; [exact Qr|].
    change (copier_snd t1 = []). exact E2.
Qed.

Lemma finalizeSession_local session s c s' t :
  Server.TcpMux.finalizeSession session s c = (s', t) ->
  Server.localChannel s' = Server.localChannel s /\ copier_snd t = [].
Proof.
  unfold Server.TcpMux.finalizeSession, Server.TcpMux.await_done. intros H.
  pose proof (offer_req_local "request new connection channel is full" s)
    as [O1 O2].
  destruct (Server.offer_req "request new connection channel is full" s)
    as [s1 t1].
  cbn [fst snd] in O1, O2. injection H as <- <-.
  split; [exact O1|].
  change (copier_snd (t1 ++ repeat Runtime.AwaitDone (Z.to_nat c)
                         ++ [Runtime.ConnClose session]) = []).
  rewrite !copier_snd_app, O2, copier_snd_await. reflexivity.
Qed.

(** One round hands the user connection it took to a copier or puts it
    back. *)
Lemma handleSession_select_users session b s l s1 l1 t1 :
  Server.TcpMux.handleSession_select session b s l = Some (s1, l1, t1) ->
  Chan.recvq (Server.localChannel s) = 0%nat ->
  Chan.recvq (Server.localChannel s1) = 0%nat
  /\ Permutation (queued_users s) (copier_snd t1 ++ queued_users s1).
Proof.
  unfold Server.TcpMux.handleSession_select, queued_users. intros H Hr.
  destruct (Server.TcpMux.returned l); [discriminate H|].
  destruct (Server.TcpMux.requeueing l).
  { destruct b; try discriminate H.
    destruct (Chan.sendq (Server.localChannel s)) eqn:Q; [|discriminate H].
    destruct (Server.TcpMux.handleSessionError_resume session s
                (Server.TcpMux.counter l)) as [s' t] eqn:E.
    apply handleSessionError_resume_local in E. destruct E as [E1 E2].
    injection H as <- <- <-. rewrite E1, E2.
    split; [exact Hr | reflexivity]. }
  destruct b as [|stream write_ok|]; [| |discriminate H].
  - destruct (Server.ctx_done s); [|discriminate H].
    injection H as <- <- <-. unfold Server.TcpMux.await_done.
    rewrite copier_snd_await. split; [exact Hr | reflexivity].
  - destruct (Chan.try_recv (Server.localChannel s)) as [[ic q]|] eqn:Q;
      [|discriminate H].
    apply try_recv_pending in Q. destruct Q as (Q1 & Q2 & _).
    rewrite Q1.
    assert (Hq : Chan.recvq (Server.localChannel (Server.with_localChannel q s))
                 = 0%nat) by (cbn; congruence).
    assert (Herr : forall s' t parks,
              Server.TcpMux.handleSessionError session ic
                (Server.with_localChannel q s) (Server.TcpMux.counter l)
              = (s', t, parks) ->
              Chan.recvq (Server.localChannel s') = 0%nat
              /\ Permutation (map Server.lconn (ic :: pending q))
                             (copier_snd t
                                ++ map Server.lconn (pending (Server.localChannel s')))).
    { intros s' t parks E. apply handleSessionError_requeues in E; [|exact Hq].
      destruct E as (Ep & Er & Ec). split; [exact Er|].
      rewrite Ec. cbn [app]. apply Permutation_map. symmetry. exact Ep. }
    destruct stream as [st|].
    + destruct write_ok.
      * destruct (GoInt.add (Server.TcpMux.counter l) 1
                  =? Server.MuxCon (Server.config (Server.with_localChannel q s))).
        -- destruct (Server.TcpMux.finalizeSession session
                       (Server.with_localChannel q s)
                       (GoInt.add (Server.TcpMux.counter l) 1)) as [s' t] eqn:F.
           apply finalizeSession_local in F. destruct F as [F1 F2].
           injection H as <- <- <-.
           rewrite F1. cbn [Server.localChannel Server.with_localChannel].
           split; [congruence|].
           change (Permutation (map Server.lconn (ic :: pending q))
                     (copier_snd ([Runtime.OpenStream session true;
                                   Runtime.SendTarget st (Server.remoteAddr ic) None true;
                                   Runtime.Go (Runtime.g_TCPConnectionHandler
                                                 st (Server.lconn ic))] ++ t)
                        ++ map Server.lconn (pending q))).
           rewrite copier_snd_app, F2. reflexivity.
        -- injection H as <- <- <-.
           cbn [Server.localChannel Server.with_localChannel].
           split; [congruence | reflexivity].
      * destruct (Server.TcpMux.handleSessionError session ic
                    (Server.with_localChannel q s) (Server.TcpMux.counter l))
          as [[s' t] parks] eqn:E.
        injection H as <- <- <-. exact (Herr s' t parks eq_refl).
    + destruct (Server.TcpMux.handleSessionError session ic
                  (Server.with_localChannel q s) (Server.TcpMux.counter l))
        as [[s' t] parks] eqn:E.
      injection H as <- <- <-. exact (Herr s' t parks eq_refl).
Qed.

Lemma handleSession_rounds_users session bs : forall s l s' l' t,
  Server.TcpMux.handleSession_rounds session bs s l = Some (s', l', t) ->
  Chan.recvq (Server.localChannel s) = 0%nat ->
  Permutation (queued_users s) (copier_snd t ++ queued_users s').
Proof.
  induction bs as [|b bs IH]; intros s l s' l' t H Hr.
  - cbn in H. injection H as <- <- <-. reflexivity.
  - cbn [Server.TcpMux.handleSession_rounds] in H.
    destruct (Server.TcpMux.handleSession_select session b s l)
      as [[[s1 l1] t1]|] eqn:S1; [|discriminate H].
    destruct (Server.TcpMux.handleSession_rounds session bs s1 l1)
      as [[[s2 l2] t2]|] eqn:R; [|discriminate H].
    injection H as <- <- <-.
    apply handleSession_select_users in S1; [|exact Hr]. destruct S1 as [Hr1 P1].
    apply IH in R; [|exact Hr1].
    rewrite copier_snd_app, <- app_assoc, P1.
    apply Permutation_app_head. exact R.
Qed.

(** X9: a mux session handler never loses a user connection.  After any
    rounds of [handleSession], failed stream opens and failed writes
    included, the user connections that waited on the local queue are
    those handed to a copier together with those waiting on it now: a
    connection whose stream failed is back on the queue. *)
Theorem mux_session_keeps_user_connections
    (session : Runtime.conn) (bs : list Server.TcpMux.hs_branch)
    (s s' : Server.Transport) (l' : Server.TcpMux.handleSession_locals)
    (t : list Runtime.effect) :
  Chan.recvq (Server.localChannel s) = 0%nat ->
  Server.TcpMux.handleSession session bs s = Some (s', l', t) ->
  Permutation (queued_users s) (copier_snd t ++ queued_users s').
Proof.
  intros Hr H. unfold Server.TcpMux.handleSession in H.
  destruct (Server.TcpMux.handleSession_start s) as [l|]; [|discriminate H].
  exact (handleSession_rounds_users session bs s l s' l' t H Hr).
Qed.

Lemma mux_session_keeps_user_connections_witness :
  match Server.TcpMux.handleSession 5%nat failing_session mux_server with
  | Some (s', _, t) =>
      copier_snd t = [9]%nat /\ queued_users s' = [11; 10]%nat
      /\ Permutation [9; 10; 11]%nat (copier_snd t ++ queued_users s')
  | None => False
  end.
Proof.
  destruct (Server.TcpMux.handleSession 5%nat failing_session mux_server)
    as [[[s' l'] t]|] eqn:R.
  - pose proof (mux_session_keeps_user_connections 5%nat failing_session
                  mux_server s' l' t eq_refl R) as H.
    vm_compute in R. injection R as <- <- <-.
    split; [reflexivity|]. split; [reflexivity | exact H].
  - vm_compute in R. discriminate R.
Defined.

(** ** One user connection, one tunnel connection *)

(** Permutations of concatenations, by counting occurrences. *)
Ltac perm_solve :=
  let x := fresh "x" in
  repeat match goal with
         | |- context [?a :: ?l] =>
             lazymatch l with
             | [] => fail
             | _ => change (a :: l) with ([a] ++ l)
             end
         end;
  apply (Permutation_count_occ Nat.eq_dec); intro x;
  repeat match goal with
         | H : Permutation _ _ |- _ =>
             let H' := fresh "C" in
             pose proof (proj1 (Permutation_count_occ Nat.eq_dec _ _) H x) as H';
             clear H
         end;
  rewrite ?count_occ_app, ?count_occ_nil in *;
  unfold Runtime.conn in *; lia.

Lemma parked_cons w ws : parked (w :: ws) = parked_of w ++ parked ws.
Proof. reflexivity. Qed.

Lemma parked_set_nth ws : forall i p p',
  nth_error ws i = Some p ->
  Permutation (parked_of p ++ parked (set_nth i p' ws))
              (parked_of p' ++ parked ws).
Proof.
  induction ws as [|w ws IH]; intros i p p' H.
  - destruct i; discriminate H.
  - destruct i as [|j]; cbn [nth_error] in H; cbn [set_nth];
      rewrite !parked_cons.
    + injection H as ->. perm_solve.
    + specialize (IH j p p' H). perm_solve.
Qed.

Lemma handleLoop_select_conserves b s p s1 p1 t1 :
  Server.Tcp.handleLoop_select b s p = Some (s1, p1, t1) ->
  Permutation (pending (Server.tunnelChannel s))
              (copier_snd t1 ++ closed t1 ++ pending (Server.tunnelChannel s1))
  /\ exists lost,
       Permutation (queued_users s ++ parked_of p)
                   (copier_fst t1 ++ queued_users s1 ++ parked_of p1 ++ lost).
Proof.
  unfold Server.Tcp.handleLoop_select, queued_users. intros H.
  destruct p as [ | localConn | ]; [| |discriminate H]; destruct b as [ | | write_ok ];
    try discriminate H.
  - destruct (Server.ctx_done s); [|discriminate H]. injection H as <- <- <-.
    split; [reflexivity|]. exists []. cbn [copier_fst parked_of flat_map app].
    perm_solve.
  - destruct (Chan.try_recv (Server.localChannel s)) as [[lc q]|] eqn:Q;
      [|discriminate H].
    apply try_recv_pending in Q. destruct Q as (Q1 & _).
    injection H as <- <- <-.
    split; [reflexivity|]. exists [].
    cbn [Server.localChannel Server.with_localChannel parked_of copier_fst flat_map app].
    rewrite Q1. cbn [map]. perm_solve.
  - destruct (Server.ctx_done s); [|discriminate H]. injection H as <- <- <-.
    split; [reflexivity|]. exists [Server.lconn localConn].
    cbn [copier_fst parked_of flat_map app]. perm_solve.
  - destruct (Chan.try_recv (Server.tunnelChannel s)) as [[tc q]|] eqn:Q;
      [|discriminate H].
    apply try_recv_pending in Q. destruct Q as (Q1 & _).
    destruct write_ok; injection H as <- <- <-;
      cbn [Server.tunnelChannel Server.with_tunnelChannel Server.localChannel
           parked_of copier_fst copier_snd closed flat_map app];
      rewrite Q1;
      (split; [perm_solve|]); exists []; perm_solve.
Qed.

Lemma pairing_step_conserves e s ws s1 ws1 t1 :
  Pairing.step e (s, ws) = Some (s1, ws1, t1) ->
  Permutation (pending (Server.tunnelChannel s))
              (copier_snd t1 ++ closed t1 ++ pending (Server.tunnelChannel s1))
  /\ exists lost,
       Permutation (queued_users s ++ parked ws)
                   (copier_fst t1 ++ queued_users s1 ++ parked ws1 ++ lost).
Proof.
  intros H. destruct e as [i b|]; cbn [Pairing.step] in H.
  - destruct (nth_error ws i) as [p|] eqn:N; [|discriminate H].
    destruct (Server.Tcp.handleLoop_select b s p) as [[[s' p'] t']|] eqn:S1;
      [|discriminate H].
    injection H as <- <- <-.
    apply handleLoop_select_conserves in S1. destruct S1 as [T (lost & U)].
    split; [exact T|]. exists lost.
    pose proof (parked_set_nth ws i p p' N) as P.
    perm_solve.
  - injection H as <- <- <-. split; [reflexivity|].
    exists []. cbn [copier_fst flat_map app Server.with_ctx_done].
    unfold queued_users. cbn [Server.localChannel Server.with_ctx_done].
    perm_solve.
Qed.

Lemma pairing_run_conserves es : forall s ws s' ws' t,
  Pairing.run es (s, ws) = Some (s', ws', t) ->
  Permutation (pending (Server.tunnelChannel s))
              (copier_snd t ++ closed t ++ pending (Server.tunnelChannel s'))
  /\ exists lost,
       Permutation (queued_users s ++ parked ws)
                   (copier_fst t ++ queued_users s' ++ parked ws' ++ lost).
Proof.
  induction es as [|e es IH]; intros s ws s' ws' t H.
  - cbn in H. injection H as <- <- <-. split; [reflexivity|].
    exists []. cbn [copier_fst flat_map app]. perm_solve.
  - cbn [Pairing.run] in H.
    destruct (Pairing.step e (s, ws)) as [[[s1 ws1] t1]|] eqn:S1; [|discriminate H].
    destruct (Pairing.run es (s1, ws1)) as [[[s2 ws2] t2]|] eqn:R; [|discriminate H].
    injection H as <- <- <-.
    apply pairing_step_conserves in S1. destruct S1 as [T1 (lost1 & U1)].
    apply IH in R. destruct R as [T2 (lost2 & U2)].
    rewrite copier_snd_app, copier_fst_app, closed_app.
    split; [perm_solve|]. exists (lost1 ++ lost2). perm_solve.
Qed.

(** X10: however the pairing workers of the tcp server interleave, a
    tunnel connection taken off the tunnel queue is either handed to
    exactly one copier or closed, and none is lost; a user connection
    goes to at most one copier.  With distinct connections on the
    queues, no tunnel connection and no user connection appears in two
    copiers. *)
Theorem pairing_is_one_to_one
    (s : Server.Transport) (ws : list Server.Tcp.hl_pc)
    (es : list Pairing.event)
    (s' : Server.Transport) (ws' : list Server.Tcp.hl_pc)
    (t : list Runtime.effect) :
  NoDup (pending (Server.tunnelChannel s)) ->
  NoDup (queued_users s ++ parked ws) ->
  Pairing.run es (s, ws) = Some (s', ws', t) ->
  Permutation (pending (Server.tunnelChannel s))
              (copier_snd t ++ closed t ++ pending (Server.tunnelChannel s'))
  /\ NoDup (copier_snd t)
  /\ NoDup (copier_fst t)
  /\ incl (copier_fst t) (queued_users s ++ parked ws).
Proof.
  intros Nt Nu H. apply pairing_run_conserves in H.
  destruct H as [T (lost & U)].
  split; [exact T|].
  split; [exact (NoDup_app_remove_r _ _ (Permutation_NoDup T Nt))|].
  split; [exact (NoDup_app_remove_r _ _ (Permutation_NoDup U Nu))|].
  intros x Hx. apply (Permutation_in x (Permutation_sym U)).
  apply in_or_app. left. exact Hx.
Qed.

Lemma pairing_is_one_to_one_witness :
  match Pairing.run two_workers
          (busy_server, [Server.Tcp.HlOuter; Server.Tcp.HlOuter]) with
  | Some (_, _, t) =>
      copier_fst t = [10; 9]%nat /\ copier_snd t = [21; 22]%nat
      /\ closed t = [20]%nat /\ NoDup (copier_snd t)
  | None => False
  end.
Proof.
  destruct (Pairing.run two_workers
              (busy_server, [Server.Tcp.HlOuter; Server.Tcp.HlOuter]))
    as [[[s' ws'] t]|] eqn:R.
  - assert (N1 : NoDup (pending (Server.tunnelChannel busy_server))).
    { cbn. repeat constructor; cbn; intuition discriminate. }
    assert (N2 : NoDup (queued_users busy_server
                          ++ parked [Server.Tcp.HlOuter; Server.Tcp.HlOuter])).
    { cbn. repeat constructor; cbn; intuition discriminate. }
    pose proof (pairing_is_one_to_one busy_server _ two_workers s' ws' t N1 N2 R)
      as (_ & H & _).
    vm_compute in R. injection R as <- <- <-.
    repeat split; try reflexivity. exact H.
  - vm_compute in R. discriminate R.
Defined.

(** ** Port mappings *)

Lemma Split_no_eq s : has_eq s = false -> PortMappings.Split s = (s, []).
Proof.
  induction s as [|c s IH]; [reflexivity|].
  cbn [has_eq PortMappings.Split]. intros H.
  apply orb_false_iff in H. destruct H as [Hc Hs].
  rewrite (IH Hs), Hc. reflexivity.
Qed.

Lemma Split_at_eq l rest :
  has_eq l = false ->
  PortMappings.Split (l ++ String "="%char rest)
  = (l, fst (PortMappings.Split rest) :: snd (PortMappings.Split rest)).
Proof.
  induction l as [|c l IH]; intros H.
  - cbn. destruct (PortMappings.Split rest). reflexivity.
  - cbn [has_eq] in H. apply orb_false_iff in H. destruct H as [Hc Hl].
    cbn [String.append PortMappings.Split]. rewrite (IH Hl), Hc. reflexivity.
Qed.

(** X11: how [parsePortMappings] reads one entry.  An entry without
    [=] is a port: it is fatal exactly when [Atoi] rejects it, and
    otherwise the listener binds [":" ++ Itoa port] and forwards to the
    port as [Itoa] prints it.  An entry [l=r] is never fatal, whatever
    [l] and [r] are: the local address is [l] trimmed, with [":"] put
    before it when [Atoi] reads it, the target is [r] trimmed, and
    everything after a second [=] is ignored. *)
Theorem port_mapping_entry
    (Atoi : string -> option Z) (Itoa : Z -> string)
    (TrimSpace : string -> string) (l r junk : string) :
  has_eq l = false ->
  has_eq r = false ->
  PortMappings.parsePortMapping Atoi Itoa TrimSpace l
    = match Atoi l with
      | Some port => Some (String ":"%char (Itoa port), TrimSpace (Itoa port))
      | None => None
      end
  /\ PortMappings.parsePortMapping Atoi Itoa TrimSpace (l ++ String "="%char r)
     = Some (match Atoi (TrimSpace l) with
             | Some _ => String ":"%char (TrimSpace l)
             | None => TrimSpace l
             end, TrimSpace r)
  /\ PortMappings.parsePortMapping Atoi Itoa TrimSpace
       (l ++ String "="%char (r ++ String "="%char junk))
     = PortMappings.parsePortMapping Atoi Itoa TrimSpace (l ++ String "="%char r).
Proof.
  intros Hl Hr. unfold PortMappings.parsePortMapping.
  rewrite (Split_no_eq l Hl), !(Split_at_eq l _ Hl), (Split_no_eq r Hr),
    (Split_at_eq r _ Hr).
  cbn [fst snd]. repeat split; reflexivity.
Qed.

Lemma port_mapping_entry_witness :
  PortMappings.parsePortMapping digit_Atoi digit_Itoa (fun s => s) "7"
    = Some (":7", "7")
  /\ PortMappings.parsePortMapping digit_Atoi digit_Itoa (fun s => s) "7=:9090=x"
     = Some (":7", ":9090").
Proof.
  pose proof (port_mapping_entry digit_Atoi digit_Itoa (fun s => s)
                "7" ":9090" "x" eq_refl eq_refl) as (H1 & H2 & H3).
  split; [exact H1|].
  change ("7=:9090=x") with ("7" ++ String "="%char (":9090" ++ String "="%char "x"))%string.
  rewrite H3. exact H2.
Defined.



